(** * Response cache and cache warmer of the climate-risk API

    A shallow embedding of [src/middleware/cache.js] (the tiered, ETag-aware
    [InMemoryCache]), of the GeoJSON route of [src/routes/climate-data.js]
    and of the cache warming service, followed by the properties of the
    specification that concern them.

    Conventions of the embedding:
    - a JavaScript [Map] is an insertion-ordered association list;
    - JavaScript numbers that the code only uses as integers (counters,
      millisecond timestamps, TTLs, sizes) are [Z];
    - [Date.now()] is an explicit reading passed to the method that makes it;
    - [crypto] and [JSON.stringify] are an interface ([Digest]);
    - [res.json] is the framework's: Express's [res.send] with its freshness
      test ([req.fresh], package [fresh]), written out as far as it decides
      the status and the body of a response; what it takes from elsewhere
      is an interface ([Express]);
    - the headers of a response are the ones written with [setHeader] under
      the names the code uses ([ETag], [X-Cache], [X-Cache-Key],
      [Cache-Control]);
    - [console] output is not modelled. *)

From Stdlib Require Import ZArith List String Ascii Bool Lia Permutation QArith.
From Stdlib Require Import DecimalString.
Import ListNotations.

#[local] Open Scope string_scope.
#[local] Open Scope Z_scope.
#[local] Set Warnings "-register-all".

(* ------------------------------------------------------------------ *)
(** ** JavaScript values and strings *)

Module JS.

(** JSON-serialisable values, the payloads the cache stores. *)
Inductive json : Type :=
| JNull
| JBool (b : bool)
| JNum (n : Z)
| JStr (s : string)
| JArr (items : list json)
| JObj (fields : list (string * json)).

(** Truthiness, as tested by [if (x)], [!x] and [x || y]. *)
Definition truthy (j : json) : bool :=
  match j with
  | JNull => false
  | JBool b => b
  | JNum n => negb (n =? 0)
  | JStr s => negb (String.eqb s "")
  | JArr _ => true
  | JObj _ => true
  end.

(** [x || d] on a possibly missing number ([null], [undefined] and [0] are
    all falsy). *)
Definition num_or (x : option Z) (d : Z) : Z :=
  match x with
  | Some v => if v =? 0 then d else v
  | None => d
  end.

(** [s.includes(sub)]: [sub] occurs in [s] at some position. *)
Fixpoint includes (s sub : string) : bool :=
  if String.prefix sub s then true
  else match s with
       | EmptyString => false
       | String _ rest => includes rest sub
       end.

(** Template-literal rendering of an integer. *)
Definition Z_to_string (z : Z) : string :=
  NilZero.string_of_int (Z.to_int z).

(** Number of constructors of a value. *)
Fixpoint json_size (j : json) : nat :=
  match j with
  | JArr items => S (fold_right (fun x acc => (json_size x + acc)%nat) 0%nat items)
  | JObj fields =>
      S (fold_right (fun kv acc => (json_size (snd kv) + acc)%nat) 0%nat fields)
  | _ => 1%nat
  end.

End JS.

(* ------------------------------------------------------------------ *)
(** ** The JavaScript [Map]: an insertion-ordered finite map *)

Module JsMap.

Section Ops.
Context {V : Type}.

Definition t := list (string * V).

Definition keys (m : t) : list string := List.map fst m.

Definition size (m : t) : Z := Z.of_nat (List.length m).

(** [m.get(k)] *)
Fixpoint get (k : string) (m : t) : option V :=
  match m with
  | [] => None
  | (k', v) :: rest => if String.eqb k k' then Some v else get k rest
  end.

(** [m.delete(k)] *)
Fixpoint delete (k : string) (m : t) : t :=
  match m with
  | [] => []
  | (k', v) :: rest =>
      if String.eqb k k' then rest else (k', v) :: delete k rest
  end.

(** [m.set(k, v)]: an existing key keeps its position, a new key goes last. *)
Fixpoint set (k : string) (v : V) (m : t) : t :=
  match m with
  | [] => [(k, v)]
  | (k', v') :: rest =>
      if String.eqb k k' then (k', v) :: rest else (k', v') :: set k v rest
  end.

(** [m.keys().next().value]; [None] is [undefined]. *)
Definition first_key (m : t) : option string :=
  match m with
  | [] => None
  | (k, _) :: _ => Some k
  end.

(** [m.delete(m.keys().next().value)]; deleting [undefined] does nothing. *)
Definition delete_first (m : t) : t :=
  match first_key m with
  | Some k => delete k m
  | None => m
  end.

(** Keys of a [Map] are unique. *)
Definition wf (m : t) : Prop := NoDup (keys m).

End Ops.

Arguments t : clear implicits.

End JsMap.

(* ------------------------------------------------------------------ *)
(** ** [src/middleware/cache.js]: the tiered, ETag-aware [InMemoryCache] *)

Import JS.

(** [JSON.stringify] and the hex MD5 digest of [crypto]; a hex digest is
    never the empty string. *)
Class Digest : Type := {
  JSON_stringify : json -> string;
  md5_hex : string -> string;
  md5_hex_nonempty : forall content, md5_hex content <> ""
}.

(** What [res.json] takes from the application settings and from parts of
    the freshness test that are not written out here. *)
Class Express : Type := {
  (** the ETag that the application's [etag fn] computes for a body;
      [res.send] sets it on a response that carries none *)
  etag_fn : json -> option string;
  (** [CACHE_CONTROL_NO_CACHE_REGEXP.test(cacheControl)]: the request's
      [Cache-Control] carries the directive [no-cache] *)
  no_cache : string -> bool;
  (** the [If-Modified-Since] part of the freshness test, on the request
      headers and the [Last-Modified] of the response, as the installed
      version of the package applies it (with the parsing of the two
      dates): [false] when it finds the request stale *)
  not_modified_since : list (string * string) -> option string -> bool;
  (** without an [If-Modified-Since] header this part finds nothing stale *)
  not_modified_since_absent :
    forall reqHeaders lastModified,
      JsMap.get "if-modified-since" reqHeaders = None ->
      not_modified_since reqHeaders lastModified = true
}.

Module Cache.

(** A stored item: [{ data, etag, expiresAt, createdAt }]. *)
Record CacheItem : Type := {
  data : json;
  etag : string;
  expiresAt : Z;
  createdAt : Z
}.

Record TtlSettings : Type := {
  metadata : Z;
  geojson : Z;
  municipalities : Z;
  health : Z;
  default : Z
}.

Record InMemoryCache : Type := {
  cache : JsMap.t CacheItem;
  ttl : Z;
  maxSize : Z;
  hits : Z;
  misses : Z;
  ttlSettings : TtlSettings
}.

Definition with_cache (c : InMemoryCache) (m : JsMap.t CacheItem) : InMemoryCache :=
  {| cache := m; ttl := ttl c; maxSize := maxSize c; hits := hits c;
     misses := misses c; ttlSettings := ttlSettings c |}.

Definition with_counters (c : InMemoryCache) (h m : Z) : InMemoryCache :=
  {| cache := cache c; ttl := ttl c; maxSize := maxSize c; hits := h;
     misses := m; ttlSettings := ttlSettings c |}.

(** [constructor(options = {})] *)
Definition new_InMemoryCache (options_ttl options_maxSize : option Z) : InMemoryCache :=
  {| cache := [];
     ttl := num_or options_ttl 3600000;
     maxSize := num_or options_maxSize 100;
     hits := 0;
     misses := 0;
     ttlSettings :=
       {| metadata := 7 * 24 * 60 * 60 * 1000;
          geojson := 30 * 24 * 60 * 60 * 1000;
          municipalities := 7 * 24 * 60 * 60 * 1000;
          health := 60 * 60 * 1000;
          default := 3600000 |} |}.

(** The singleton the module exports. *)
Definition singleton : InMemoryCache := new_InMemoryCache (Some 3600000) (Some 400).

(** An HTTP request, as far as the middleware reads it. *)
Record Request : Type := {
  method : string;
  originalUrl : string;
  headers : list (string * string)
}.

(** [generateKey(req)] *)
Definition generateKey (req : Request) : string :=
  method req ++ ":" ++ originalUrl req.

(** [determineTTL(url)] *)
Definition determineTTL (c : InMemoryCache) (url : string) : Z :=
  if includes url "/indices" then metadata (ttlSettings c)
  else if includes url "/climate-data/geojson/" then geojson (ttlSettings c)
  else if includes url "/municipalities" then municipalities (ttlSettings c)
  else if includes url "/health" then health (ttlSettings c)
  else default (ttlSettings c).

(** [getCacheControlHeader(ttl)] *)
Definition getCacheControlHeader (ttl : Z) : string :=
  let maxAge := ttl / 1000 in
  "public, max-age=" ++ Z_to_string maxAge.

(** [get(key)], with the reading [now] of [Date.now()]. *)
Definition get (c : InMemoryCache) (key : string) (now : Z)
  : option CacheItem * InMemoryCache :=
  match JsMap.get key (cache c) with
  | None => (None, with_counters c (hits c) (misses c + 1))
  | Some item =>
      if now >? expiresAt item then
        (None,
         with_counters (with_cache c (JsMap.delete key (cache c)))
                       (hits c) (misses c + 1))
      else (Some item, with_counters c (hits c + 1) (misses c))
  end.

(** [clear()] *)
Definition clear (c : InMemoryCache) : InMemoryCache :=
  with_counters (with_cache c []) 0 0.

(** [getStats()]; [hitRate] is kept as the exact percentage
    [hits / total * 100] ([0] when there was no lookup), before its
    rendering by [toFixed(2)]. *)
Record CacheStats : Type := {
  stats_size : Z;
  stats_maxSize : Z;
  stats_hits : Z;
  stats_misses : Z;
  stats_hitRate : Q;
  stats_ttl : Z
}.

Definition getStats (c : InMemoryCache) : CacheStats :=
  let total := hits c + misses c in
  {| stats_size := JsMap.size (cache c);
     stats_maxSize := maxSize c;
     stats_hits := hits c;
     stats_misses := misses c;
     stats_hitRate :=
       if total >? 0 then (hits c # Z.to_pos total) * (100 # 1) else 0%Q;
     stats_ttl := ttl c |}.

Section WithDigest.
Context `{Digest} `{Express}.

(** [generateETag(data)] *)
Definition generateETag (d : json) : string :=
  md5_hex (JSON_stringify d).

(** [set(key, data, customTtl = null)]; [now_expires] and [now_created] are
    its two readings of [Date.now()], in that order. *)
Definition set (c : InMemoryCache) (key : string) (d : json)
  (customTtl : option Z) (now_expires now_created : Z) : InMemoryCache :=
  let m :=
    if JsMap.size (cache c) >=? maxSize c then JsMap.delete_first (cache c)
    else cache c in
  let ttl := num_or customTtl (ttl c) in
  let etag := generateETag d in
  with_cache c
    (JsMap.set key
       {| data := d; etag := etag; expiresAt := now_expires + ttl;
          createdAt := now_created |} m).

(** The object literal that [set] stores; used to state what [set] wrote. *)
Definition stored_item (c : InMemoryCache) (d : json) (customTtl : option Z)
  (now_expires now_created : Z) : CacheItem :=
  {| data := d; etag := generateETag d;
     expiresAt := now_expires + num_or customTtl (ttl c);
     createdAt := now_created |}.

(** The response object, as far as the middleware writes it. *)
Record Response : Type := {
  statusCode : Z;
  resHeaders : JsMap.t string;
  body : option json;
  ended : bool
}.

(** A response nobody has written to yet. *)
Definition fresh_response : Response :=
  {| statusCode := 200; resHeaders := []; body := None; ended := false |}.

Definition setHeader (name value : string) (res : Response) : Response :=
  {| statusCode := statusCode res;
     resHeaders := JsMap.set name value (resHeaders res);
     body := body res; ended := ended res |}.

(** [res.status(code).end()] *)
Definition status_end (code : Z) (res : Response) : Response :=
  {| statusCode := code; resHeaders := resHeaders res; body := None;
     ended := true |}.

(** [req.headers['if-none-match']]; [None] is [undefined]. *)
Definition if_none_match (req : Request) : option string :=
  JsMap.get "if-none-match" (headers req).

(** A header value as a condition ([if (value)], [!value]): [undefined] and
    the empty string are falsy. *)
Definition header_value (h : option string) : option string :=
  match h with
  | Some s => if String.eqb s "" then None else Some s
  | None => None
  end.

(** [parseTokenList(str)] of the package [fresh]: the elements of a
    comma-separated list, without the spaces around them. [token] is the
    element read so far up to its last character that is not a space, and
    [spaces] the spaces read since. *)
Fixpoint parseTokenList_from (token spaces str : string) : list string :=
  match str with
  | EmptyString => [ token ]
  | String ch rest =>
      if Ascii.eqb ch " " then
        if String.eqb token "" then parseTokenList_from "" "" rest
        else parseTokenList_from token (spaces ++ " ") rest
      else if Ascii.eqb ch "," then token :: parseTokenList_from "" "" rest
      else parseTokenList_from (token ++ spaces ++ String ch "") "" rest
  end.

Definition parseTokenList (str : string) : list string :=
  parseTokenList_from "" "" str.

(** [match === etag || match === 'W/' + etag || 'W/' + match === etag] *)
Definition etag_matches (etag m : string) : bool :=
  String.eqb m etag || String.eqb m ("W/" ++ etag) || String.eqb ("W/" ++ m) etag.

(** [fresh(reqHeaders, { etag, 'last-modified' })] *)
Definition fresh (reqHeaders : list (string * string))
  (etag lastModified : option string) : bool :=
  let modifiedSince := header_value (JsMap.get "if-modified-since" reqHeaders) in
  let noneMatch := header_value (JsMap.get "if-none-match" reqHeaders) in
  match modifiedSince, noneMatch with
  | None, None => false
  | _, _ =>
      let reload :=
        match header_value (JsMap.get "cache-control" reqHeaders) with
        | Some cacheControl => no_cache cacheControl
        | None => false
        end in
      if reload then false
      else
        match noneMatch with
        | Some tags =>
            if String.eqb tags "*" then
              not_modified_since reqHeaders lastModified
            else
              match header_value etag with
              | Some e =>
                  if existsb (etag_matches e) (parseTokenList tags) then
                    not_modified_since reqHeaders lastModified
                  else false
              | None => false
              end
        | None => not_modified_since reqHeaders lastModified
        end
  end.

(** The statuses for which [req.fresh] makes the test: 2xx and 304. *)
Definition fresh_status (status : Z) : bool :=
  ((200 <=? status) && (status <? 300)) || (status =? 304).

(** [req.fresh], for the response [res] of the request. *)
Definition req_fresh (req : Request) (res : Response) : bool :=
  if negb (String.eqb (method req) "GET") && negb (String.eqb (method req) "HEAD")
  then false
  else if fresh_status (statusCode res) then
    fresh (headers req) (JsMap.get "ETag" (resHeaders res))
      (JsMap.get "Last-Modified" (resHeaders res))
  else false.

(** The statuses for which [res.send] sends no body. *)
Definition no_body (status : Z) : bool :=
  (status =? 204) || (status =? 304) || (status =? 205).

(** The original [res.json(data)] of the response of [req]: [res.send] of
    the serialised [data]. It gives the response an [ETag] when it has none,
    turns the status into 304 when the request is fresh, and sends the body
    unless the status is 204, 304 or 205 or the method is HEAD. *)
Definition originalJson (req : Request) (d : json) (res : Response) : Response :=
  let res1 :=
    match header_value (JsMap.get "ETag" (resHeaders res)) with
    | Some _ => res
    | None =>
        match header_value (etag_fn d) with
        | Some generated => setHeader "ETag" generated res
        | None => res
        end
    end in
  let status := if req_fresh req res1 then 304 else statusCode res1 in
  {| statusCode := status;
     resHeaders := resHeaders res1;
     body := if no_body status || String.eqb (method req) "HEAD" then None
             else Some d;
     ended := true |}.

(** [clientETag === etag] *)
Definition strict_eq (clientETag : option string) (etag : string) : bool :=
  match clientETag with
  | Some s => String.eqb s etag
  | None => false
  end.

(** What the middleware did with a request. *)
Inductive Outcome : Type :=
| Next (res : Response)
    (* [next()], [res.json] untouched *)
| NextIntercepted (key : string) (ttl : Z) (res : Response)
    (* [next()] after [res.json] was overridden for [key] and [ttl] *)
| Sent (res : Response).
    (* the response was sent, [next] was not called *)

(** The function [middleware()] returns, applied to [(req, res, next)];
    [now] is the reading of [Date.now()] that [get] makes. *)
Definition middleware (c : InMemoryCache) (req : Request) (res : Response)
  (now : Z) : Outcome * InMemoryCache :=
  if negb (String.eqb (method req) "GET") then (Next res, c)
  else if includes (originalUrl req) "/cache/" then (Next res, c)
  else
    let key := generateKey req in
    let '(cachedItem, c1) := get c key now in
    let ttl := determineTTL c1 (originalUrl req) in
    match cachedItem with
    | Some item =>
        let clientETag := if_none_match req in
        if strict_eq clientETag (etag item) then
          (Sent (status_end 304
                   (setHeader "Cache-Control" (getCacheControlHeader ttl)
                      (setHeader "ETag" (etag item)
                         (setHeader "X-Cache" "HIT-304" res)))),
           c1)
        else
          (Sent (originalJson req (data item)
                   (setHeader "Cache-Control" (getCacheControlHeader ttl)
                      (setHeader "ETag" (etag item)
                         (setHeader "X-Cache-Key" key
                            (setHeader "X-Cache" "HIT" res))))),
           c1)
    | None => (NextIntercepted key ttl res, c1)
    end.

(** The overriding [res.json] the middleware installs on a miss for the
    request [req], called by the handler with [data] on the response
    [res]. *)
Definition intercepted_json (c : InMemoryCache) (key : string) (ttl : Z)
  (req : Request) (res : Response) (d : json) (now_expires now_created : Z)
  : Response * InMemoryCache :=
  let '(res1, c1) :=
    if statusCode res =? 200 then
      (setHeader "ETag" (generateETag d) res,
       set c key d (Some ttl) now_expires now_created)
    else (res, c) in
  (originalJson req d
     (setHeader "Cache-Control" (getCacheControlHeader ttl)
        (setHeader "X-Cache-Key" key
           (setHeader "X-Cache" "MISS" res1))),
   c1).

End WithDigest.

End Cache.

(* ------------------------------------------------------------------ *)
(** ** The data-access collaborator ([query] of [config/database.js]) *)

Module Db.

(** How a call ends: with a value, or by throwing an error with a message. *)
Inductive completion (A : Type) : Type :=
| Normal (a : A)
| Thrown (message : string).

Arguments Normal {A} a.
Arguments Thrown {A} message.

(** The SQL texts the modelled code sends; the index code is interpolated
    into the GeoJSON texts as a column name. The route's text and the
    warmer's text differ (the warmer's omits the [id] and [district_code]
    properties), so they are two statements. *)
Inductive Sql : Type :=
| SelectActiveIndices
| SelectMunicipalities
| SelectGeoJSON_route (index : string)
| SelectGeoJSON_warmer (index : string).

(** [query(text, params)]: the rows of the result ([result.rows]), each a
    JSON object, or the error the pool raised. *)
Definition Database : Type := Sql -> list string -> completion (list json).

(** [row.name] on a row that is not [null]; [None] is [undefined]. *)
Definition field (row : json) (name : string) : option json :=
  match row with
  | JObj fields => JsMap.get name fields
  | _ => None
  end.

(** [row === null]: reading a property of such a row throws, where the
    optional chaining [row?.name] gives [undefined]. *)
Definition is_null (row : json) : bool :=
  match row with
  | JNull => true
  | _ => false
  end.

End Db.

Import Db.

(* ------------------------------------------------------------------ *)
(** ** [src/routes/climate-data.js]: the GeoJSON route *)

Module Routes.

(** What a route handler does with its request. *)
Inductive HandlerResult : Type :=
| ResJson (status : Z) (payload : json)
    (* [res.status(status).json(payload)]; [res.json(payload)] is status 200 *)
| NextError (message : string).
    (* [next(error)] *)

Definition validIndices : list string :=
  [ "cdd"; "cwd"; "prcptot"; "r10mm"; "r20mm"; "r95p"; "r99p";
    "r95ptot"; "r99ptot"; "rx1day"; "rx5day"; "sdii";
    "fd"; "tn10p"; "tn90p"; "tnlt2"; "tnn"; "tnx";
    "tx10p"; "tx90p"; "txge30"; "txgt50p"; "txn"; "txx";
    "csdi"; "wsdi"; "txd_tnd" ].

(** [list.includes(x)] on an array of strings. *)
Definition array_includes (l : list string) (x : string) : bool :=
  existsb (String.eqb x) l.

(** The messages of the [TypeError] that reading the property [geojson] of
    [undefined] and of [null] raises. *)
Definition type_error_undefined : string :=
  "Cannot read properties of undefined (reading 'geojson')".

Definition type_error_null : string :=
  "Cannot read properties of null (reading 'geojson')".

(** [GET /geojson/:scenario/:period/:index]. The expression
    [result.rows[0].geojson] throws when there is no first row and when the
    first row is [null]; whatever is thrown inside the [try] goes to
    [next(error)]. On any other first row the property is read: it is
    [undefined] unless the row is an object with that field. *)
Definition geojson_handler (db : Database) (scenario period index : string)
  : HandlerResult :=
  if negb (array_includes validIndices index) then
    ResJson 400
      (JObj [ ("success", JBool false);
              ("error", JStr "Invalid climate index");
              ("valid_indices", JArr (List.map JStr validIndices)) ])
  else
    match db (SelectGeoJSON_route index) [scenario; period] with
    | Thrown e => NextError e
    | Normal [] => NextError type_error_undefined
    | Normal (row :: _) =>
        if is_null row then NextError type_error_null
        else
          match field row "geojson" with
          | Some g =>
              if negb (truthy g) then
                ResJson 404
                  (JObj [ ("success", JBool false);
                          ("error", JStr "No data found for specified parameters") ])
              else ResJson 200 g
          | None =>
              ResJson 404
                (JObj [ ("success", JBool false);
                        ("error", JStr "No data found for specified parameters") ])
          end
    end.

(** The URL under which the server mounts the route
    ([app.use('/api/climate-data', climateDataRoutes)]). *)
Definition geojson_url (scenario period index : string) : string :=
  "/api/climate-data/geojson/" ++ scenario ++ "/" ++ period ++ "/" ++ index.

End Routes.

(* ------------------------------------------------------------------ *)
(** ** The cache warming service *)

Module Warmer.

Import Cache.

Definition CLIMATE_INDICES : list string :=
  [ "cdd"; "cwd"; "prcptot"; "r10mm"; "r20mm"; "r95p"; "r99p";
    "r95ptot"; "r99ptot"; "rx1day"; "rx5day"; "sdii";
    "fd"; "tn10p"; "tn90p"; "tnlt2"; "tnn"; "tnx";
    "tx10p"; "tx90p"; "txge30"; "txgt50p"; "txn"; "txx";
    "csdi"; "wsdi"; "txd_tnd" ].

Definition PRIORITY_INDICES : list string :=
  [ "cdd"; "wsdi"; "txge30"; "prcptot"; "rx1day"; "fd"; "r10mm"; "csdi" ].

(** The fields of the service object. *)
Record CacheWarmingService : Type := {
  warmedCount : Z;
  failedCount : Z;
  startTime : option Z
}.

(** [constructor()] *)
Definition new_CacheWarmingService : CacheWarmingService :=
  {| warmedCount := 0; failedCount := 0; startTime := None |}.

(** What a warm run reads and writes: the service object, the cache object
    it was handed, and how many readings of [Date.now()] were made. *)
Record World : Type := {
  service : CacheWarmingService;
  store : InMemoryCache;
  readings : nat
}.

(** A computation over the world that returns or throws. *)
Definition M (A : Type) : Type := World -> completion A * World.

Definition ret {A : Type} (a : A) : M A := fun w => (Normal a, w).

Definition throw {A : Type} (e : string) : M A := fun w => (Thrown e, w).

Definition bind {A B : Type} (c : M A) (k : A -> M B) : M B :=
  fun w =>
    match c w with
    | (Normal a, w') => k a w'
    | (Thrown e, w') => (Thrown e, w')
    end.

(** [try { body } catch (error) { handler }] *)
Definition try_catch {A : Type} (body : M A) (handler : string -> M A) : M A :=
  fun w =>
    match body w with
    | (Normal a, w') => (Normal a, w')
    | (Thrown e, w') => handler e w'
    end.

(** [for (const x of xs) { await f(x) }] *)
Fixpoint for_each {A : Type} (xs : list A) (f : A -> M unit) : M unit :=
  match xs with
  | [] => ret tt
  | x :: rest => bind (f x) (fun _ => for_each rest f)
  end.

(** The promises of a list of calls, settled one after the other in the
    order of the list. *)
Fixpoint settle_all {A B : Type} (xs : list A) (f : A -> M B) : M (list B) :=
  match xs with
  | [] => ret []
  | x :: rest =>
      bind (f x) (fun b => bind (settle_all rest f) (fun bs => ret (b :: bs)))
  end.

Definition modify_service (f : CacheWarmingService -> CacheWarmingService) : M unit :=
  fun w =>
    (Normal tt,
     {| service := f (service w); store := store w; readings := readings w |}).

Definition add_warmed (n : Z) : M unit :=
  modify_service (fun s =>
    {| warmedCount := warmedCount s + n; failedCount := failedCount s;
       startTime := startTime s |}).

Definition add_failed (n : Z) : M unit :=
  modify_service (fun s =>
    {| warmedCount := warmedCount s; failedCount := failedCount s + n;
       startTime := startTime s |}).

(** [array.slice(i, i + 5)] for [i = 0, 5, 10, ...] while [i < array.length]. *)
Fixpoint batches_of (fuel : nat) (l : list string) : list (list string) :=
  match fuel with
  | O => []
  | S fuel' =>
      match l with
      | [] => []
      | _ => firstn 5 l :: batches_of fuel' (skipn 5 l)
      end
  end.

Definition batches (l : list string) : list (list string) :=
  batches_of (List.length l) l.

(** The 30-day and 7-day TTLs the warmer writes out. *)
Definition geojson_ttl : Z := 30 * 24 * 60 * 60 * 1000.
Definition metadata_ttl : Z := 7 * 24 * 60 * 60 * 1000.

(** The key [warmEntry] builds. *)
Definition warm_key (scenario period index : string) : string :=
  "GET:/api/climate-data/geojson/" ++ scenario ++ "/" ++ period ++ "/" ++ index.

(** The object literal [{ success: true, data }]. *)
Definition success_data (d : json) : json :=
  JObj [ ("success", JBool true); ("data", d) ].

(** The object literal [{ success: true, count: rows.length, data: rows }]. *)
Definition success_count_data (rows : list json) : json :=
  JObj [ ("success", JBool true);
         ("count", JNum (Z.of_nat (List.length rows)));
         ("data", JArr rows) ].

Section Run.
Context `{Digest}.

(** The collaborators of a run: the database, the clock ([clock n] is the
    [n]-th reading of [Date.now()]), and for each batch the order in which
    the queries of its entries complete. *)
Variable db : Database.
Variable clock : nat -> Z.
Variable arrival : list string -> list string.

(** [await query(text, params)] *)
Definition query (text : Sql) (params : list string) : M (list json) :=
  fun w => (db text params, w).

(** [Date.now()] *)
Definition Date_now : M Z :=
  fun w =>
    (Normal (clock (readings w)),
     {| service := service w; store := store w; readings := S (readings w) |}).

(** [cache.set(key, data, ttl)] on the cache object of the world. *)
Definition cache_set (key : string) (d : json) (ttl : Z) : M unit :=
  bind Date_now (fun now_expires =>
  bind Date_now (fun now_created =>
  fun w =>
    (Normal tt,
     {| service := service w;
        store := set (store w) key d (Some ttl) now_expires now_created;
        readings := readings w |}))).

(** [buildGeoJSON(scenario, period, index)] *)
Definition buildGeoJSON (scenario period index : string) : M json :=
  bind (query (SelectGeoJSON_warmer index) [scenario; period]) (fun rows =>
  ret (match rows with
       | [] => JNull
       | row :: _ =>
           match field row "geojson" with
           | Some g => if truthy g then g else JNull
           | None => JNull
           end
       end)).

(** [warmEntry(cache, scenario, period, index)] *)
Definition warmEntry (scenario period index : string) : M bool :=
  try_catch
    (let key := warm_key scenario period index in
     bind (buildGeoJSON scenario period index) (fun d =>
     if truthy d then
       let ttl := geojson_ttl in
       bind (cache_set key (success_data d) ttl) (fun _ =>
       bind (add_warmed 1) (fun _ =>
       ret true))
     else
       bind (add_failed 1) (fun _ =>
       ret false)))
    (fun error =>
       bind (add_failed 1) (fun _ =>
       ret false)).

(** [await Promise.all(batch.map(index => this.warmEntry(...)))]: the
    entries of the batch run to their cache write in the order in which
    their queries complete. *)
Definition warm_batch (scenario period : string) (batch : list string) : M unit :=
  bind (settle_all (arrival batch) (warmEntry scenario period)) (fun _ => ret tt).

(** [warmTier1(cache)] *)
Definition warmTier1 : M unit :=
  let scenario := "ssp245" in
  let period := "near-term_2021-2040" in
  let priorityBatches := batches PRIORITY_INDICES in
  bind (for_each priorityBatches (warm_batch scenario period)) (fun _ =>
  let remainingIndices :=
    filter (fun idx => negb (Routes.array_includes PRIORITY_INDICES idx))
           CLIMATE_INDICES in
  if (0 <? List.length remainingIndices)%nat then
    let remainingBatches := batches remainingIndices in
    for_each remainingBatches (warm_batch scenario period)
  else ret tt).

(** [warmMetadata(cache)] *)
Definition warmMetadata : M unit :=
  try_catch
    (bind (query SelectActiveIndices []) (fun indicesRows =>
     let indicesData := success_count_data indicesRows in
     let ttl := metadata_ttl in
     bind (cache_set "GET:/api/indices" indicesData ttl) (fun _ =>
     bind (query SelectMunicipalities []) (fun municRows =>
     let municData := success_count_data municRows in
     bind (cache_set "GET:/api/municipalities" municData ttl) (fun _ =>
     add_warmed 2)))))
    (fun error => add_failed 2).

(** [warmCache(cache)] *)
Definition warmCache : M unit :=
  bind Date_now (fun t0 =>
  bind (fun w =>
          (Normal tt,
           {| service := {| warmedCount := 0; failedCount := 0;
                            startTime := Some t0 |};
              store := store w; readings := readings w |})) (fun _ =>
  try_catch
    (bind warmMetadata (fun _ =>
     bind warmTier1 (fun _ =>
     bind Date_now (fun _ =>
     ret tt))))
    (fun error => throw error))).

End Run.

(** A warm run of a new service object on the cache [c]: how it ends, the
    counters it reports and the cache it leaves. *)
Definition warm `{Digest} (db : Database) (clock : nat -> Z)
  (arrival : list string -> list string) (c : InMemoryCache)
  : completion unit * World :=
  warmCache db clock arrival
    {| service := new_CacheWarmingService; store := c; readings := 0 |}.

End Warmer.

(* ------------------------------------------------------------------ *)
(** ** Runs of the program: sequences of calls on one cache object *)

Module Runs.

Import Cache.

(** One call [set(key, data, customTtl)] with its two clock readings. *)
Record SetCall : Type := {
  call_key : string;
  call_data : json;
  call_ttl : option Z;
  call_now_expires : Z;
  call_now_created : Z
}.

(** The calls of the list, made one after the other. *)
Definition store_all `{Digest} (c : InMemoryCache) (calls : list SetCall)
  : InMemoryCache :=
  fold_left
    (fun acc s =>
       set acc (call_key s) (call_data s) (call_ttl s)
           (call_now_expires s) (call_now_created s))
    calls c.

(** The states of the cache object in a running server. The object is made
    by the constructor; it is then written by the middleware (the lookup of
    a request, and the overriding [res.json] of any request that was let
    through, called by the handler at some later moment), by [clear()], and
    by a warm run whose batches complete in some order of their entries. *)
Inductive reachable `{Digest} `{Express} : InMemoryCache -> Prop :=
| reach_new (options_ttl options_maxSize : option Z) :
    reachable (new_InMemoryCache options_ttl options_maxSize)
| reach_middleware c req res now :
    reachable c ->
    reachable (snd (middleware c req res now))
| reach_intercepted_json c c0 req res0 now0 key ttl res1 res d now_e now_c :
    reachable c ->
    fst (middleware c0 req res0 now0) = NextIntercepted key ttl res1 ->
    reachable (snd (intercepted_json c key ttl req res d now_e now_c))
| reach_clear c :
    reachable c ->
    reachable (clear c)
| reach_warm c db clock arrival :
    reachable c ->
    (forall batch, Permutation batch (arrival batch)) ->
    reachable (Warmer.store (snd (Warmer.warm db clock arrival c))).


(** A key of the form [GET:<url>] is cacheable when [<url>] is not one of the
    cache-management URLs the middleware lets through. *)
Definition cacheable (key : string) : Prop :=
  forall url, key = "GET:" ++ url -> includes url "/cache/" = false.

Definition keys_cacheable (c : InMemoryCache) : Prop :=
  forall k, In k (JsMap.keys (cache c)) -> cacheable k.

(** Specifications of the warmer's computations: from a world in [P], the
    computation either returns [a] in a world in [Q a], or throws [e] in a
    world in [E e]. *)
Definition triple {A : Type} (P : Warmer.World -> Prop) (m : Warmer.M A)
  (Q : A -> Warmer.World -> Prop) (E : string -> Warmer.World -> Prop) : Prop :=
  forall w, P w ->
    match m w with
    | (Normal a, w') => Q a w'
    | (Thrown e, w') => E e w'
    end.

(** A property of the cache object, as a property of the world. *)
Definition on_store (Inv : InMemoryCache -> Prop) : Warmer.World -> Prop :=
  fun w => Inv (Warmer.store w).

(** The exceptional postcondition of a computation that does not throw. *)
Definition never : string -> Warmer.World -> Prop := fun _ _ => False.

(** The database answers the warmer's GeoJSON statement for [index] with a
    first row whose [geojson] is truthy. *)
Definition good_answer (db : Database) (scenario period index : string) : Prop :=
  exists row rest g,
    db (SelectGeoJSON_warmer index) [scenario; period] = Normal (row :: rest) /\
    field row "geojson" = Some g /\
    truthy g = true.

(** The cache of the world has room for the new keys [ks]. *)
Definition room_for (ks : list string) (w : Warmer.World) : Prop :=
  JsMap.wf (cache (Warmer.store w)) /\
  NoDup ks /\
  (forall k, In k ks -> ~ In k (JsMap.keys (cache (Warmer.store w)))) /\
  JsMap.size (cache (Warmer.store w)) + Z.of_nat (List.length ks)
  <= maxSize (Warmer.store w).

(** From [w] to [w'] the keys [ks] were added last, in that order, nothing
    was removed, and each was counted as warmed. *)
Definition warmed_more (ks : list string) (w w' : Warmer.World) : Prop :=
  JsMap.keys (cache (Warmer.store w'))
  = (JsMap.keys (cache (Warmer.store w)) ++ ks)%list /\
  Warmer.warmedCount (Warmer.service w')
  = Warmer.warmedCount (Warmer.service w) + Z.of_nat (List.length ks) /\
  Warmer.failedCount (Warmer.service w') = Warmer.failedCount (Warmer.service w) /\
  maxSize (Warmer.store w') = maxSize (Warmer.store w) /\
  JsMap.wf (cache (Warmer.store w')).

(** The keys a complete warm run writes: the two metadata keys and one key
    per climate index. *)
Definition warm_keys : list string :=
  "GET:/api/indices" :: "GET:/api/municipalities"
  :: List.map (Warmer.warm_key "ssp245" "near-term_2021-2040")
       Warmer.CLIMATE_INDICES.

(** The item is one that [warmEntry] writes for [index]: the envelope of the
    truthy [geojson] of the first row the database answers, expiring 30 days
    after some reading of the clock. *)
Definition warmed_item (db : Database) (clock : nat -> Z)
  (scenario period index : string) (item : CacheItem) : Prop :=
  exists row rest g r,
    db (SelectGeoJSON_warmer index) [scenario; period] = Normal (row :: rest) /\
    field row "geojson" = Some g /\
    truthy g = true /\
    data item = Warmer.success_data g /\
    expiresAt item = clock r + Warmer.geojson_ttl.

End Runs.

(* ------------------------------------------------------------------ *)
(** ** [src/middleware/cache.js]: the simple [InMemoryCache]

    The second class of the file: no ETag, no tiers, one TTL. *)

Module SimpleCache.

(** A stored item: [{ data, expiresAt, createdAt }]. *)
Record Item : Type := {
  data : json;
  expiresAt : Z;
  createdAt : Z
}.

Record InMemoryCache : Type := {
  cache : JsMap.t Item;
  ttl : Z;
  maxSize : Z;
  hits : Z;
  misses : Z
}.

Definition with_cache (c : InMemoryCache) (m : JsMap.t Item) : InMemoryCache :=
  {| cache := m; ttl := ttl c; maxSize := maxSize c; hits := hits c;
     misses := misses c |}.

Definition with_counters (c : InMemoryCache) (h m : Z) : InMemoryCache :=
  {| cache := cache c; ttl := ttl c; maxSize := maxSize c; hits := h;
     misses := m |}.

(** [constructor(options = {})] *)
Definition new_InMemoryCache (options_ttl options_maxSize : option Z) : InMemoryCache :=
  {| cache := [];
     ttl := num_or options_ttl 3600000;
     maxSize := num_or options_maxSize 100;
     hits := 0;
     misses := 0 |}.

(** The singleton the module exports. *)
Definition singleton : InMemoryCache := new_InMemoryCache (Some 3600000) (Some 200).

(** [generateKey(req)] *)
Definition generateKey (req : Cache.Request) : string :=
  Cache.method req ++ ":" ++ Cache.originalUrl req.

(** [get(key)]: the stored data, or [null]. *)
Definition get (c : InMemoryCache) (key : string) (now : Z)
  : json * InMemoryCache :=
  match JsMap.get key (cache c) with
  | None => (JNull, with_counters c (hits c) (misses c + 1))
  | Some item =>
      if now >? expiresAt item then
        (JNull,
         with_counters (with_cache c (JsMap.delete key (cache c)))
                       (hits c) (misses c + 1))
      else (data item, with_counters c (hits c + 1) (misses c))
  end.

(** [set(key, data, customTtl = null)] *)
Definition set (c : InMemoryCache) (key : string) (d : json)
  (customTtl : option Z) (now_expires now_created : Z) : InMemoryCache :=
  let m :=
    if JsMap.size (cache c) >=? maxSize c then JsMap.delete_first (cache c)
    else cache c in
  let ttl := num_or customTtl (ttl c) in
  with_cache c
    (JsMap.set key
       {| data := d; expiresAt := now_expires + ttl;
          createdAt := now_created |} m).

(** [clear()] *)
Definition clear (c : InMemoryCache) : InMemoryCache :=
  with_counters (with_cache c []) 0 0.

(** [getStats()], with [hitRate] as in [Cache.getStats]. *)
Definition getStats (c : InMemoryCache) : Cache.CacheStats :=
  let total := hits c + misses c in
  {| Cache.stats_size := JsMap.size (cache c);
     Cache.stats_maxSize := maxSize c;
     Cache.stats_hits := hits c;
     Cache.stats_misses := misses c;
     Cache.stats_hitRate :=
       if total >? 0 then (hits c # Z.to_pos total) * (100 # 1) else 0%Q;
     Cache.stats_ttl := ttl c |}.

(** What the middleware did with a request. *)
Inductive Outcome : Type :=
| Next (res : Cache.Response)
| NextIntercepted (key : string) (res : Cache.Response)
| Sent (res : Cache.Response).

Section WithExpress.
Context `{Express}.

(** The function [middleware()] returns, applied to [(req, res, next)]. *)
Definition middleware (c : InMemoryCache) (req : Cache.Request)
  (res : Cache.Response) (now : Z) : Outcome * InMemoryCache :=
  if negb (String.eqb (Cache.method req) "GET") then (Next res, c)
  else
    let key := generateKey req in
    let '(cachedData, c1) := get c key now in
    if truthy cachedData then
      (Sent (Cache.originalJson req cachedData
               (Cache.setHeader "X-Cache-Key" key
                  (Cache.setHeader "X-Cache" "HIT" res))),
       c1)
    else (NextIntercepted key res, c1).

(** The overriding [res.json] the middleware installs for the request
    [req]. *)
Definition intercepted_json (c : InMemoryCache) (key : string)
  (req : Cache.Request) (res : Cache.Response) (d : json)
  (now_expires now_created : Z) : Cache.Response * InMemoryCache :=
  let c1 :=
    if Cache.statusCode res =? 200 then set c key d None now_expires now_created
    else c in
  (Cache.originalJson req d
     (Cache.setHeader "X-Cache-Key" key
        (Cache.setHeader "X-Cache" "MISS" res)),
   c1).

End WithExpress.

(** The tiered cache seen as a simple cache: the fingerprints and the tier
    table are forgotten. *)
Definition forget_item (item : Cache.CacheItem) : Item :=
  {| data := Cache.data item; expiresAt := Cache.expiresAt item;
     createdAt := Cache.createdAt item |}.

Definition forget (c : Cache.InMemoryCache) : InMemoryCache :=
  {| cache := List.map (fun kv => (fst kv, forget_item (snd kv))) (Cache.cache c);
     ttl := Cache.ttl c; maxSize := Cache.maxSize c; hits := Cache.hits c;
     misses := Cache.misses c |}.

End SimpleCache.

(* ------------------------------------------------------------------ *)
(** ** The list routes of the metadata the warmer pre-loads

    [GET /] of the municipalities router and of the indices router. Their
    SQL texts select the same columns, rows and order as the two texts of
    [warmMetadata]. *)

Module MetadataRoutes.

(** [GET /municipalities] *)
Definition municipalities_handler (db : Database) : Routes.HandlerResult :=
  match db SelectMunicipalities [] with
  | Thrown e => Routes.NextError e
  | Normal rows =>
      Routes.ResJson 200
        (JObj [ ("success", JBool true);
                ("count", JNum (Z.of_nat (List.length rows)));
                ("data", JArr rows) ])
  end.

(** [GET /indices] *)
Definition indices_handler (db : Database) : Routes.HandlerResult :=
  match db SelectActiveIndices [] with
  | Thrown e => Routes.NextError e
  | Normal rows =>
      Routes.ResJson 200
        (JObj [ ("success", JBool true);
                ("count", JNum (Z.of_nat (List.length rows)));
                ("data", JArr rows) ])
  end.

End MetadataRoutes.

(* ------------------------------------------------------------------ *)
(** ** The router of [src/routes/climate-data.js]

    Express tries the routes of a router in the order in which they were
    registered. A path is matched segment by segment: a literal segment
    matches itself, whatever the case of its letters, and a [:name] segment
    matches any non-empty segment. The text that each [:name] segment of the
    first matching route captured is then decoded with [decodeURIComponent]:
    when every one decodes, the handler of that route runs; when one does
    not (a malformed percent-escape), the error, of status 400, is passed on
    and no route of the router runs for the request. Paths are given
    relative to the mount point, split at the slashes, without the query
    string and without a trailing slash. *)

Module ClimateDataRouter.

Inductive Segment : Type :=
| Literal (s : string)
| Param (name : string).

(** The five routes, named after their handlers. *)
Inductive Route : Type :=
| MunicipalityAll
| MunicipalityScenarioPeriod
| GeoJSON
| Scenarios
| Periods.

(** The path each [router.get] registers. *)
Definition pattern (r : Route) : list Segment :=
  match r with
  | MunicipalityAll => [ Param "municipalityId" ]
  | MunicipalityScenarioPeriod =>
      [ Param "municipalityId"; Param "scenario"; Param "period" ]
  | GeoJSON =>
      [ Literal "geojson"; Param "scenario"; Param "period"; Param "index" ]
  | Scenarios => [ Literal "scenarios" ]
  | Periods => [ Literal "periods" ]
  end.

(** The routes in the order of their registration. *)
Definition routes : list Route :=
  [ MunicipalityAll; MunicipalityScenarioPeriod; GeoJSON; Scenarios; Periods ].

Definition lower_ascii (a : ascii) : ascii :=
  let n := nat_of_ascii a in
  if ((65 <=? n) && (n <=? 90))%nat then ascii_of_nat (n + 32) else a.

Fixpoint lower (s : string) : string :=
  match s with
  | EmptyString => EmptyString
  | String a rest => String (lower_ascii a) (lower rest)
  end.

Definition segment_matches (p : Segment) (s : string) : bool :=
  match p with
  | Literal l => String.eqb (lower l) (lower s)
  | Param _ => negb (String.eqb s "")
  end.

Fixpoint matches (pat : list Segment) (path : list string) : bool :=
  match pat, path with
  | [], [] => true
  | p :: pat', s :: path' => segment_matches p s && matches pat' path'
  | _, _ => false
  end.

(** The texts that the [:name] segments of a matching pattern capture. *)
Fixpoint captures (pat : list Segment) (path : list string) : list string :=
  match pat, path with
  | Param _ :: pat', s :: path' => s :: captures pat' path'
  | Literal _ :: pat', _ :: path' => captures pat' path'
  | _, _ => []
  end.

(** What the router does with a path. *)
Inductive Dispatch : Type :=
| Handler (r : Route)
    (* the handler of [r] runs *)
| BadRequest
    (* a captured text does not decode: no handler runs, the error of
       status 400 goes to the error handler of the application *)
| NotFound.
    (* no route matches: the request leaves the router *)

Section Decoding.

(** [decodeURIComponent(text)]; [None] is the [URIError] it throws. *)
Variable decodeURIComponent : string -> option string.

Definition decodes (s : string) : bool :=
  match decodeURIComponent s with
  | Some _ => true
  | None => false
  end.

Fixpoint dispatch_from (rs : list Route) (path : list string) : Dispatch :=
  match rs with
  | [] => NotFound
  | r :: rs' =>
      if matches (pattern r) path then
        if forallb decodes (captures (pattern r) path) then Handler r
        else BadRequest
      else dispatch_from rs' path
  end.

(** What the router of the climate-data routes does with a path. *)
Definition dispatch (path : list string) : Dispatch :=
  dispatch_from routes path.

End Decoding.

End ClimateDataRouter.

(* ------------------------------------------------------------------ *)
(** ** Concrete collaborators, for evaluating the model *)

Module Fixtures.

Import Cache.

Definition dquote : string := String (ascii_of_nat 34) EmptyString.

(** A plain rendering of a value, standing for [JSON.stringify]. *)
Fixpoint render (j : json) : string :=
  match j with
  | JNull => "null"
  | JBool true => "true"
  | JBool false => "false"
  | JNum n => Z_to_string n
  | JStr s => dquote ++ s ++ dquote
  | JArr items =>
      "[" ++ fold_right (fun x acc => render x ++ "," ++ acc) "]" items
  | JObj fields =>
      "{" ++ fold_right
               (fun kv acc => dquote ++ fst kv ++ dquote ++ ":" ++ render (snd kv) ++ "," ++ acc)
               "}" fields
  end.

(** A stand-in for the digest: the rendering itself, under a prefix. *)
Definition sample_digest : Digest :=
  {| JSON_stringify := render;
     md5_hex := fun s => "md5:" ++ s;
     md5_hex_nonempty :=
       fun s (Heq : "md5:" ++ s = "") =>
         match Heq in (_ = y)
               return (match y with EmptyString => False | String _ _ => True end)
         with
         | eq_refl => I
         end |}.

(** A stand-in for the framework's part: a weak ETag made of the rendering,
    a reload asked for by the exact header value [no-cache], and an
    [If-Modified-Since] part that finds every request with that header
    stale. *)
Definition sample_express : Express :=
  {| etag_fn := fun d => Some ("W/" ++ dquote ++ render d ++ dquote);
     no_cache := fun cacheControl => String.eqb cacheControl "no-cache";
     not_modified_since :=
       fun reqHeaders _ =>
         match JsMap.get "if-modified-since" reqHeaders with
         | Some _ => false
         | None => true
         end;
     not_modified_since_absent :=
       fun reqHeaders _ Habsent =>
         @eq_ind_r (option string) None
           (fun o => match o with Some _ => false | None => true end = true)
           eq_refl (JsMap.get "if-modified-since" reqHeaders) Habsent |}.

Definition item_of (d : json) (expires created : Z) : CacheItem :=
  {| data := d; etag := @generateETag sample_digest d;
     expiresAt := expires; createdAt := created |}.

(** A cache of maximum size 2 that holds the keys [a] and [b], stored in
    that order at times 10 and 20 with a one-second TTL. *)
Definition two_of_two : InMemoryCache :=
  @set sample_digest
    (@set sample_digest (new_InMemoryCache None (Some 2))
       "a" (JNum 1) (Some 1000) 10 10)
    "b" (JNum 2) (Some 1000) 20 20.

(** An empty cache of maximum size 2 and three calls with distinct keys. *)
Definition empty_of_two : InMemoryCache := new_InMemoryCache None (Some 2).

Definition three_calls : list Runs.SetCall :=
  [ {| Runs.call_key := "a"; Runs.call_data := JNum 1; Runs.call_ttl := None;
       Runs.call_now_expires := 10; Runs.call_now_created := 10 |};
    {| Runs.call_key := "b"; Runs.call_data := JNum 2; Runs.call_ttl := None;
       Runs.call_now_expires := 20; Runs.call_now_created := 20 |};
    {| Runs.call_key := "c"; Runs.call_data := JNum 3; Runs.call_ttl := None;
       Runs.call_now_expires := 30; Runs.call_now_created := 30 |} ].

(** A URL that carries the GeoJSON marker, the municipalities marker and the
    indices marker. *)
Definition url_three_markers : string :=
  "/api/climate-data/geojson/ssp245/near-term_2021-2040/cdd?back=/municipalities&list=/indices".

(** A URL that carries the GeoJSON marker and the municipalities marker. *)
Definition url_two_markers : string :=
  "/api/climate-data/geojson/ssp245/near-term_2021-2040/cdd?back=/municipalities".

(** A request for the list of scenarios, the payload its handler sends, and
    the cache after the middleware let the request through at time 100 and
    the handler answered it at time 150. *)
Definition req_scenarios : Request :=
  {| method := "GET"; originalUrl := "/api/climate-data/scenarios";
     headers := [] |}.

Definition scenarios_payload : json :=
  JObj [ ("success", JBool true); ("scenarios", JArr [ JStr "ssp245" ]) ].

Definition one_cached : InMemoryCache :=
  snd (@intercepted_json sample_digest sample_express
         (snd (@middleware sample_express (new_InMemoryCache None None)
                 req_scenarios fresh_response 100))
         "GET:/api/climate-data/scenarios" 3600000 req_scenarios
         fresh_response scenarios_payload 150 150).

(** The same request, carrying the fingerprint of the cached payload. *)
Definition req_scenarios_conditional : Request :=
  {| method := "GET"; originalUrl := "/api/climate-data/scenarios";
     headers := [ ("if-none-match", @generateETag sample_digest scenarios_payload) ] |}.

(** The same request, carrying the validator that stands for any
    fingerprint. *)
Definition req_scenarios_any : Request :=
  {| method := "GET"; originalUrl := "/api/climate-data/scenarios";
     headers := [ ("if-none-match", "*") ] |}.

(** A feature collection without features. *)
Definition empty_collection : json :=
  JObj [ ("type", JStr "FeatureCollection"); ("features", JArr []) ].

(** A database that answers every GeoJSON statement with one row holding
    [empty_collection] and both metadata statements with no row. *)
Definition db_all_ok : Database :=
  fun text _ =>
    match text with
    | SelectActiveIndices => Normal []
    | SelectMunicipalities => Normal []
    | SelectGeoJSON_route _ => Normal [ JObj [ ("geojson", empty_collection) ] ]
    | SelectGeoJSON_warmer _ => Normal [ JObj [ ("geojson", empty_collection) ] ]
    end.

(** Rows of the two metadata tables, and the same database answering the
    metadata statements with them. *)
Definition index_rows : list json :=
  [ JObj [ ("index_code", JStr "cdd"); ("is_active", JBool true) ] ].

Definition municipality_rows : list json :=
  [ JObj [ ("municipality_name", JStr "Cape Agulhas"); ("province", JStr "WC") ];
    JObj [ ("municipality_name", JStr "Overstrand"); ("province", JStr "WC") ] ].

Definition db_with_metadata : Database :=
  fun text params =>
    match text with
    | SelectActiveIndices => Normal index_rows
    | SelectMunicipalities => Normal municipality_rows
    | _ => db_all_ok text params
    end.

(** A database whose GeoJSON result has a [null] first row. *)
Definition db_null_row : Database :=
  fun text params =>
    match text with
    | SelectGeoJSON_route _ => Normal [ JNull ]
    | SelectGeoJSON_warmer _ => Normal [ JNull ]
    | _ => db_all_ok text params
    end.

(** A stand-in for [decodeURIComponent] that fails on the escape [%zz]. *)
Definition decode_sample (text : string) : option string :=
  if includes text "%zz" then None else Some text.

(** The same database with the pool failing on the index metadata. *)
Definition db_indices_down : Database :=
  fun text params =>
    match text with
    | SelectActiveIndices => Thrown "connect ECONNREFUSED"
    | _ => db_all_ok text params
    end.

(** The same database with the pool failing on the municipalities. *)
Definition db_municipalities_down : Database :=
  fun text params =>
    match text with
    | SelectMunicipalities => Thrown "connect ECONNREFUSED"
    | _ => db_all_ok text params
    end.

(** A clock that advances by one millisecond per reading. *)
Definition clock_ms : nat -> Z := fun n => 1000 + Z.of_nat n.

(** Every batch completes in the order of its entries. *)
Definition in_order : list string -> list string := fun batch => batch.

(** Every batch completes in the reverse order of its entries. *)
Definition reversed : list string -> list string := @rev string.


(** A response on which a handler has set the status 404. *)
Definition response_404 : Response :=
  {| statusCode := 404; resHeaders := []; body := None; ended := false |}.

(** A simple cache that holds the payload [0] under the key of
    [req_scenarios], stored at time 150 with the default TTL. *)
Definition simple_with_zero : SimpleCache.InMemoryCache :=
  SimpleCache.set (SimpleCache.new_InMemoryCache None None)
    "GET:/api/climate-data/scenarios" (JNum 0) None 150 150.

End Fixtures.

(* ------------------------------------------------------------------ *)
(** * Properties *)

(** ** The insertion-ordered map *)

Section MapFacts.
Context {V : Type}.
Implicit Types (m : JsMap.t V) (k : string) (v : V).

Lemma map_get_in_keys m k v :
  JsMap.get k m = Some v -> In k (JsMap.keys m).
Proof.
  induction m as [|[k' v'] rest IH]; simpl; [discriminate|].
  destruct (String.eqb_spec k k') as [->|Hne]; intros Hg.
  - now left.
  - right. now apply IH.
Qed.

Lemma map_get_notin_keys m k :
  ~ In k (JsMap.keys m) -> JsMap.get k m = None.
Proof.
  induction m as [|[k' v'] rest IH]; simpl; [reflexivity|].
  intros Hn. destruct (String.eqb_spec k k') as [->|Hne].
  - exfalso. apply Hn. now left.
  - apply IH. intros Hin. apply Hn. now right.
Qed.

Lemma map_in_keys_get m k :
  In k (JsMap.keys m) -> exists v, JsMap.get k m = Some v.
Proof.
  induction m as [|[k' v'] rest IH]; simpl; [tauto|].
  intros [->|Hin].
  - rewrite String.eqb_refl. now exists v'.
  - destruct (String.eqb k k'); [now exists v'|now apply IH].
Qed.

Lemma map_get_set_same m k v :
  JsMap.get k (JsMap.set k v m) = Some v.
Proof.
  induction m as [|[k' v'] rest IH]; simpl.
  - now rewrite String.eqb_refl.
  - destruct (String.eqb_spec k k') as [->|Hne]; simpl.
    + now rewrite String.eqb_refl.
    + destruct (String.eqb_spec k k'); [contradiction|exact IH].
Qed.

Lemma map_get_set_other m k k' v :
  k <> k' -> JsMap.get k (JsMap.set k' v m) = JsMap.get k m.
Proof.
  intros Hne. induction m as [|[k0 v0] rest IH]; simpl.
  - destruct (String.eqb_spec k k'); [contradiction|reflexivity].
  - destruct (String.eqb_spec k' k0) as [->|Hne0]; simpl.
    + destruct (String.eqb_spec k k0); [contradiction|reflexivity].
    + destruct (String.eqb k k0); [reflexivity|exact IH].
Qed.

Lemma map_keys_set_present m k v :
  In k (JsMap.keys m) -> JsMap.keys (JsMap.set k v m) = JsMap.keys m.
Proof.
  induction m as [|[k' v'] rest IH]; simpl; [tauto|].
  intros Hin. destruct (String.eqb_spec k k') as [->|Hne]; simpl.
  - reflexivity.
  - f_equal. apply IH. destruct Hin as [Heq|Hin]; [congruence|exact Hin].
Qed.

Lemma map_set_absent m k v :
  ~ In k (JsMap.keys m) -> JsMap.set k v m = (m ++ [(k, v)])%list.
Proof.
  induction m as [|[k' v'] rest IH]; simpl; [reflexivity|].
  intros Hn. destruct (String.eqb_spec k k') as [->|Hne].
  - exfalso. apply Hn. now left.
  - f_equal. apply IH. intros Hin. apply Hn. now right.
Qed.

Lemma map_keys_set_absent m k v :
  ~ In k (JsMap.keys m) -> JsMap.keys (JsMap.set k v m) = (JsMap.keys m ++ [k])%list.
Proof.
  intros Hn. rewrite (map_set_absent _ _ _ Hn).
  unfold JsMap.keys. now rewrite map_app.
Qed.

Lemma map_keys_set_incl m k v k0 :
  In k0 (JsMap.keys (JsMap.set k v m)) -> k0 = k \/ In k0 (JsMap.keys m).
Proof.
  induction m as [|[k' v'] rest IH]; simpl.
  - intros [->|[]]. now left.
  - destruct (String.eqb_spec k k') as [->|Hne]; simpl.
    + intros [->|Hin]; right; [now left|now right].
    + intros [->|Hin]; [right; now left|].
      destruct (IH Hin) as [->|Hin']; [now left|right; now right].
Qed.

Lemma map_keys_delete_incl m k k0 :
  In k0 (JsMap.keys (JsMap.delete k m)) -> In k0 (JsMap.keys m).
Proof.
  induction m as [|[k' v'] rest IH]; simpl; [tauto|].
  destruct (String.eqb k k'); simpl.
  - intros Hin. now right.
  - intros [->|Hin]; [now left|right; now apply IH].
Qed.

Lemma map_delete_absent m k :
  ~ In k (JsMap.keys m) -> JsMap.delete k m = m.
Proof.
  induction m as [|[k' v'] rest IH]; simpl; [reflexivity|].
  intros Hn. destruct (String.eqb_spec k k') as [->|Hne].
  - exfalso. apply Hn. now left.
  - f_equal. apply IH. intros Hin. apply Hn. now right.
Qed.

Lemma map_size_delete_present m k :
  In k (JsMap.keys m) ->
  JsMap.size (JsMap.delete k m) = JsMap.size m - 1.
Proof.
  unfold JsMap.size.
  induction m as [|[k' v'] rest IH]; simpl List.length; simpl JsMap.delete;
    [simpl; tauto|].
  intros Hin. destruct (String.eqb_spec k k') as [->|Hne].
  - lia.
  - simpl List.length. destruct Hin as [Heq|Hin]; [simpl in Heq; congruence|].
    specialize (IH Hin). lia.
Qed.

Lemma map_wf_delete m k :
  JsMap.wf m -> JsMap.wf (JsMap.delete k m).
Proof.
  unfold JsMap.wf.
  induction m as [|[k' v'] rest IH]; simpl; [auto|].
  intros Hnd. inversion Hnd as [|? ? Hn Hnd']; subst.
  destruct (String.eqb k k'); [exact Hnd'|].
  simpl. constructor; [|now apply IH].
  intros Hin. apply Hn. now apply map_keys_delete_incl in Hin.
Qed.

Lemma map_get_delete_same m k :
  JsMap.wf m -> JsMap.get k (JsMap.delete k m) = None.
Proof.
  unfold JsMap.wf.
  induction m as [|[k' v'] rest IH]; simpl; [reflexivity|].
  intros Hnd. inversion Hnd as [|? ? Hn Hnd']; subst.
  destruct (String.eqb_spec k k') as [->|Hne].
  - now apply map_get_notin_keys.
  - simpl. destruct (String.eqb_spec k k'); [contradiction|now apply IH].
Qed.

Lemma map_wf_set m k v :
  JsMap.wf m -> JsMap.wf (JsMap.set k v m).
Proof.
  intros Hwf. unfold JsMap.wf in *.
  destruct (in_dec string_dec k (JsMap.keys m)) as [Hin|Hn].
  - now rewrite map_keys_set_present.
  - rewrite map_keys_set_absent by exact Hn.
    apply NoDup_app; [exact Hwf|repeat constructor; simpl; tauto|].
    intros x Hx [->|[]]. contradiction.
Qed.

Lemma map_size_set_present m k v :
  In k (JsMap.keys m) -> JsMap.size (JsMap.set k v m) = JsMap.size m.
Proof.
  intros Hin. unfold JsMap.size.
  rewrite <- (length_map fst (JsMap.set k v m)), <- (length_map fst m).
  fold (JsMap.keys (JsMap.set k v m)). fold (JsMap.keys m).
  now rewrite map_keys_set_present.
Qed.

Lemma map_size_set_absent m k v :
  ~ In k (JsMap.keys m) -> JsMap.size (JsMap.set k v m) = JsMap.size m + 1.
Proof.
  intros Hn. rewrite (map_set_absent _ _ _ Hn). unfold JsMap.size.
  rewrite length_app. simpl. lia.
Qed.

Lemma map_delete_first_cons k v m :
  JsMap.delete_first ((k, v) :: m) = m.
Proof.
  unfold JsMap.delete_first. simpl. now rewrite String.eqb_refl.
Qed.

End MapFacts.

(* ------------------------------------------------------------------ *)
(** ** [InMemoryCache]: lookups and stores *)

Import Cache.

Lemma set_fields `{Digest} c key d customTtl t1 t2 :
  ttl (set c key d customTtl t1 t2) = ttl c /\
  maxSize (set c key d customTtl t1 t2) = maxSize c /\
  hits (set c key d customTtl t1 t2) = hits c /\
  misses (set c key d customTtl t1 t2) = misses c /\
  ttlSettings (set c key d customTtl t1 t2) = ttlSettings c.
Proof. unfold set, with_cache. simpl. repeat split. Qed.

(** Below the maximum size [set] is the [Map]'s own [set]. *)
Lemma set_below_capacity `{Digest} c key d customTtl t1 t2 :
  JsMap.size (cache c) < maxSize c ->
  cache (set c key d customTtl t1 t2)
  = JsMap.set key (stored_item c d customTtl t1 t2) (cache c).
Proof.
  intros Hlt. unfold set, stored_item. simpl.
  destruct (Z.geb_spec (JsMap.size (cache c)) (maxSize c)); [lia|reflexivity].
Qed.

(** At or above the maximum size the first entry goes, whatever the key. *)
Lemma set_at_capacity `{Digest} c key d customTtl t1 t2 k0 item0 rest :
  cache c = (k0, item0) :: rest ->
  maxSize c <= JsMap.size (cache c) ->
  cache (set c key d customTtl t1 t2)
  = JsMap.set key (stored_item c d customTtl t1 t2) rest.
Proof.
  intros Hc Hge. unfold set, stored_item. simpl.
  destruct (Z.geb_spec (JsMap.size (cache c)) (maxSize c)); [|lia].
  now rewrite Hc, map_delete_first_cons.
Qed.

Lemma set_wf `{Digest} c key d customTtl t1 t2 :
  JsMap.wf (cache c) -> JsMap.wf (cache (set c key d customTtl t1 t2)).
Proof.
  intros Hwf. unfold set. simpl. apply map_wf_set.
  destruct (JsMap.size (cache c) >=? maxSize c); [|exact Hwf].
  unfold JsMap.delete_first.
  destruct (JsMap.first_key (cache c)); [now apply map_wf_delete|exact Hwf].
Qed.

Lemma set_keys_incl `{Digest} c key d customTtl t1 t2 k :
  In k (JsMap.keys (cache (set c key d customTtl t1 t2))) ->
  k = key \/ In k (JsMap.keys (cache c)).
Proof.
  unfold set. simpl. intros Hin.
  apply map_keys_set_incl in Hin. destruct Hin as [->|Hin]; [now left|right].
  destruct (JsMap.size (cache c) >=? maxSize c); [|exact Hin].
  unfold JsMap.delete_first in Hin.
  destruct (JsMap.first_key (cache c)); [|exact Hin].
  now apply map_keys_delete_incl in Hin.
Qed.

Lemma set_get_same `{Digest} c key d customTtl t1 t2 :
  JsMap.get key (cache (set c key d customTtl t1 t2))
  = Some (stored_item c d customTtl t1 t2).
Proof. unfold set. simpl. apply map_get_set_same. Qed.

(** C5. For every key whose stored entry has [expiresAt] strictly before the
    reading of the clock at lookup time, [get] returns absent ([null]),
    removes the entry (the key is no longer in the store and the size is one
    less), adds exactly one to the miss counter and leaves the hit counter
    as it was. *)
Theorem get_expired_is_miss_and_removes c key item now :
  JsMap.wf (cache c) ->
  JsMap.get key (cache c) = Some item ->
  expiresAt item < now ->
  fst (get c key now) = None /\
  JsMap.get key (cache (snd (get c key now))) = None /\
  JsMap.size (cache (snd (get c key now))) = JsMap.size (cache c) - 1 /\
  misses (snd (get c key now)) = misses c + 1 /\
  hits (snd (get c key now)) = hits c.
Proof.
  intros Hwf Hget Hexp. unfold get. rewrite Hget.
  destruct (Z.gtb_spec now (expiresAt item)) as [_|Hle]; [|lia].
  simpl. repeat split.
  - now apply map_get_delete_same.
  - apply map_size_delete_present. eapply map_get_in_keys; eassumption.
Qed.

Lemma get_expired_is_miss_and_removes_witness :
  JsMap.wf (cache Fixtures.two_of_two) /\
  JsMap.get "a" (cache Fixtures.two_of_two)
  = Some (Fixtures.item_of (JNum 1) 1010 10) /\
  1010 < 5000 /\
  fst (get Fixtures.two_of_two "a" 5000) = None /\
  JsMap.get "a" (cache (snd (get Fixtures.two_of_two "a" 5000))) = None /\
  JsMap.size (cache (snd (get Fixtures.two_of_two "a" 5000))) = 2 - 1 /\
  misses (snd (get Fixtures.two_of_two "a" 5000)) = 0 + 1 /\
  hits (snd (get Fixtures.two_of_two "a" 5000)) = 0.
Proof.
  assert (Hwf : JsMap.wf (cache Fixtures.two_of_two)).
  { unfold JsMap.wf. vm_compute.
    repeat constructor; simpl; intuition discriminate. }
  assert (Hget : JsMap.get "a" (cache Fixtures.two_of_two)
                 = Some (Fixtures.item_of (JNum 1) 1010 10)) by reflexivity.
  assert (Hexp : 1010 < 5000) by lia.
  split; [exact Hwf|]. split; [exact Hget|]. split; [exact Hexp|].
  exact (get_expired_is_miss_and_removes Fixtures.two_of_two "a"
           (Fixtures.item_of (JNum 1) 1010 10) 5000 Hwf Hget Hexp).
Defined.

(** The two cases of [set] on a non-empty cache at or above its maximum
    size, by whether the key is among the entries that remain. *)
Lemma set_at_capacity_cases `{Digest} c key d customTtl t1 t2 k0 item0 rest :
  JsMap.wf (cache c) ->
  cache c = (k0, item0) :: rest ->
  maxSize c <= JsMap.size (cache c) ->
  (In key (JsMap.keys rest) ->
     JsMap.keys (cache (set c key d customTtl t1 t2)) = JsMap.keys rest) /\
  (~ In key (JsMap.keys rest) ->
     JsMap.keys (cache (set c key d customTtl t1 t2))
     = (JsMap.keys rest ++ [key])%list) /\
  (key = k0 -> ~ In key (JsMap.keys rest)).
Proof.
  intros Hwf Hc Hge.
  rewrite (set_at_capacity c key d customTtl t1 t2 k0 item0 rest Hc Hge).
  split; [|split].
  - now apply map_keys_set_present.
  - now apply map_keys_set_absent.
  - intros ->. unfold JsMap.wf in Hwf. rewrite Hc in Hwf. simpl in Hwf.
    now inversion Hwf.
Qed.

(** C3 as stated does not hold: on a cache that is at its maximum size,
    storing under a key that is already present removes another entry (the
    oldest one), and the size goes down by one. Here the cache of maximum
    size 2 holds [a] and [b]; storing [b] again removes [a]. *)
Lemma set_present_key_at_capacity_removes_another_entry :
  maxSize Fixtures.two_of_two <= JsMap.size (cache Fixtures.two_of_two) /\
  JsMap.keys (cache Fixtures.two_of_two) = ["a"; "b"] /\
  JsMap.keys
    (cache (@set Fixtures.sample_digest Fixtures.two_of_two
              "b" (JNum 3) (Some 1000) 30 30)) = ["b"] /\
  JsMap.size (cache Fixtures.two_of_two) = 2 /\
  JsMap.size
    (cache (@set Fixtures.sample_digest Fixtures.two_of_two
              "b" (JNum 3) (Some 1000) 30 30)) = 1.
Proof. vm_compute. repeat split; congruence. Qed.

(** C3, amended. On a non-empty cache at or above its maximum size, [set]
    removes the oldest-inserted entry whether or not the key is already
    present. When the key is present and is not the oldest, its entry is
    replaced in place and the size goes down by one; when the key is the
    oldest entry itself, or is new, the entry is added last and the size is
    unchanged. *)
Theorem set_at_capacity_always_evicts_oldest `{Digest}
  c key d customTtl t1 t2 k0 item0 rest :
  JsMap.wf (cache c) ->
  cache c = (k0, item0) :: rest ->
  maxSize c <= JsMap.size (cache c) ->
  let c' := set c key d customTtl t1 t2 in
  cache c' = JsMap.set key (stored_item c d customTtl t1 t2) rest /\
  (key <> k0 -> JsMap.get k0 (cache c') = None) /\
  (In key (JsMap.keys rest) ->
     JsMap.keys (cache c') = JsMap.keys rest /\
     JsMap.size (cache c') = JsMap.size (cache c) - 1) /\
  (~ In key (JsMap.keys rest) ->
     JsMap.keys (cache c') = (JsMap.keys rest ++ [key])%list /\
     JsMap.size (cache c') = JsMap.size (cache c)) /\
  (key = k0 -> ~ In key (JsMap.keys rest)).
Proof.
  intros Hwf Hc Hge c'.
  assert (Hcache : cache c' = JsMap.set key (stored_item c d customTtl t1 t2) rest)
    by (eapply set_at_capacity; eassumption).
  assert (Hnd : ~ In k0 (JsMap.keys rest) /\ NoDup (JsMap.keys rest)).
  { unfold JsMap.wf in Hwf. rewrite Hc in Hwf. simpl in Hwf.
    inversion Hwf; subst. now split. }
  destruct Hnd as [Hk0 Hrest].
  assert (Hsize : JsMap.size (cache c) = JsMap.size rest + 1).
  { rewrite Hc. unfold JsMap.size. simpl List.length. lia. }
  split; [exact Hcache|]. rewrite Hcache.
  split; [|split; [|split]].
  - intros Hne. rewrite map_get_set_other by congruence.
    now apply map_get_notin_keys.
  - intros Hin. split.
    + now apply map_keys_set_present.
    + rewrite map_size_set_present by exact Hin. lia.
  - intros Hn. split.
    + now apply map_keys_set_absent.
    + rewrite map_size_set_absent by exact Hn. lia.
  - intros ->. exact Hk0.
Qed.

Lemma set_at_capacity_always_evicts_oldest_witness :
  JsMap.wf (cache Fixtures.two_of_two) /\
  cache Fixtures.two_of_two
  = [ ("a", Fixtures.item_of (JNum 1) 1010 10);
      ("b", Fixtures.item_of (JNum 2) 1020 20) ] /\
  maxSize Fixtures.two_of_two <= JsMap.size (cache Fixtures.two_of_two) /\
  (In "b" (JsMap.keys [ ("b", Fixtures.item_of (JNum 2) 1020 20) ]) ->
   JsMap.keys
     (cache (@set Fixtures.sample_digest Fixtures.two_of_two
               "b" (JNum 3) (Some 1000) 30 30)) = ["b"] /\
   JsMap.size
     (cache (@set Fixtures.sample_digest Fixtures.two_of_two
               "b" (JNum 3) (Some 1000) 30 30)) = 2 - 1).
Proof.
  assert (Hwf : JsMap.wf (cache Fixtures.two_of_two)).
  { unfold JsMap.wf. vm_compute.
    repeat constructor; simpl; intuition discriminate. }
  assert (Hc : cache Fixtures.two_of_two
               = [ ("a", Fixtures.item_of (JNum 1) 1010 10);
                   ("b", Fixtures.item_of (JNum 2) 1020 20) ]) by reflexivity.
  assert (Hge : maxSize Fixtures.two_of_two
                <= JsMap.size (cache Fixtures.two_of_two))
    by (vm_compute; discriminate).
  split; [exact Hwf|]. split; [exact Hc|]. split; [exact Hge|].
  exact (proj1 (proj2 (proj2
           (@set_at_capacity_always_evicts_oldest Fixtures.sample_digest
              Fixtures.two_of_two "b" (JNum 3) (Some 1000) 30 30
              "a" _ _ Hwf Hc Hge)))).
Defined.

(** C10 as stated does not hold: on a cache at its maximum size, the
    earliest-inserted key that is stored again is removed and added last, so
    it is no longer the next entry to be evicted. Here the cache of maximum
    size 2 holds [a] and [b]; after [a] is stored again, the first key, the
    next to be evicted, is [b]. *)
Lemma restored_oldest_key_at_capacity_moves_to_back :
  maxSize Fixtures.two_of_two <= JsMap.size (cache Fixtures.two_of_two) /\
  JsMap.first_key (cache Fixtures.two_of_two) = Some "a" /\
  JsMap.keys
    (cache (@set Fixtures.sample_digest Fixtures.two_of_two
              "a" (JNum 3) (Some 1000) 30 30)) = ["b"; "a"] /\
  JsMap.first_key
    (cache (@set Fixtures.sample_digest Fixtures.two_of_two
              "a" (JNum 3) (Some 1000) 30 30)) = Some "b".
Proof. vm_compute. repeat split; congruence. Qed.

(** C10, amended. Storing again under a key that is present refreshes its
    payload, fingerprint and expiry. While the cache is below its maximum
    size the key keeps its place in the eviction order. At or above the
    maximum size the oldest entry is removed first: a key other than the
    oldest keeps its place among the remaining keys, and the oldest key
    itself is removed and added last, behind every other key. *)
Theorem set_present_key_refreshes_and_orders `{Digest} c key d customTtl t1 t2 :
  JsMap.wf (cache c) ->
  In key (JsMap.keys (cache c)) ->
  let c' := set c key d customTtl t1 t2 in
  JsMap.get key (cache c') = Some (stored_item c d customTtl t1 t2) /\
  data (stored_item c d customTtl t1 t2) = d /\
  etag (stored_item c d customTtl t1 t2) = generateETag d /\
  expiresAt (stored_item c d customTtl t1 t2) = t1 + num_or customTtl (ttl c) /\
  (JsMap.size (cache c) < maxSize c ->
     JsMap.keys (cache c') = JsMap.keys (cache c)) /\
  (maxSize c <= JsMap.size (cache c) ->
     forall k0 item0 rest, cache c = (k0, item0) :: rest ->
       (key <> k0 -> JsMap.keys (cache c') = JsMap.keys rest) /\
       (key = k0 -> JsMap.keys (cache c') = (JsMap.keys rest ++ [key])%list)).
Proof.
  intros Hwf Hin c'.
  split; [apply set_get_same|].
  do 3 (split; [reflexivity|]).
  split.
  - intros Hlt. unfold c'. rewrite set_below_capacity by exact Hlt.
    now apply map_keys_set_present.
  - intros Hge k0 item0 rest Hc.
    destruct (set_at_capacity_cases c key d customTtl t1 t2 k0 item0 rest
                Hwf Hc Hge) as (Hpresent & Habsent & Hk0).
    split.
    + intros Hne. apply Hpresent.
      rewrite Hc in Hin. simpl in Hin. destruct Hin as [Heq|Hin'];
        [congruence|exact Hin'].
    + intros Heq. apply Habsent. now apply Hk0.
Qed.

Lemma set_present_key_refreshes_and_orders_witness :
  JsMap.wf (cache Fixtures.two_of_two) /\
  In "a" (JsMap.keys (cache Fixtures.two_of_two)) /\
  JsMap.get "a"
    (cache (@set Fixtures.sample_digest Fixtures.two_of_two
              "a" (JNum 3) (Some 1000) 30 30))
  = Some (@stored_item Fixtures.sample_digest Fixtures.two_of_two
            (JNum 3) (Some 1000) 30 30).
Proof.
  assert (Hwf : JsMap.wf (cache Fixtures.two_of_two)).
  { unfold JsMap.wf. vm_compute.
    repeat constructor; simpl; intuition discriminate. }
  assert (Hin : In "a" (JsMap.keys (cache Fixtures.two_of_two)))
    by (vm_compute; now left).
  split; [exact Hwf|]. split; [exact Hin|].
  exact (proj1
           (@set_present_key_refreshes_and_orders Fixtures.sample_digest
              Fixtures.two_of_two "a" (JNum 3) (Some 1000) 30 30 Hwf Hin)).
Defined.


(* ------------------------------------------------------------------ *)
(** ** Filling the cache *)

Import Runs.

Lemma store_all_app `{Digest} c calls1 calls2 :
  store_all c (calls1 ++ calls2) = store_all (store_all c calls1) calls2.
Proof. unfold store_all. apply fold_left_app. Qed.

Lemma store_all_maxSize `{Digest} calls : forall c,
  maxSize (store_all c calls) = maxSize c.
Proof.
  induction calls as [|s calls IH]; intros c; [reflexivity|].
  unfold store_all in *. simpl. now rewrite IH.
Qed.

(** New keys stored while there is room are added last, in the order of the
    calls, and nothing is evicted. *)
Lemma store_all_with_room `{Digest} calls : forall c,
  JsMap.wf (cache c) ->
  NoDup (List.map call_key calls) ->
  (forall k, In k (List.map call_key calls) -> ~ In k (JsMap.keys (cache c))) ->
  JsMap.size (cache c) + Z.of_nat (List.length calls) <= maxSize c ->
  JsMap.keys (cache (store_all c calls))
  = (JsMap.keys (cache c) ++ List.map call_key calls)%list.
Proof.
  induction calls as [|s calls IH]; intros c Hwf Hnd Hfresh Hroom.
  - simpl. now rewrite app_nil_r.
  - simpl List.map in *. simpl List.length in Hroom.
    inversion Hnd as [|? ? Hs Hnd']; subst.
    change (store_all c (s :: calls))
      with (store_all (set c (call_key s) (call_data s) (call_ttl s)
                         (call_now_expires s) (call_now_created s)) calls).
    set (c1 := set c (call_key s) (call_data s) (call_ttl s)
                 (call_now_expires s) (call_now_created s)).
    assert (Hk1 : JsMap.keys (cache c1) = (JsMap.keys (cache c) ++ [call_key s])%list).
    { unfold c1. rewrite set_below_capacity by lia.
      apply map_keys_set_absent. apply Hfresh. now left. }
    assert (Hsz1 : JsMap.size (cache c1) = JsMap.size (cache c) + 1).
    { unfold c1. rewrite set_below_capacity by lia.
      apply map_size_set_absent. apply Hfresh. now left. }
    rewrite IH.
    + rewrite Hk1, <- app_assoc. reflexivity.
    + now apply set_wf.
    + exact Hnd'.
    + intros k Hk. rewrite Hk1. intros Hin. apply in_app_or in Hin.
      destruct Hin as [Hin|[Heq|[]]].
      * apply (Hfresh k); [now right|exact Hin].
      * apply Hs. now rewrite Heq.
    + unfold c1. destruct (set_fields c (call_key s) (call_data s) (call_ttl s)
                             (call_now_expires s) (call_now_created s))
        as (_ & -> & _).
      fold c1. lia.
Qed.

(** C4. Starting from an empty cache of maximum size [maxSize] (at least 1),
    [maxSize + 1] calls of [set] with distinct keys leave exactly [maxSize]
    entries: the keys of all the calls but the first, in the order of the
    calls. The key stored first is the one that is no longer present. *)
Theorem overflow_by_one_evicts_first_inserted `{Digest} c calls :
  cache c = [] ->
  1 <= maxSize c ->
  NoDup (List.map call_key calls) ->
  Z.of_nat (List.length calls) = maxSize c + 1 ->
  JsMap.size (cache (store_all c calls)) = maxSize c /\
  JsMap.keys (cache (store_all c calls)) = List.tl (List.map call_key calls) /\
  (forall k, In k (List.map call_key calls) ->
     (In k (JsMap.keys (cache (store_all c calls)))
      <-> k <> List.hd "" (List.map call_key calls))).
Proof.
  intros Hempty Hmax Hnd Hlen.
  destruct (exists_last (l := calls)) as (init & last & ->).
  { intros ->. simpl in Hlen. lia. }
  rewrite length_app in Hlen. simpl in Hlen.
  rewrite map_app in Hnd. simpl in Hnd.
  assert (Hnd_init : NoDup (List.map call_key init))
    by (eapply NoDup_app_remove_r; exact Hnd).
  assert (Hlast : ~ In (call_key last) (List.map call_key init)).
  { apply NoDup_remove_2 in Hnd. rewrite app_nil_r in Hnd. exact Hnd. }
  assert (Hkeys_init :
            JsMap.keys (cache (store_all c init)) = List.map call_key init).
  { rewrite store_all_with_room.
    - now rewrite Hempty.
    - rewrite Hempty. constructor.
    - exact Hnd_init.
    - intros k _. rewrite Hempty. simpl. tauto.
    - rewrite Hempty. unfold JsMap.size. simpl. lia. }
  assert (Hwf_init : JsMap.wf (cache (store_all c init)))
    by (unfold JsMap.wf; now rewrite Hkeys_init).
  assert (Hsize_init : JsMap.size (cache (store_all c init)) = maxSize c).
  { unfold JsMap.size. rewrite <- (length_map fst).
    fold (JsMap.keys (cache (store_all c init))).
    rewrite Hkeys_init, length_map. lia. }
  destruct (cache (store_all c init)) as [|[k0 item0] rest] eqn:Hc_init.
  { unfold JsMap.size in Hsize_init. simpl in Hsize_init. lia. }
  destruct init as [|s0 init']; [discriminate|].
  simpl in Hkeys_init. injection Hkeys_init as Hk0 Hrest.
  assert (Hfinal :
            cache (store_all c ((s0 :: init') ++ [last]))
            = JsMap.set (call_key last)
                (stored_item (store_all c (s0 :: init')) (call_data last)
                   (call_ttl last) (call_now_expires last) (call_now_created last))
                rest).
  { rewrite store_all_app.
    change (store_all (store_all c (s0 :: init')) [last])
      with (set (store_all c (s0 :: init')) (call_key last) (call_data last)
              (call_ttl last) (call_now_expires last) (call_now_created last)).
    eapply set_at_capacity; [exact Hc_init|].
    rewrite store_all_maxSize, Hc_init. lia. }
  assert (Hnotin : ~ In (call_key last) (JsMap.keys rest)).
  { rewrite Hrest. intros Hin. apply Hlast. simpl. now right. }
  assert (Hkeys :
            JsMap.keys (cache (store_all c ((s0 :: init') ++ [last])))
            = List.tl (List.map call_key ((s0 :: init') ++ [last]))).
  { rewrite Hfinal, map_keys_set_absent by exact Hnotin.
    simpl. rewrite map_app, Hrest. reflexivity. }
  split; [|split].
  - rewrite Hfinal, map_size_set_absent by exact Hnotin.
    unfold JsMap.size in *. simpl List.length in Hsize_init. lia.
  - exact Hkeys.
  - intros k Hk. rewrite Hkeys.
    rewrite map_app in Hk |- *. simpl in Hk |- *.
    simpl in Hnd. inversion Hnd as [|? ? Hhd _]; subst.
    destruct Hk as [<-|Hk].
    + split; [intros Hin; contradiction|congruence].
    + split; [intros _ Heq; subst; contradiction|intros _; exact Hk].
Qed.

Lemma overflow_by_one_evicts_first_inserted_witness :
  cache Fixtures.empty_of_two = [] /\
  1 <= maxSize Fixtures.empty_of_two /\
  NoDup (List.map call_key Fixtures.three_calls) /\
  Z.of_nat (List.length Fixtures.three_calls)
  = maxSize Fixtures.empty_of_two + 1 /\
  JsMap.size
    (cache (@store_all Fixtures.sample_digest Fixtures.empty_of_two
              Fixtures.three_calls)) = 2 /\
  JsMap.keys
    (cache (@store_all Fixtures.sample_digest Fixtures.empty_of_two
              Fixtures.three_calls)) = ["b"; "c"].
Proof.
  assert (H1 : cache Fixtures.empty_of_two = []) by reflexivity.
  assert (H2 : 1 <= maxSize Fixtures.empty_of_two) by (vm_compute; discriminate).
  assert (H3 : NoDup (List.map call_key Fixtures.three_calls)).
  { simpl. repeat constructor; simpl; intuition discriminate. }
  assert (H4 : Z.of_nat (List.length Fixtures.three_calls)
               = maxSize Fixtures.empty_of_two + 1) by reflexivity.
  split; [exact H1|]. split; [exact H2|]. split; [exact H3|]. split; [exact H4|].
  pose proof (@overflow_by_one_evicts_first_inserted Fixtures.sample_digest
                Fixtures.empty_of_two Fixtures.three_calls H1 H2 H3 H4)
    as (W1 & W2 & _).
  split; [exact W1|exact W2].
Defined.

(* ------------------------------------------------------------------ *)
(** ** TTL tiers *)

(** C6 as stated does not hold for every path: a path that carries the
    GeoJSON marker and the municipalities marker and also the indices
    marker resolves to the 7-day tier of the indices metadata, not to the
    30-day GeoJSON tier. *)
Lemma determineTTL_three_markers_is_metadata_tier :
  includes Fixtures.url_three_markers "/climate-data/geojson/" = true /\
  includes Fixtures.url_three_markers "/municipalities" = true /\
  determineTTL singleton Fixtures.url_three_markers = 604800000 /\
  determineTTL singleton Fixtures.url_three_markers
  <> geojson (ttlSettings singleton).
Proof. vm_compute. repeat split; congruence. Qed.

(** C6, amended. On a cache made by the constructor, [determineTTL] is the
    function of the path that tries the markers in the fixed order: indices
    (7 days), GeoJSON climate data (30 days), municipalities (7 days),
    health (1 hour), and else the 1-hour default. In particular every path
    that carries the GeoJSON marker and the municipalities marker, and does
    not carry the indices marker, resolves to the 30-day GeoJSON tier, which
    is not the municipalities tier. *)
Theorem determineTTL_priority_order options_ttl options_maxSize url :
  determineTTL (new_InMemoryCache options_ttl options_maxSize) url
  = (if includes url "/indices" then 604800000
     else if includes url "/climate-data/geojson/" then 2592000000
     else if includes url "/municipalities" then 604800000
     else if includes url "/health" then 3600000
     else 3600000) /\
  (includes url "/indices" = false ->
   includes url "/climate-data/geojson/" = true ->
   includes url "/municipalities" = true ->
   determineTTL (new_InMemoryCache options_ttl options_maxSize) url = 2592000000 /\
   determineTTL (new_InMemoryCache options_ttl options_maxSize) url
   <> municipalities (ttlSettings (new_InMemoryCache options_ttl options_maxSize))).
Proof.
  split.
  - unfold determineTTL. simpl.
    repeat match goal with |- context [if ?b then _ else _] => destruct b end;
      reflexivity.
  - intros Hi Hg _. unfold determineTTL. rewrite Hi, Hg. simpl.
    split; [reflexivity|discriminate].
Qed.

Lemma determineTTL_priority_order_witness :
  includes Fixtures.url_two_markers "/indices" = false /\
  includes Fixtures.url_two_markers "/climate-data/geojson/" = true /\
  includes Fixtures.url_two_markers "/municipalities" = true /\
  determineTTL (new_InMemoryCache (Some 3600000) (Some 400))
    Fixtures.url_two_markers = 2592000000.
Proof.
  assert (H1 : includes Fixtures.url_two_markers "/indices" = false)
    by (vm_compute; reflexivity).
  assert (H2 : includes Fixtures.url_two_markers "/climate-data/geojson/" = true)
    by (vm_compute; reflexivity).
  assert (H3 : includes Fixtures.url_two_markers "/municipalities" = true)
    by (vm_compute; reflexivity).
  split; [exact H1|]. split; [exact H2|]. split; [exact H3|].
  exact (proj1 (proj2 (determineTTL_priority_order (Some 3600000) (Some 400)
                         Fixtures.url_two_markers) H1 H2 H3)).
Defined.

(* ------------------------------------------------------------------ *)
(** ** [res.json]: when the request is fresh, and what is sent *)

Lemma header_value_some s :
  s <> "" -> header_value (Some s) = Some s.
Proof.
  intros Hs. simpl. destruct (String.eqb_spec s ""); [contradiction|reflexivity].
Qed.

(** A request without validators is never fresh. *)
Lemma fresh_unconditional `{Express} reqHeaders etag lastModified :
  JsMap.get "if-none-match" reqHeaders = None ->
  JsMap.get "if-modified-since" reqHeaders = None ->
  fresh reqHeaders etag lastModified = false.
Proof. intros Hn Hm. unfold fresh. now rewrite Hn, Hm. Qed.

(** A request whose [If-None-Match] lists tags, none of which is the ETag of
    the response in its strong or weak form, is not fresh, whatever its
    other headers. *)
Lemma fresh_no_tag_matches `{Express} reqHeaders e lastModified tags :
  JsMap.get "if-none-match" reqHeaders = Some tags ->
  tags <> "" ->
  tags <> "*" ->
  existsb (etag_matches e) (parseTokenList tags) = false ->
  fresh reqHeaders (Some e) lastModified = false.
Proof.
  intros Hn Hne Hstar Hnone. unfold fresh.
  rewrite Hn, (header_value_some tags Hne).
  destruct (String.eqb_spec tags "*"); [contradiction|].
  assert (Hinner :
            match header_value (Some e) with
            | Some e0 =>
                if existsb (etag_matches e0) (parseTokenList tags)
                then not_modified_since reqHeaders lastModified
                else false
            | None => false
            end = false).
  { simpl. destruct (String.eqb e ""); [reflexivity|]. now rewrite Hnone. }
  rewrite Hinner.
  destruct (header_value (JsMap.get "if-modified-since" reqHeaders));
    destruct (header_value (JsMap.get "cache-control" reqHeaders)) as [cc|];
    try destruct (no_cache cc); reflexivity.
Qed.

(** A request whose [If-None-Match] is [*], or lists the ETag of the
    response in its strong or weak form, whose [Cache-Control], if any, does
    not carry [no-cache], and that has no [If-Modified-Since], is fresh. *)
Lemma fresh_tag_matches `{Express} reqHeaders e lastModified tags :
  JsMap.get "if-none-match" reqHeaders = Some tags ->
  tags = "*" \/
  (tags <> "" /\ e <> "" /\
   existsb (etag_matches e) (parseTokenList tags) = true) ->
  (forall cacheControl,
     JsMap.get "cache-control" reqHeaders = Some cacheControl ->
     no_cache cacheControl = false) ->
  JsMap.get "if-modified-since" reqHeaders = None ->
  fresh reqHeaders (Some e) lastModified = true.
Proof.
  intros Hn Hcase Hcc Hms. unfold fresh.
  assert (Hreload :
            match header_value (JsMap.get "cache-control" reqHeaders) with
            | Some cacheControl => no_cache cacheControl
            | None => false
            end = false).
  { destruct (JsMap.get "cache-control" reqHeaders) as [cc|] eqn:Hget;
      [|reflexivity].
    simpl. destruct (String.eqb cc ""); [reflexivity|now apply Hcc]. }
  rewrite Hreload, Hn, Hms. cbn [header_value].
  rewrite (not_modified_since_absent reqHeaders lastModified Hms).
  destruct Hcase as [->|(Hne & He & Hsome)]; [reflexivity|].
  destruct (String.eqb_spec tags ""); [contradiction|].
  destruct (String.eqb tags "*"); [reflexivity|].
  destruct (String.eqb_spec e ""); [contradiction|].
  now rewrite Hsome.
Qed.

(** The freshness test on a response whose ETag is [0f3a]: a weak
    validator, a list that names the tag, and [*] are fresh; another tag and
    no validator are not; nor is a matching validator under
    [Cache-Control: no-cache]. *)
Example fresh_on_validators :
  parseTokenList "abc , W/0f3a" = [ "abc"; "W/0f3a" ] /\
  @fresh Fixtures.sample_express [ ("if-none-match", "W/0f3a") ] (Some "0f3a") None
  = true /\
  @fresh Fixtures.sample_express [ ("if-none-match", "abc , W/0f3a") ]
    (Some "0f3a") None = true /\
  @fresh Fixtures.sample_express [ ("if-none-match", "*") ] (Some "0f3a") None
  = true /\
  @fresh Fixtures.sample_express [ ("if-none-match", "0f3b") ] (Some "0f3a") None
  = false /\
  @fresh Fixtures.sample_express [] (Some "0f3a") None = false /\
  @fresh Fixtures.sample_express
    [ ("if-none-match", "0f3a"); ("cache-control", "no-cache") ]
    (Some "0f3a") None = false.
Proof. vm_compute. repeat split. Qed.

Lemma req_fresh_get `{Express} req res :
  method req = "GET" ->
  req_fresh req res
  = fresh_status (statusCode res)
    && fresh (headers req) (JsMap.get "ETag" (resHeaders res))
         (JsMap.get "Last-Modified" (resHeaders res)).
Proof.
  intros Hm. unfold req_fresh. rewrite Hm. cbn [String.eqb Ascii.eqb Bool.eqb negb andb].
  now destruct (fresh_status (statusCode res)).
Qed.

(** [res.json] on the response of a GET request that already carries an
    [ETag]: the headers stay as they are; the status becomes 304, and no
    body is sent, when the request is fresh; otherwise the status stays and
    the body is sent, unless the status is one that has no body. *)
Lemma originalJson_with_etag `{Express} req d res e :
  method req = "GET" ->
  JsMap.get "ETag" (resHeaders res) = Some e ->
  e <> "" ->
  originalJson req d res
  = {| statusCode := if req_fresh req res then 304 else statusCode res;
       resHeaders := resHeaders res;
       body := if req_fresh req res || no_body (statusCode res) then None
               else Some d;
       ended := true |}.
Proof.
  intros Hm He Hne. unfold originalJson.
  rewrite He, (header_value_some e Hne), Hm.
  cbn [String.eqb Ascii.eqb Bool.eqb].
  destruct (req_fresh req res); cbn [orb no_body Z.eqb Pos.eqb];
    [reflexivity|now rewrite orb_false_r].
Qed.

(** [res.json] on any response of an unconditional GET request whose status
    is 200: the body is sent with that status, and the headers are kept. *)
Lemma originalJson_unconditional `{Express} req d res :
  method req = "GET" ->
  JsMap.get "if-none-match" (headers req) = None ->
  JsMap.get "if-modified-since" (headers req) = None ->
  statusCode res = 200 ->
  statusCode (originalJson req d res) = 200 /\
  body (originalJson req d res) = Some d /\
  (forall name, name <> "ETag" ->
     JsMap.get name (resHeaders (originalJson req d res))
     = JsMap.get name (resHeaders res)).
Proof.
  intros Hm Hn Hms Hs. unfold originalJson.
  set (res1 := match header_value (JsMap.get "ETag" (resHeaders res)) with
               | Some _ => res
               | None => match header_value (etag_fn d) with
                         | Some generated => setHeader "ETag" generated res
                         | None => res
                         end
               end).
  assert (Hs1 : statusCode res1 = 200).
  { subst res1. destruct (header_value (JsMap.get "ETag" (resHeaders res)));
      [exact Hs|]. destruct (header_value (etag_fn d)); exact Hs. }
  assert (Hfresh : req_fresh req res1 = false).
  { rewrite (req_fresh_get req res1 Hm), (fresh_unconditional _ _ _ Hn Hms).
    apply andb_false_r. }
  rewrite Hfresh, Hs1, Hm. cbn.
  split; [reflexivity|]. split; [reflexivity|].
  intros name Hname. subst res1.
  destruct (header_value (JsMap.get "ETag" (resHeaders res))); [reflexivity|].
  destruct (header_value (etag_fn d)); [|reflexivity].
  cbn [resHeaders setHeader]. now apply map_get_set_other.
Qed.

Lemma fresh_status_false_has_body status :
  fresh_status status = false -> no_body status = false.
Proof.
  unfold fresh_status, no_body. intros Hf.
  apply orb_false_iff in Hf. destruct Hf as [Hrange H304].
  rewrite H304, orb_false_r.
  destruct (Z.eqb_spec status 204) as [->|_]; [discriminate|].
  destruct (Z.eqb_spec status 205) as [->|_]; [discriminate|reflexivity].
Qed.

(** [res.json] on a response of a GET request whose status is neither 2xx
    nor 304, as the 400, 404 and 500 of the handlers: the body is sent with
    that status. *)
Lemma originalJson_other_status `{Express} req d res :
  method req = "GET" ->
  fresh_status (statusCode res) = false ->
  statusCode (originalJson req d res) = statusCode res /\
  body (originalJson req d res) = Some d /\
  (forall name, name <> "ETag" ->
     JsMap.get name (resHeaders (originalJson req d res))
     = JsMap.get name (resHeaders res)).
Proof.
  intros Hm Hs. unfold originalJson.
  set (res1 := match header_value (JsMap.get "ETag" (resHeaders res)) with
               | Some _ => res
               | None => match header_value (etag_fn d) with
                         | Some generated => setHeader "ETag" generated res
                         | None => res
                         end
               end).
  assert (Hs1 : statusCode res1 = statusCode res).
  { subst res1. destruct (header_value (JsMap.get "ETag" (resHeaders res)));
      [reflexivity|]. destruct (header_value (etag_fn d)); reflexivity. }
  assert (Hfresh : req_fresh req res1 = false).
  { rewrite (req_fresh_get req res1 Hm), Hs1, Hs. reflexivity. }
  rewrite Hfresh, Hs1, (fresh_status_false_has_body _ Hs), Hm. cbn.
  split; [reflexivity|]. split; [reflexivity|].
  intros name Hname. subst res1.
  destruct (header_value (JsMap.get "ETag" (resHeaders res))); [reflexivity|].
  destruct (header_value (etag_fn d)); [|reflexivity].
  cbn [resHeaders setHeader]. now apply map_get_set_other.
Qed.

(* ------------------------------------------------------------------ *)
(** ** The middleware on a hit *)

Lemma strict_eq_true_iff clientETag e :
  strict_eq clientETag e = true <-> clientETag = Some e.
Proof.
  destruct clientETag as [s|]; simpl.
  - rewrite String.eqb_eq. split; congruence.
  - split; discriminate.
Qed.

Lemma get_unexpired c key item now :
  JsMap.get key (cache c) = Some item ->
  now <= expiresAt item ->
  get c key now = (Some item, with_counters c (hits c + 1) (misses c)).
Proof.
  intros Hget Hle. unfold get. rewrite Hget.
  destruct (Z.gtb_spec now (expiresAt item)); [lia|reflexivity].
Qed.

(** A request that the middleware looks up and finds unexpired. *)
Lemma middleware_hit `{Express} c req res now item :
  method req = "GET" ->
  includes (originalUrl req) "/cache/" = false ->
  JsMap.get (generateKey req) (cache c) = Some item ->
  now <= expiresAt item ->
  middleware c req res now
  = (Sent
       (if strict_eq (if_none_match req) (etag item) then
          status_end 304
            (setHeader "Cache-Control"
               (getCacheControlHeader (determineTTL c (originalUrl req)))
               (setHeader "ETag" (etag item)
                  (setHeader "X-Cache" "HIT-304" res)))
        else
          originalJson req (data item)
            (setHeader "Cache-Control"
               (getCacheControlHeader (determineTTL c (originalUrl req)))
               (setHeader "ETag" (etag item)
                  (setHeader "X-Cache-Key" (generateKey req)
                     (setHeader "X-Cache" "HIT" res))))),
     with_counters c (hits c + 1) (misses c)).
Proof.
  intros Hm Hu Hget Hle. unfold middleware.
  rewrite Hm, Hu. simpl negb. cbv iota.
  rewrite (get_unexpired _ _ _ _ Hget Hle).
  destruct (strict_eq (if_none_match req) (etag item)); reflexivity.
Qed.

(** Whenever the middleware itself sends the response, the lookup was a hit
    and was counted as one. *)
Lemma middleware_sent_counts_hit `{Express} c req res now r c' :
  middleware c req res now = (Sent r, c') ->
  c' = with_counters c (hits c + 1) (misses c).
Proof.
  unfold middleware.
  destruct (negb (String.eqb (method req) "GET")); [discriminate|].
  destruct (includes (originalUrl req) "/cache/"); [discriminate|].
  unfold get.
  destruct (JsMap.get (generateKey req) (cache c)) as [item|]; [|discriminate].
  destruct (now >? expiresAt item); [discriminate|].
  destruct (strict_eq (if_none_match req) (etag item));
    intros Heq; now inversion Heq.
Qed.

(** C9. A request that the middleware answers with the 304 not-modified
    response has added exactly one to the hit counter and nothing to the
    miss counter, so [getStats] reports one more hit and computes the hit
    rate from the incremented hit count. *)
Theorem not_modified_response_counts_as_hit `{Express} c req res now r c' :
  middleware c req res now = (Sent r, c') ->
  statusCode r = 304 ->
  hits c' = hits c + 1 /\
  misses c' = misses c /\
  stats_hits (getStats c') = stats_hits (getStats c) + 1 /\
  stats_misses (getStats c') = stats_misses (getStats c) /\
  stats_hitRate (getStats c')
  = (if hits c + 1 + misses c >? 0
     then (hits c + 1 # Z.to_pos (hits c + 1 + misses c)) * (100 # 1)
     else 0)%Q.
Proof.
  intros Hmw _. apply middleware_sent_counts_hit in Hmw. subst c'.
  repeat split.
Qed.

Lemma not_modified_response_counts_as_hit_witness :
  @middleware Fixtures.sample_express Fixtures.one_cached Fixtures.req_scenarios_conditional
    fresh_response 200
  = (Sent
       (status_end 304
          (setHeader "Cache-Control" "public, max-age=3600"
             (setHeader "ETag"
                (@generateETag Fixtures.sample_digest Fixtures.scenarios_payload)
                (setHeader "X-Cache" "HIT-304" fresh_response)))),
     with_counters Fixtures.one_cached 1 1) /\
  hits (with_counters Fixtures.one_cached 1 1) = hits Fixtures.one_cached + 1 /\
  misses (with_counters Fixtures.one_cached 1 1) = misses Fixtures.one_cached.
Proof.
  assert (Hmw : @middleware Fixtures.sample_express Fixtures.one_cached Fixtures.req_scenarios_conditional
                  fresh_response 200
                = (Sent
                     (status_end 304
                        (setHeader "Cache-Control" "public, max-age=3600"
                           (setHeader "ETag"
                              (@generateETag Fixtures.sample_digest
                                 Fixtures.scenarios_payload)
                              (setHeader "X-Cache" "HIT-304" fresh_response)))),
                   with_counters Fixtures.one_cached 1 1))
    by (vm_compute; reflexivity).
  split; [exact Hmw|].
  pose proof (not_modified_response_counts_as_hit _ _ _ _ _ _ Hmw eq_refl)
    as (W1 & W2 & _).
  split; [exact W1|exact W2].
Defined.

(* ------------------------------------------------------------------ *)
(** ** The warmer: rules for its computations *)

Import Warmer.

Section TripleRules.
Context {A B : Type}.

Lemma triple_ret (P : World -> Prop) (a : A) Q E :
  (forall w, P w -> Q a w) -> triple P (ret a) Q E.
Proof. intros HQ w Hw. simpl. now apply HQ. Qed.

Lemma triple_bind (P : World -> Prop) (c : M A) (k : A -> M B) R Q E :
  triple P c R E ->
  (forall a, triple (R a) (k a) Q E) ->
  triple P (bind c k) Q E.
Proof.
  intros Hc Hk w Hw. unfold bind. specialize (Hc w Hw).
  destruct (c w) as [[a|e] w']; [|exact Hc].
  exact (Hk a w' Hc).
Qed.

Lemma triple_try_catch (P : World -> Prop) (body : M A) handler Q E E' :
  triple P body Q E' ->
  (forall e, triple (E' e) (handler e) Q E) ->
  triple P (try_catch body handler) Q E.
Proof.
  intros Hb Hh w Hw. unfold try_catch. specialize (Hb w Hw).
  destruct (body w) as [[a|e] w']; [exact Hb|].
  exact (Hh e w' Hb).
Qed.

Lemma triple_weaken (P P' : World -> Prop) (m : M A) (Q Q' : A -> World -> Prop)
  (E E' : string -> World -> Prop) :
  triple P' m Q' E' ->
  (forall w, P w -> P' w) ->
  (forall a w, Q' a w -> Q a w) ->
  (forall e w, E' e w -> E e w) ->
  triple P m Q E.
Proof.
  intros Hm HP HQ HE w Hw. specialize (Hm w (HP w Hw)).
  destruct (m w) as [[a|e] w']; [now apply HQ|now apply HE].
Qed.

End TripleRules.

Lemma triple_for_each {A : Type} (I : World -> Prop) (xs : list A)
  (f : A -> M unit) E :
  (forall x, In x xs -> triple I (f x) (fun _ => I) E) ->
  triple I (for_each xs f) (fun _ => I) E.
Proof.
  induction xs as [|x xs IH]; intros Hf.
  - apply triple_ret. auto.
  - simpl. eapply triple_bind.
    + apply Hf. now left.
    + intros ?. apply IH. intros y Hy. apply Hf. now right.
Qed.

Lemma triple_settle_all {A B : Type} (I : World -> Prop) (xs : list A)
  (f : A -> M B) E :
  (forall x, In x xs -> triple I (f x) (fun _ => I) E) ->
  triple I (settle_all xs f) (fun _ => I) E.
Proof.
  induction xs as [|x xs IH]; intros Hf.
  - apply triple_ret. auto.
  - simpl. eapply triple_bind.
    + apply Hf. now left.
    + intros b. eapply triple_bind.
      * apply IH. intros y Hy. apply Hf. now right.
      * intros bs. apply triple_ret. auto.
Qed.

(** ** The warmer: what holds of every run *)

Section EveryRun.
Context `{Digest}.
Variable db : Database.
Variable clock : nat -> Z.
Variable arrival : list string -> list string.
Hypothesis arrival_perm : forall batch, Permutation batch (arrival batch).

(** An invariant of the cache object that every write of a warm key keeps. *)
Variable Inv : InMemoryCache -> Prop.
Hypothesis Inv_set : forall c key d customTtl t1 t2,
  In key warm_keys -> Inv c -> Inv (set c key d customTtl t1 t2).

Lemma triple_query text params :
  triple (on_store Inv) (query db text params) (fun _ => on_store Inv)
    (fun _ => on_store Inv).
Proof. intros w Hw. unfold query. destruct (db text params); exact Hw. Qed.

Lemma triple_modify_service f E :
  triple (on_store Inv) (modify_service f) (fun _ => on_store Inv) E.
Proof. intros w Hw. exact Hw. Qed.

Lemma triple_cache_set key d ttl E :
  In key warm_keys ->
  triple (on_store Inv) (cache_set clock key d ttl) (fun _ => on_store Inv) E.
Proof. intros Hk w Hw. simpl. unfold on_store. simpl. now apply Inv_set. Qed.

Lemma triple_Date_now E :
  triple (on_store Inv) (Date_now clock) (fun _ => on_store Inv) E.
Proof. intros w Hw. exact Hw. Qed.

Lemma triple_buildGeoJSON scenario period index :
  triple (on_store Inv) (buildGeoJSON db scenario period index)
    (fun _ => on_store Inv) (fun _ => on_store Inv).
Proof.
  unfold buildGeoJSON.
  eapply triple_bind with (R := fun _ => on_store Inv); [apply triple_query|].
  intros rows. apply triple_ret. auto.
Qed.

(** [warmEntry] never throws. *)
Lemma triple_warmEntry index :
  In index CLIMATE_INDICES ->
  triple (on_store Inv) (warmEntry db clock "ssp245" "near-term_2021-2040" index)
    (fun _ => on_store Inv) never.
Proof.
  intros Hin. unfold warmEntry.
  eapply triple_try_catch with (E' := fun _ => on_store Inv).
  - eapply triple_bind with (R := fun _ => on_store Inv);
      [apply triple_buildGeoJSON|].
    intros d. destruct (truthy d).
    + eapply triple_bind with (R := fun _ => on_store Inv).
      * apply triple_cache_set. right. right. now apply in_map.
      * intros ?. eapply triple_bind with (R := fun _ => on_store Inv).
        -- apply triple_modify_service.
        -- intros ?. apply triple_ret. auto.
    + eapply triple_bind with (R := fun _ => on_store Inv).
      * apply triple_modify_service.
      * intros ?. apply triple_ret. auto.
  - intros e. eapply triple_bind with (R := fun _ => on_store Inv);
      [apply triple_modify_service|].
    intros ?. apply triple_ret. auto.
Qed.

Lemma in_batches_of fuel : forall l batch x,
  In batch (batches_of fuel l) -> In x batch -> In x l.
Proof.
  induction fuel as [|fuel IH]; intros l batch x Hb Hx; [destruct Hb|].
  simpl in Hb. destruct l as [|y l]; [destruct Hb|].
  rewrite <- (firstn_skipn 5 (y :: l)). apply in_or_app.
  destruct Hb as [<-|Hb].
  - left. exact Hx.
  - right. eapply IH; eassumption.
Qed.

Lemma triple_warm_batch batch :
  (forall x, In x batch -> In x CLIMATE_INDICES) ->
  triple (on_store Inv) (warm_batch db clock arrival "ssp245" "near-term_2021-2040" batch)
    (fun _ => on_store Inv) never.
Proof.
  intros Hb. unfold warm_batch. eapply triple_bind with (R := fun _ => on_store Inv).
  - apply triple_settle_all. intros x Hx. apply triple_warmEntry.
    apply Hb. eapply Permutation_in; [symmetry; apply arrival_perm|exact Hx].
  - intros ?. apply triple_ret. auto.
Qed.

Lemma priority_in_climate x :
  In x PRIORITY_INDICES -> In x CLIMATE_INDICES.
Proof.
  intros Hx.
  assert (Hall : forallb (Routes.array_includes CLIMATE_INDICES)
                   PRIORITY_INDICES = true) by (vm_compute; reflexivity).
  rewrite forallb_forall in Hall. specialize (Hall x Hx).
  unfold Routes.array_includes in Hall. apply existsb_exists in Hall.
  destruct Hall as (y & Hy & Heq). apply String.eqb_eq in Heq. now subst.
Qed.

Lemma in_batches l batch x :
  In batch (batches l) -> In x batch -> In x l.
Proof. unfold batches. apply in_batches_of. Qed.

(** [warmTier1] never throws. *)
Lemma triple_warmTier1 :
  triple (on_store Inv) (warmTier1 db clock arrival) (fun _ => on_store Inv)
    never.
Proof.
  unfold warmTier1. eapply triple_bind with (R := fun _ => on_store Inv).
  - apply triple_for_each. intros batch Hb. apply triple_warm_batch.
    intros x Hx. apply priority_in_climate.
    exact (in_batches _ _ _ Hb Hx).
  - intros ?.
    match goal with |- context [if ?b then _ else _] => destruct b end.
    + apply triple_for_each. intros batch Hb. apply triple_warm_batch.
      intros x Hx.
      pose proof (in_batches _ _ _ Hb Hx) as Hf.
      apply filter_In in Hf. exact (proj1 Hf).
    + apply triple_ret. auto.
Qed.

(** [warmMetadata] never throws: an error of either query is caught. *)
Lemma triple_warmMetadata :
  triple (on_store Inv) (warmMetadata db clock) (fun _ => on_store Inv) never.
Proof.
  unfold warmMetadata. eapply triple_try_catch with (E' := fun _ => on_store Inv).
  - eapply triple_bind with (R := fun _ => on_store Inv); [apply triple_query|].
    intros rows1.
    eapply triple_bind with (R := fun _ => on_store Inv);
      [apply triple_cache_set; now left|].
    intros ?.
    eapply triple_bind with (R := fun _ => on_store Inv); [apply triple_query|].
    intros rows2.
    eapply triple_bind with (R := fun _ => on_store Inv);
      [apply triple_cache_set; right; now left|].
    intros ?. apply triple_modify_service.
  - intros e. apply triple_modify_service.
Qed.

(** [warmCache] never throws, and keeps the invariant. *)
Lemma triple_warmCache :
  triple (on_store Inv) (warmCache db clock arrival) (fun _ => on_store Inv) never.
Proof.
  unfold warmCache.
  eapply triple_bind with (R := fun _ => on_store Inv); [apply triple_Date_now|].
  intros t0. eapply triple_bind with (R := fun _ => on_store Inv).
  { intros w Hw. exact Hw. }
  intros ?. eapply triple_try_catch with (E' := never).
  - eapply triple_bind with (R := fun _ => on_store Inv); [apply triple_warmMetadata|].
    intros ?.
    eapply triple_bind with (R := fun _ => on_store Inv); [apply triple_warmTier1|].
    intros ?.
    eapply triple_bind with (R := fun _ => on_store Inv); [apply triple_Date_now|].
    intros ?. apply triple_ret. auto.
  - intros e w [].
Qed.

End EveryRun.

(** A warm run never throws, whatever the database answers. *)
Lemma warm_returns `{Digest} db clock arrival c :
  (forall batch, Permutation batch (arrival batch)) ->
  fst (warm db clock arrival c) = Normal tt.
Proof.
  intros Hperm. unfold warm.
  pose proof (triple_warmCache db clock arrival Hperm (fun _ => True)
                (fun _ _ _ _ _ _ _ _ => Logic.I)
                {| service := new_CacheWarmingService; store := c;
                   readings := 0 |} Logic.I) as Ht.
  destruct (warmCache db clock arrival _) as [[[]|e] w']; [reflexivity|destruct Ht].
Qed.

(** ** The keys of a running server's cache *)

Lemma cacheable_of_url url :
  includes url "/cache/" = false -> cacheable ("GET:" ++ url).
Proof.
  intros Hu url' Heq. simpl in Heq. injection Heq as <-. exact Hu.
Qed.

Lemma warm_keys_cacheable k :
  In k warm_keys -> cacheable k.
Proof.
  intros Hk.
  assert (Hmap : warm_keys
                 = List.map (String.append "GET:")
                     ("/api/indices" :: "/api/municipalities"
                      :: List.map (Routes.geojson_url "ssp245" "near-term_2021-2040")
                           CLIMATE_INDICES)) by reflexivity.
  assert (Hall : forallb (fun u => negb (includes u "/cache/"))
                   ("/api/indices" :: "/api/municipalities"
                    :: List.map (Routes.geojson_url "ssp245" "near-term_2021-2040")
                         CLIMATE_INDICES) = true) by (vm_compute; reflexivity).
  rewrite Hmap in Hk. apply in_map_iff in Hk. destruct Hk as (u & <- & Hu).
  rewrite forallb_forall in Hall. specialize (Hall u Hu).
  apply cacheable_of_url. now destruct (includes u "/cache/").
Qed.

Lemma keys_cacheable_set `{Digest} c key d customTtl t1 t2 :
  cacheable key -> keys_cacheable c ->
  keys_cacheable (set c key d customTtl t1 t2).
Proof.
  intros Hkey Hc k Hk. apply set_keys_incl in Hk.
  destruct Hk as [->|Hk]; [exact Hkey|now apply Hc].
Qed.

Lemma keys_cacheable_get c key now :
  keys_cacheable c -> keys_cacheable (snd (get c key now)).
Proof.
  intros Hc k. unfold get.
  destruct (JsMap.get key (cache c)) as [item|]; [|exact (Hc k)].
  destruct (now >? expiresAt item); [|exact (Hc k)].
  simpl. intros Hk. apply Hc. eapply map_keys_delete_incl. exact Hk.
Qed.

Lemma middleware_state `{Express} c req res now :
  snd (middleware c req res now) = c \/
  snd (middleware c req res now) = snd (get c (generateKey req) now).
Proof.
  unfold middleware.
  destruct (negb (String.eqb (method req) "GET")); [now left|].
  destruct (includes (originalUrl req) "/cache/"); [now left|].
  right. destruct (get c (generateKey req) now) as [[item|] c1]; simpl;
    [|reflexivity].
  destruct (strict_eq (if_none_match req) (etag item)); reflexivity.
Qed.

(** The key under which the overriding [res.json] stores is cacheable. *)
Lemma middleware_intercepts_cacheable `{Express} c req res now key ttl res1 :
  fst (middleware c req res now) = NextIntercepted key ttl res1 ->
  cacheable key.
Proof.
  unfold middleware.
  destruct (String.eqb_spec (method req) "GET") as [Hm|]; simpl negb; cbv iota;
    [|discriminate].
  destruct (includes (originalUrl req) "/cache/") eqn:Hu; [discriminate|].
  destruct (get c (generateKey req) now) as [[item|] c1]; simpl.
  - destruct (strict_eq (if_none_match req) (etag item)); discriminate.
  - intros Heq. injection Heq as <- _ _. unfold generateKey. rewrite Hm.
    now apply cacheable_of_url.
Qed.

(** No state of a running server's cache holds an entry under the key of a
    cache-management URL. *)
Lemma reachable_keys_cacheable `{Digest} `{Express} c :
  reachable c -> keys_cacheable c.
Proof.
  induction 1 as [ottl omax|c req res now _ IH
                 |c c0 req res0 now0 key ttl res1 res d t1 t2 _ IH Hmw
                 |c _ IH|c db clock arrival _ IH Hperm].
  - intros k [].
  - destruct (middleware_state c req res now) as [->| ->];
      [exact IH|now apply keys_cacheable_get].
  - apply middleware_intercepts_cacheable in Hmw.
    unfold intercepted_json. destruct (statusCode res =? 200); simpl;
      [now apply keys_cacheable_set|exact IH].
  - intros k [].
  - unfold warm.
    pose proof (triple_warmCache db clock arrival Hperm keys_cacheable
                  (fun c0 key d customTtl t1 t2 Hk Hc =>
                     keys_cacheable_set c0 key d customTtl t1 t2
                       (warm_keys_cacheable key Hk) Hc)
                  {| service := new_CacheWarmingService; store := c;
                     readings := 0 |} IH) as Ht.
    destruct (warmCache db clock arrival _) as [[[]|e] w'];
      [exact Ht|destruct Ht].
Qed.

(* ------------------------------------------------------------------ *)
(** ** The warmer: errors of the metadata phase *)

Lemma warmTier1_returns `{Digest} db clock arrival w :
  (forall batch, Permutation batch (arrival batch)) ->
  fst (warmTier1 db clock arrival w) = Normal tt.
Proof.
  intros Hperm.
  pose proof (triple_warmTier1 db clock arrival Hperm (fun _ => True)
                (fun _ _ _ _ _ _ _ _ => Logic.I) w Logic.I) as Ht.
  destruct (warmTier1 db clock arrival w) as [[[]|e] w'];
    [reflexivity|destruct Ht].
Qed.

(** How a warm run unfolds once the metadata phase has returned. *)
Lemma warm_after_metadata `{Digest} db clock arrival c w1 :
  (forall batch, Permutation batch (arrival batch)) ->
  warmMetadata db clock
    {| service := {| warmedCount := 0; failedCount := 0;
                     startTime := Some (clock 0%nat) |};
       store := c; readings := 1 |} = (Normal tt, w1) ->
  warm db clock arrival c
  = (Normal tt, snd (Date_now clock (snd (warmTier1 db clock arrival w1)))).
Proof.
  intros Hperm Hmeta.
  cbv [warm warmCache bind try_catch Date_now ret throw].
  cbn [service store readings]. rewrite Hmeta.
  pose proof (warmTier1_returns db clock arrival w1 Hperm) as Hret.
  destruct (warmTier1 db clock arrival w1) as [[[]|e] w2]; [|discriminate].
  reflexivity.
Qed.

(** C2 as stated does not hold: with a database whose pool fails on the
    first metadata query, the warm run returns normally to its caller, counts
    two failed entries, and has run the GeoJSON phase, which warmed all 27
    entries. *)
Lemma metadata_query_error_does_not_abort_warm_run :
  Fixtures.db_indices_down SelectActiveIndices [] = Thrown "connect ECONNREFUSED" /\
  fst (@warm Fixtures.sample_digest Fixtures.db_indices_down Fixtures.clock_ms
         Fixtures.in_order (new_InMemoryCache None None)) = Normal tt /\
  failedCount
    (service
       (snd (@warm Fixtures.sample_digest Fixtures.db_indices_down
               Fixtures.clock_ms Fixtures.in_order
               (new_InMemoryCache None None)))) = 2 /\
  warmedCount
    (service
       (snd (@warm Fixtures.sample_digest Fixtures.db_indices_down
               Fixtures.clock_ms Fixtures.in_order
               (new_InMemoryCache None None)))) = 27 /\
  JsMap.size
    (cache
       (store
          (snd (@warm Fixtures.sample_digest Fixtures.db_indices_down
                  Fixtures.clock_ms Fixtures.in_order
                  (new_InMemoryCache None None))))) = 27.
Proof. vm_compute. repeat split. Qed.

(** C2, amended. For every run of the warmer in which a metadata query
    throws, the error is caught inside the metadata phase and counted as two
    failed entries; the metadata phase returns normally, the run goes on
    into the GeoJSON phase from the world the metadata phase left, and
    [warmCache] returns normally to its caller. *)
Theorem metadata_error_is_counted_and_warming_continues
  `{Digest} db clock arrival c e :
  (forall batch, Permutation batch (arrival batch)) ->
  (db SelectActiveIndices [] = Thrown e \/
   exists rows,
     db SelectActiveIndices [] = Normal rows /\
     db SelectMunicipalities [] = Thrown e) ->
  exists w1,
    warmMetadata db clock
      {| service := {| warmedCount := 0; failedCount := 0;
                       startTime := Some (clock 0%nat) |};
         store := c; readings := 1 |} = (Normal tt, w1) /\
    warmedCount (service w1) = 0 /\
    failedCount (service w1) = 2 /\
    fst (warm db clock arrival c) = Normal tt /\
    snd (warm db clock arrival c)
    = snd (Date_now clock (snd (warmTier1 db clock arrival w1))).
Proof.
  intros Hperm Herr.
  assert (Hmeta : exists w1,
             warmMetadata db clock
               {| service := {| warmedCount := 0; failedCount := 0;
                                startTime := Some (clock 0%nat) |};
                  store := c; readings := 1 |} = (Normal tt, w1) /\
             warmedCount (service w1) = 0 /\
             failedCount (service w1) = 2).
  { destruct Herr as [He|(rows & Hrows & He)].
    - cbv [warmMetadata try_catch bind query add_failed modify_service].
      rewrite He. eexists. split; [reflexivity|]. split; reflexivity.
    - cbv [warmMetadata try_catch bind query add_failed modify_service
             cache_set Date_now].
      rewrite Hrows. cbn [service store readings]. rewrite He.
      eexists. split; [reflexivity|]. split; reflexivity. }
  destruct Hmeta as (w1 & Hmeta & Hw & Hf).
  exists w1. split; [exact Hmeta|]. split; [exact Hw|]. split; [exact Hf|].
  rewrite (warm_after_metadata db clock arrival c w1 Hperm Hmeta).
  split; reflexivity.
Qed.

Lemma metadata_error_is_counted_and_warming_continues_witness :
  (forall batch, Permutation batch (Fixtures.in_order batch)) /\
  Fixtures.db_municipalities_down SelectActiveIndices [] = Normal [] /\
  Fixtures.db_municipalities_down SelectMunicipalities []
  = Thrown "connect ECONNREFUSED" /\
  fst (@warm Fixtures.sample_digest Fixtures.db_municipalities_down
         Fixtures.clock_ms Fixtures.in_order (new_InMemoryCache None None))
  = Normal tt.
Proof.
  assert (Hperm : forall batch, Permutation batch (Fixtures.in_order batch))
    by (intros batch; apply Permutation_refl).
  assert (H1 : Fixtures.db_municipalities_down SelectActiveIndices [] = Normal [])
    by reflexivity.
  assert (H2 : Fixtures.db_municipalities_down SelectMunicipalities []
               = Thrown "connect ECONNREFUSED") by reflexivity.
  split; [exact Hperm|]. split; [exact H1|]. split; [exact H2|].
  destruct (@metadata_error_is_counted_and_warming_continues
              Fixtures.sample_digest Fixtures.db_municipalities_down
              Fixtures.clock_ms Fixtures.in_order (new_InMemoryCache None None)
              "connect ECONNREFUSED" Hperm
              (or_intror (ex_intro _ [] (conj H1 H2))))
    as (w1 & _ & _ & _ & Hret & _).
  exact Hret.
Defined.

(* ------------------------------------------------------------------ *)
(** ** The warmer: a run in which every query answers *)

Lemma append_cancel_l a x y : a ++ x = a ++ y -> x = y.
Proof.
  induction a as [|ch a IH]; simpl; intros Heq; [exact Heq|].
  injection Heq as Heq. now apply IH.
Qed.

Lemma warm_key_injective scenario period i j :
  warm_key scenario period i = warm_key scenario period j -> i = j.
Proof.
  unfold warm_key. intros Heq.
  repeat (apply append_cancel_l in Heq). exact Heq.
Qed.

Lemma incl_by_check (l1 l2 : list string) :
  forallb (Routes.array_includes l2) l1 = true -> incl l1 l2.
Proof.
  intros Hall x Hx. rewrite forallb_forall in Hall. specialize (Hall x Hx).
  unfold Routes.array_includes in Hall. apply existsb_exists in Hall.
  destruct Hall as (y & Hy & Heq). apply String.eqb_eq in Heq. now subst.
Qed.

Lemma NoDup_by_check (l : list string) :
  nodup string_dec l = l -> NoDup l.
Proof. intros <-. apply NoDup_nodup. Qed.

Lemma NoDup_app_disjoint (l1 l2 : list string) :
  NoDup (l1 ++ l2) -> forall x, In x l1 -> In x l2 -> False.
Proof.
  induction l1 as [|y l1 IH]; simpl; intros Hnd x Hx1 Hx2; [exact Hx1|].
  inversion Hnd as [|? ? Hy Hnd']; subst.
  destruct Hx1 as [->|Hx1].
  - apply Hy. apply in_or_app. now right.
  - exact (IH Hnd' x Hx1 Hx2).
Qed.

Lemma NoDup_CLIMATE_INDICES : NoDup CLIMATE_INDICES.
Proof. apply NoDup_by_check. vm_compute. reflexivity. Qed.

Lemma NoDup_warm_keys : NoDup warm_keys.
Proof. apply NoDup_by_check. vm_compute. reflexivity. Qed.

Section GoodRun.
Context `{Digest}.
Variable db : Database.
Variable clock : nat -> Z.
Variable arrival : list string -> list string.
Hypothesis arrival_perm : forall batch, Permutation batch (arrival batch).

Lemma warmed_more_trans ks1 ks2 w w1 w2 :
  warmed_more ks1 w w1 -> warmed_more ks2 w1 w2 ->
  warmed_more (ks1 ++ ks2) w w2.
Proof.
  intros (Hk1 & Hw1 & Hf1 & Hm1 & _) (Hk2 & Hw2 & Hf2 & Hm2 & Hwf2).
  unfold warmed_more. rewrite Hk2, Hk1, Hw2, Hw1, Hf2, Hf1, Hm2, Hm1.
  rewrite length_app, Nat2Z.inj_add, app_assoc.
  repeat split; [lia|exact Hwf2].
Qed.

Lemma warmed_more_nil w : JsMap.wf (cache (store w)) -> warmed_more [] w w.
Proof.
  intros Hwf. unfold warmed_more. rewrite app_nil_r. simpl.
  repeat split; [lia|exact Hwf].
Qed.

Lemma room_for_prefix ks1 ks2 w :
  room_for (ks1 ++ ks2) w -> room_for ks1 w.
Proof.
  intros (Hwf & Hnd & Hfresh & Hroom). rewrite length_app in Hroom.
  repeat split.
  - exact Hwf.
  - eapply NoDup_app_remove_r. exact Hnd.
  - intros k Hk. apply Hfresh. apply in_or_app. now left.
  - lia.
Qed.

Lemma room_for_rest ks1 ks2 w w1 :
  room_for (ks1 ++ ks2) w -> warmed_more ks1 w w1 -> room_for ks2 w1.
Proof.
  intros (Hwf & Hnd & Hfresh & Hroom) (Hk1 & _ & _ & Hm1 & Hwf1).
  rewrite length_app in Hroom.
  assert (Hsize : JsMap.size (cache (store w1))
                  = JsMap.size (cache (store w)) + Z.of_nat (List.length ks1)).
  { unfold JsMap.size.
    rewrite <- (length_map fst (cache (store w1))).
    rewrite <- (length_map fst (cache (store w))).
    fold (JsMap.keys (cache (store w1))). fold (JsMap.keys (cache (store w))).
    rewrite Hk1, length_app. lia. }
  repeat split.
  - exact Hwf1.
  - eapply NoDup_app_remove_l. exact Hnd.
  - intros k Hk. rewrite Hk1. intros Hin. apply in_app_or in Hin.
    destruct Hin as [Hin|Hin].
    + apply (Hfresh k); [apply in_or_app; now right|exact Hin].
    + exact (NoDup_app_disjoint _ _ Hnd k Hin Hk).
  - rewrite Hm1. lia.
Qed.

(** One write of a new key while there is room. *)
Lemma cache_set_warmed_more key d ttl w svc :
  room_for [key] w ->
  warmedCount svc = warmedCount (service w) + 1 ->
  failedCount svc = failedCount (service w) ->
  warmed_more [key] w
    {| service := svc;
       store := set (store w) key d (Some ttl) (clock (readings w))
                  (clock (S (readings w)));
       readings := S (S (readings w)) |}.
Proof.
  intros (Hwf & _ & Hfresh & Hroom) Hw Hf. simpl in Hroom.
  unfold warmed_more. cbn [service store].
  repeat split.
  - rewrite set_below_capacity by lia.
    apply map_keys_set_absent. apply Hfresh. now left.
  - simpl. exact Hw.
  - exact Hf.
  - now apply set_wf.
Qed.

Lemma warmEntry_good index w :
  good_answer db "ssp245" "near-term_2021-2040" index ->
  room_for [warm_key "ssp245" "near-term_2021-2040" index] w ->
  exists w',
    warmEntry db clock "ssp245" "near-term_2021-2040" index w = (Normal true, w') /\
    warmed_more [warm_key "ssp245" "near-term_2021-2040" index] w w'.
Proof.
  intros (row & rest & g & Hq & Hf & Ht) Hroom.
  cbv [warmEntry try_catch bind buildGeoJSON query ret cache_set Date_now
         add_warmed modify_service].
  rewrite Hq, Hf, Ht, Ht. cbn [service store readings].
  eexists. split; [reflexivity|].
  apply cache_set_warmed_more; [exact Hroom|reflexivity|reflexivity].
Qed.

Lemma settle_all_good (l : list string) : forall w,
  (forall i, In i l -> good_answer db "ssp245" "near-term_2021-2040" i) ->
  room_for (List.map (warm_key "ssp245" "near-term_2021-2040") l) w ->
  exists bs w',
    settle_all l (warmEntry db clock "ssp245" "near-term_2021-2040") w = (Normal bs, w') /\
    warmed_more (List.map (warm_key "ssp245" "near-term_2021-2040") l) w w'.
Proof.
  induction l as [|i l IH]; intros w Hgood Hroom.
  - exists [], w. split; [reflexivity|].
    apply warmed_more_nil. exact (proj1 Hroom).
  - change (List.map (warm_key "ssp245" "near-term_2021-2040") (i :: l))
      with ([warm_key "ssp245" "near-term_2021-2040" i]
              ++ List.map (warm_key "ssp245" "near-term_2021-2040") l)%list in *.
    destruct (warmEntry_good i w (Hgood i (or_introl eq_refl))
                (room_for_prefix _ _ _ Hroom)) as (w1 & He & Hm1).
    destruct (IH w1 (fun j Hj => Hgood j (or_intror Hj))
                (room_for_rest _ _ _ _ Hroom Hm1)) as (bs & w2 & Hs & Hm2).
    exists (true :: bs), w2. split.
    + simpl. unfold bind at 1. rewrite He. unfold bind at 1. rewrite Hs.
      reflexivity.
    + eapply warmed_more_trans; eassumption.
Qed.

Lemma for_each_batches_good (bs : list (list string)) : forall w,
  (forall i, In i (flat_map arrival bs) ->
     good_answer db "ssp245" "near-term_2021-2040" i) ->
  room_for (List.map (warm_key "ssp245" "near-term_2021-2040") (flat_map arrival bs)) w ->
  exists w',
    for_each bs (warm_batch db clock arrival "ssp245" "near-term_2021-2040") w
    = (Normal tt, w') /\
    warmed_more (List.map (warm_key "ssp245" "near-term_2021-2040") (flat_map arrival bs))
      w w'.
Proof.
  induction bs as [|b bs IH]; intros w Hgood Hroom.
  - exists w. split; [reflexivity|].
    apply warmed_more_nil. exact (proj1 Hroom).
  - simpl flat_map in *. rewrite map_app in *.
    destruct (settle_all_good (arrival b) w
                (fun i Hi => Hgood i (in_or_app _ _ _ (or_introl Hi)))
                (room_for_prefix _ _ _ Hroom)) as (results & w1 & Hs & Hm1).
    destruct (IH w1 (fun i Hi => Hgood i (in_or_app _ _ _ (or_intror Hi)))
                (room_for_rest _ _ _ _ Hroom Hm1)) as (w2 & Hf & Hm2).
    exists w2. split.
    + simpl. unfold bind at 1. unfold warm_batch. unfold bind at 1.
      rewrite Hs. unfold ret at 1. exact Hf.
    + eapply warmed_more_trans; eassumption.
Qed.

Lemma flat_map_arrival_perm (bs : list (list string)) :
  Permutation (flat_map arrival bs) (List.concat bs).
Proof.
  induction bs as [|b bs IH]; simpl; [constructor|].
  apply Permutation_app; [symmetry; apply arrival_perm|exact IH].
Qed.

(** The order in which [warmTier1] writes the indices. *)
Lemma tier1_order_perm :
  Permutation
    (flat_map arrival (batches PRIORITY_INDICES)
     ++ flat_map arrival
          (batches
             (filter (fun idx => negb (Routes.array_includes PRIORITY_INDICES idx))
                CLIMATE_INDICES)))
    CLIMATE_INDICES.
Proof.
  eapply Permutation_trans.
  { apply Permutation_app; apply flat_map_arrival_perm. }
  apply NoDup_Permutation.
  - apply NoDup_by_check. vm_compute. reflexivity.
  - exact NoDup_CLIMATE_INDICES.
  - intros x. split; apply incl_by_check; vm_compute; reflexivity.
Qed.

Lemma warmTier1_good w :
  (forall i, In i CLIMATE_INDICES -> good_answer db "ssp245" "near-term_2021-2040" i) ->
  room_for
    (List.map (warm_key "ssp245" "near-term_2021-2040")
       (flat_map arrival (batches PRIORITY_INDICES)
        ++ flat_map arrival
             (batches
                (filter
                   (fun idx => negb (Routes.array_includes PRIORITY_INDICES idx))
                   CLIMATE_INDICES)))) w ->
  exists w',
    warmTier1 db clock arrival w = (Normal tt, w') /\
    warmed_more
      (List.map (warm_key "ssp245" "near-term_2021-2040")
         (flat_map arrival (batches PRIORITY_INDICES)
          ++ flat_map arrival
               (batches
                  (filter
                     (fun idx => negb (Routes.array_includes PRIORITY_INDICES idx))
                     CLIMATE_INDICES)))) w w'.
Proof.
  intros Hgood Hroom.
  assert (Hall : forall i,
             In i (flat_map arrival (batches PRIORITY_INDICES)
                   ++ flat_map arrival
                        (batches
                           (filter
                              (fun idx =>
                                 negb (Routes.array_includes PRIORITY_INDICES idx))
                              CLIMATE_INDICES))) ->
             good_answer db "ssp245" "near-term_2021-2040" i).
  { intros i Hi. apply Hgood.
    eapply Permutation_in; [apply tier1_order_perm|exact Hi]. }
  rewrite map_app in *.
  destruct (for_each_batches_good (batches PRIORITY_INDICES) w
              (fun i Hi => Hall i (in_or_app _ _ _ (or_introl Hi)))
              (room_for_prefix _ _ _ Hroom)) as (w1 & Hf1 & Hm1).
  destruct (for_each_batches_good _ w1
              (fun i Hi => Hall i (in_or_app _ _ _ (or_intror Hi)))
              (room_for_rest _ _ _ _ Hroom Hm1)) as (w2 & Hf2 & Hm2).
  exists w2. split.
  - unfold warmTier1. unfold bind at 1.
    rewrite Hf1.
    match goal with
    | |- context [if ?b then _ else _] =>
        replace b with true by (vm_compute; reflexivity)
    end.
    exact Hf2.
  - eapply warmed_more_trans; eassumption.
Qed.

Lemma warmMetadata_good w rows_i rows_m :
  db SelectActiveIndices [] = Normal rows_i ->
  db SelectMunicipalities [] = Normal rows_m ->
  room_for ["GET:/api/indices"; "GET:/api/municipalities"] w ->
  exists w',
    warmMetadata db clock w = (Normal tt, w') /\
    JsMap.keys (cache (store w'))
    = (JsMap.keys (cache (store w))
       ++ ["GET:/api/indices"; "GET:/api/municipalities"])%list /\
    warmedCount (service w') = warmedCount (service w) + 2 /\
    failedCount (service w') = failedCount (service w) /\
    maxSize (store w') = maxSize (store w) /\
    JsMap.wf (cache (store w')).
Proof.
  intros Hi Hmu Hroom.
  cbv [warmMetadata try_catch bind query ret cache_set Date_now add_warmed
         modify_service].
  rewrite Hi. cbn [service store readings]. rewrite Hmu.
  cbn [service store readings].
  eexists. split; [reflexivity|]. cbn [service store readings].
  change ["GET:/api/indices"; "GET:/api/municipalities"]
    with (["GET:/api/indices"] ++ ["GET:/api/municipalities"])%list in Hroom.
  pose proof (cache_set_warmed_more "GET:/api/indices"
                (success_count_data rows_i) metadata_ttl w
                {| warmedCount := warmedCount (service w) + 1;
                   failedCount := failedCount (service w);
                   startTime := startTime (service w) |}
                (room_for_prefix _ _ _ Hroom) eq_refl eq_refl) as Hm1.
  pose proof (room_for_rest _ _ _ _ Hroom Hm1) as Hroom2.
  pose proof (cache_set_warmed_more "GET:/api/municipalities"
                (success_count_data rows_m) metadata_ttl _
                {| warmedCount := warmedCount (service w) + 2;
                   failedCount := failedCount (service w);
                   startTime := startTime (service w) |}
                Hroom2 ltac:(simpl; lia) eq_refl) as Hm2.
  destruct Hm1 as (Hk1 & _ & _ & Hmax1 & _).
  destruct Hm2 as (Hk2 & _ & _ & Hmax2 & Hwf2).
  cbn [service store readings] in *.
  split; [rewrite Hk2, Hk1, <- app_assoc; reflexivity|].
  split; [reflexivity|]. split; [reflexivity|].
  split; [rewrite Hmax2, Hmax1; reflexivity|exact Hwf2].
Qed.

End GoodRun.

(** A run on an empty cache of maximum size at least 29 in which every
    query answers returns normally, leaves the two metadata keys followed by
    the 27 pairwise distinct keys of the indices, and counts 29 warmed and 0
    failed. *)
Lemma warm_good_run_counts `{Digest} db clock arrival c rows_i rows_m :
  (forall batch, Permutation batch (arrival batch)) ->
  cache c = [] ->
  29 <= maxSize c ->
  db SelectActiveIndices [] = Normal rows_i ->
  db SelectMunicipalities [] = Normal rows_m ->
  (forall index, In index CLIMATE_INDICES ->
     good_answer db "ssp245" "near-term_2021-2040" index) ->
  fst (warm db clock arrival c) = Normal tt /\
  (exists order,
     Permutation order CLIMATE_INDICES /\
     JsMap.keys (cache (store (snd (warm db clock arrival c))))
     = "GET:/api/indices" :: "GET:/api/municipalities"
       :: List.map (warm_key "ssp245" "near-term_2021-2040") order) /\
  JsMap.size (cache (store (snd (warm db clock arrival c)))) = 29 /\
  List.length CLIMATE_INDICES = 27%nat /\
  NoDup (List.map (warm_key "ssp245" "near-term_2021-2040") CLIMATE_INDICES) /\
  warmedCount (service (snd (warm db clock arrival c))) = 29 /\
  failedCount (service (snd (warm db clock arrival c))) = 0.
Proof.
  intros Hperm Hempty Hmax Hi Hmu Hgood.
  set (order :=
         (flat_map arrival (batches PRIORITY_INDICES)
          ++ flat_map arrival
               (batches
                  (filter
                     (fun idx => negb (Routes.array_includes PRIORITY_INDICES idx))
                     CLIMATE_INDICES)))%list).
  assert (Horder : Permutation order CLIMATE_INDICES)
    by (apply tier1_order_perm; exact Hperm).
  assert (Hlen : List.length order = 27%nat)
    by (rewrite (Permutation_length Horder); reflexivity).
  set (w0 := {| service := {| warmedCount := 0; failedCount := 0;
                              startTime := Some (clock 0%nat) |};
                store := c; readings := 1 |}).
  assert (Hroom : room_for
                    (["GET:/api/indices"; "GET:/api/municipalities"]
                       ++ List.map (warm_key "ssp245" "near-term_2021-2040") order)
                    w0).
  { unfold room_for. cbn [w0 store]. rewrite Hempty. repeat split.
    - constructor.
    - eapply Permutation_NoDup; [|exact NoDup_warm_keys].
      unfold warm_keys. cbn [app]. do 2 apply perm_skip.
      apply Permutation_map. symmetry. exact Horder.
    - intros k _ [].
    - rewrite length_app, length_map, Hlen. unfold JsMap.size. simpl. lia. }
  destruct (warmMetadata_good db clock w0 rows_i rows_m Hi Hmu
              (room_for_prefix _ _ _ Hroom))
    as (w1 & Hmeta & Hk1 & Hw1 & Hf1 & Hm1 & Hwf1).
  assert (Hmore1 : warmed_more ["GET:/api/indices"; "GET:/api/municipalities"]
                     w0 w1).
  { unfold warmed_more. repeat split; assumption. }
  destruct (warmTier1_good db clock arrival Hperm w1 Hgood
              (room_for_rest _ _ _ _ Hroom Hmore1))
    as (w2 & Htier & Hk2 & Hw2 & Hf2 & Hm2 & Hwf2).
  fold order in Hk2, Hw2.
  rewrite (warm_after_metadata db clock arrival c w1 Hperm Hmeta).
  rewrite Htier. cbn [fst snd Date_now store service].
  assert (Hkeys : JsMap.keys (cache (store w2))
                  = "GET:/api/indices" :: "GET:/api/municipalities"
                    :: List.map (warm_key "ssp245" "near-term_2021-2040") order).
  { rewrite Hk2, Hk1. cbn [w0 store]. rewrite Hempty. reflexivity. }
  split; [reflexivity|].
  split; [exists order; split; [exact Horder|exact Hkeys]|].
  split.
  { unfold JsMap.size. rewrite <- (length_map fst).
    fold (JsMap.keys (cache (store w2))). rewrite Hkeys. simpl.
    rewrite length_map, Hlen. reflexivity. }
  split; [reflexivity|].
  split.
  { pose proof NoDup_warm_keys as Hnd. unfold warm_keys in Hnd.
    inversion Hnd as [|? ? _ Hnd1]; subst.
    inversion Hnd1 as [|? ? _ Hnd2]; subst. exact Hnd2. }
  split.
  - rewrite Hw2, Hw1, length_map, Hlen. reflexivity.
  - rewrite Hf2, Hf1. reflexivity.
Qed.

(* ------------------------------------------------------------------ *)
(** ** The warmer's GeoJSON payload against the live handler's *)

Lemma success_data_is_not_its_data g : success_data g <> g.
Proof.
  intros Heq. apply (f_equal json_size) in Heq. unfold success_data in Heq.
  simpl in Heq. lia.
Qed.

Lemma field_some_not_null row name g :
  field row name = Some g -> is_null row = false.
Proof. destruct row; simpl; intros Hf; (discriminate || reflexivity). Qed.

Lemma is_null_false_iff row : is_null row = false <-> row <> JNull.
Proof.
  destruct row; simpl; split; intros Hn; try reflexivity; try discriminate.
  now elim Hn.
Qed.

(** C1 fails on the code. For a scenario, period and index for which the
    database returns a truthy feature collection [g]:
    - [warmEntry] installs, under the key
      [GET:/api/climate-data/geojson/<scenario>/<period>/<index>], the
      envelope [{ success: true, data: g }], which is not [g];
    - that key is the key the middleware computes for the route's URL;
    - the route's handler, given the same answer, passes the raw [g] to
      [res.json] with status 200, and the overriding [res.json] of the
      middleware then stores [g] itself under the key. *)
Theorem warmEntry_stores_envelope_handler_stores_raw
  `{Digest} `{Express} db clock scenario period index w row rest g :
  db (SelectGeoJSON_warmer index) [scenario; period] = Normal (row :: rest) ->
  db (SelectGeoJSON_route index) [scenario; period] = Normal (row :: rest) ->
  field row "geojson" = Some g ->
  truthy g = true ->
  In index Routes.validIndices ->
  (exists item,
     JsMap.get (warm_key scenario period index)
       (cache (store (snd (warmEntry db clock scenario period index w))))
     = Some item /\
     data item = JObj [ ("success", JBool true); ("data", g) ] /\
     data item <> g) /\
  (forall hs,
     generateKey {| method := "GET";
                    originalUrl := Routes.geojson_url scenario period index;
                    headers := hs |}
     = warm_key scenario period index) /\
  Routes.geojson_handler db scenario period index = Routes.ResJson 200 g /\
  (forall c ttl req res t1 t2,
     statusCode res = 200 ->
     exists item,
       JsMap.get (warm_key scenario period index)
         (cache (snd (intercepted_json c (warm_key scenario period index) ttl
                        req res g t1 t2)))
       = Some item /\
       data item = g).
Proof.
  intros Hw Hr Hf Ht Hvalid.
  split; [|split; [|split]].
  - cbv [warmEntry try_catch bind buildGeoJSON query ret cache_set Date_now
           add_warmed modify_service].
    rewrite Hw, Hf, Ht, Ht. cbn [snd store].
    eexists. split; [apply set_get_same|].
    split; [reflexivity|apply success_data_is_not_its_data].
  - intros hs. reflexivity.
  - unfold Routes.geojson_handler.
    assert (Hinc : Routes.array_includes Routes.validIndices index = true).
    { unfold Routes.array_includes. apply existsb_exists.
      exists index. split; [exact Hvalid|apply String.eqb_refl]. }
    rewrite Hinc, Hr, (field_some_not_null _ _ _ Hf), Hf, Ht. reflexivity.
  - intros c ttl req res t1 t2 Hs. unfold intercepted_json. rewrite Hs.
    cbn [Z.eqb Pos.eqb snd]. eexists. split; [apply set_get_same|reflexivity].
Qed.

Lemma warmEntry_stores_envelope_handler_stores_raw_witness :
  Fixtures.db_all_ok (SelectGeoJSON_warmer "cdd") ["ssp245"; "near-term_2021-2040"]
  = Normal [ JObj [ ("geojson", Fixtures.empty_collection) ] ] /\
  Fixtures.db_all_ok (SelectGeoJSON_route "cdd") ["ssp245"; "near-term_2021-2040"]
  = Normal [ JObj [ ("geojson", Fixtures.empty_collection) ] ] /\
  field (JObj [ ("geojson", Fixtures.empty_collection) ]) "geojson"
  = Some Fixtures.empty_collection /\
  truthy Fixtures.empty_collection = true /\
  In "cdd" Routes.validIndices /\
  (exists item,
     JsMap.get "GET:/api/climate-data/geojson/ssp245/near-term_2021-2040/cdd"
       (cache
          (store
             (snd (@warmEntry Fixtures.sample_digest Fixtures.db_all_ok
                     Fixtures.clock_ms "ssp245" "near-term_2021-2040" "cdd"
                     {| service := new_CacheWarmingService; store := singleton;
                        readings := 0 |}))))
     = Some item /\
     data item
     = JObj [ ("success", JBool true); ("data", Fixtures.empty_collection) ] /\
     data item <> Fixtures.empty_collection) /\
  Routes.geojson_handler Fixtures.db_all_ok "ssp245" "near-term_2021-2040" "cdd"
  = Routes.ResJson 200 Fixtures.empty_collection.
Proof.
  assert (Hw : Fixtures.db_all_ok (SelectGeoJSON_warmer "cdd")
                 ["ssp245"; "near-term_2021-2040"]
               = Normal [ JObj [ ("geojson", Fixtures.empty_collection) ] ])
    by reflexivity.
  assert (Hr : Fixtures.db_all_ok (SelectGeoJSON_route "cdd")
                 ["ssp245"; "near-term_2021-2040"]
               = Normal [ JObj [ ("geojson", Fixtures.empty_collection) ] ])
    by reflexivity.
  assert (Hf : field (JObj [ ("geojson", Fixtures.empty_collection) ]) "geojson"
               = Some Fixtures.empty_collection) by reflexivity.
  assert (Ht : truthy Fixtures.empty_collection = true) by reflexivity.
  assert (Hv : In "cdd" Routes.validIndices) by (simpl; tauto).
  split; [exact Hw|]. split; [exact Hr|]. split; [exact Hf|].
  split; [exact Ht|]. split; [exact Hv|].
  destruct (@warmEntry_stores_envelope_handler_stores_raw
              Fixtures.sample_digest Fixtures.sample_express Fixtures.db_all_ok Fixtures.clock_ms
              "ssp245" "near-term_2021-2040" "cdd"
              {| service := new_CacheWarmingService; store := singleton;
                 readings := 0 |}
              _ _ _ Hw Hr Hf Ht Hv) as (Hwarm & _ & Hhandler & _).
  split; [exact Hwarm|exact Hhandler].
Defined.

(* ------------------------------------------------------------------ *)
(** * Further properties of the code *)

(** ** Storing and looking up *)

Lemma map_get_delete_other {V : Type} (m : JsMap.t V) k k' :
  k' <> k -> JsMap.get k' (JsMap.delete k m) = JsMap.get k' m.
Proof.
  intros Hne. induction m as [|[k0 v0] rest IH]; simpl; [reflexivity|].
  destruct (String.eqb_spec k k0) as [->|Hk].
  - destruct (String.eqb_spec k' k0); [contradiction|reflexivity].
  - simpl. destruct (String.eqb k' k0); [reflexivity|exact IH].
Qed.

(** X1. Round trip: an entry stored with [set] and looked up under the same
    key no later than its expiry is returned with the payload that was
    stored and the digest of that payload, and the lookup counts as a hit
    and leaves the entries as they are. *)
Theorem set_then_get_returns_stored_payload `{Digest}
  c key d customTtl t1 t2 now :
  now <= t1 + num_or customTtl (ttl c) ->
  exists item,
    fst (get (set c key d customTtl t1 t2) key now) = Some item /\
    data item = d /\
    etag item = generateETag d /\
    expiresAt item = t1 + num_or customTtl (ttl c) /\
    createdAt item = t2 /\
    hits (snd (get (set c key d customTtl t1 t2) key now)) = hits c + 1 /\
    misses (snd (get (set c key d customTtl t1 t2) key now)) = misses c /\
    cache (snd (get (set c key d customTtl t1 t2) key now))
    = cache (set c key d customTtl t1 t2).
Proof.
  intros Hle. exists (stored_item c d customTtl t1 t2).
  rewrite (get_unexpired _ _ _ _ (set_get_same c key d customTtl t1 t2) Hle).
  repeat split.
Qed.

Lemma set_then_get_returns_stored_payload_witness :
  1500 <= 30 + num_or (Some 2000) (ttl Fixtures.two_of_two) /\
  exists item,
    fst (get (@set Fixtures.sample_digest Fixtures.two_of_two
                "c" (JStr "x") (Some 2000) 30 31) "c" 1500) = Some item /\
    data item = JStr "x" /\
    expiresAt item = 2030.
Proof.
  assert (Hle : 1500 <= 30 + num_or (Some 2000) (ttl Fixtures.two_of_two))
    by (vm_compute; discriminate).
  split; [exact Hle|].
  destruct (@set_then_get_returns_stored_payload Fixtures.sample_digest
              Fixtures.two_of_two "c" (JStr "x") (Some 2000) 30 31 1500 Hle)
    as (item & H1 & H2 & _ & H4 & _).
  exists item. split; [exact H1|]. split; [exact H2|exact H4].
Defined.

(** X2. [get] never serves an expired entry. When it returns an item, that
    item is the one stored under the key, the clock reading is not past its
    expiry, and the only change is one more hit. When it returns [null],
    the key was absent or its entry had expired, and the lookup is counted
    as one more miss and no hit. *)
Theorem get_serves_only_unexpired_entries c key now :
  (forall item,
     fst (get c key now) = Some item ->
     JsMap.get key (cache c) = Some item /\
     now <= expiresAt item /\
     snd (get c key now) = with_counters c (hits c + 1) (misses c)) /\
  (fst (get c key now) = None ->
     (JsMap.get key (cache c) = None \/
      exists item, JsMap.get key (cache c) = Some item /\ expiresAt item < now) /\
     hits (snd (get c key now)) = hits c /\
     misses (snd (get c key now)) = misses c + 1).
Proof.
  unfold get. destruct (JsMap.get key (cache c)) as [item|] eqn:Hget.
  - destruct (Z.gtb_spec now (expiresAt item)) as [Hgt|Hle]; simpl.
    + split; [discriminate|]. intros _. split; [|split; reflexivity].
      right. exists item. split; [reflexivity|lia].
    + split; [|discriminate]. intros item' Heq. injection Heq as <-.
      repeat split. exact Hle.
  - simpl. split; [discriminate|]. intros _. repeat split. now left.
Qed.

(** X3. A TTL of [0] cannot be asked for: [set] with no TTL or with TTL [0]
    stores the entry with the default TTL of the instance, so the entry is
    served until that default TTL has passed. *)
Theorem set_without_ttl_uses_default_ttl `{Digest} c key d customTtl t1 t2 now :
  customTtl = None \/ customTtl = Some 0 ->
  now <= t1 + ttl c ->
  exists item,
    JsMap.get key (cache (set c key d customTtl t1 t2)) = Some item /\
    expiresAt item = t1 + ttl c /\
    fst (get (set c key d customTtl t1 t2) key now) = Some item.
Proof.
  intros Httl Hle. exists (stored_item c d customTtl t1 t2).
  assert (Hnum : num_or customTtl (ttl c) = ttl c)
    by (destruct Httl as [-> | ->]; reflexivity).
  split; [apply set_get_same|]. split.
  - unfold stored_item. simpl. now rewrite Hnum.
  - rewrite (get_unexpired _ _ (stored_item c d customTtl t1 t2) _
               (set_get_same c key d customTtl t1 t2)); [reflexivity|].
    unfold stored_item. simpl. rewrite Hnum. exact Hle.
Qed.

Lemma set_without_ttl_uses_default_ttl_witness :
  (Some 0 = None \/ Some 0 = Some 0) /\
  40 <= 30 + ttl Fixtures.two_of_two /\
  exists item,
    JsMap.get "c"
      (cache (@set Fixtures.sample_digest Fixtures.two_of_two
                "c" (JStr "x") (Some 0) 30 31)) = Some item /\
    expiresAt item = 3600030 /\
    fst (get (@set Fixtures.sample_digest Fixtures.two_of_two
                "c" (JStr "x") (Some 0) 30 31) "c" 40) = Some item.
Proof.
  assert (H0 : Some 0 = None \/ Some 0 = Some 0) by (right; reflexivity).
  assert (Hle : 40 <= 30 + ttl Fixtures.two_of_two)
    by (vm_compute; discriminate).
  split; [exact H0|]. split; [exact Hle|].
  exact (@set_without_ttl_uses_default_ttl Fixtures.sample_digest
           Fixtures.two_of_two "c" (JStr "x") (Some 0) 30 31 40 H0 Hle).
Defined.

Lemma set_get_other `{Digest} c key d customTtl t1 t2 k :
  k <> key ->
  JsMap.size (cache c) < maxSize c \/ JsMap.first_key (cache c) <> Some k ->
  JsMap.get k (cache (set c key d customTtl t1 t2)) = JsMap.get k (cache c).
Proof.
  intros Hne Hcase. unfold set. simpl.
  rewrite map_get_set_other by exact Hne.
  destruct (Z.geb_spec (JsMap.size (cache c)) (maxSize c)) as [Hge|Hlt];
    [|reflexivity].
  destruct Hcase as [Hlt|Hfirst]; [lia|].
  unfold JsMap.delete_first.
  destruct (JsMap.first_key (cache c)) as [k0|]; [|reflexivity].
  apply map_get_delete_other. congruence.
Qed.

(** X4. [set] disturbs no entry but the one it writes and, when the cache is
    at or above its maximum size, the oldest one: every other key is looked
    up to the same item after the call as before. *)
Theorem set_keeps_other_entries `{Digest} c key d customTtl t1 t2 k :
  k <> key ->
  JsMap.size (cache c) < maxSize c \/ JsMap.first_key (cache c) <> Some k ->
  JsMap.get k (cache (set c key d customTtl t1 t2)) = JsMap.get k (cache c).
Proof.
  intros Hne Hcase. unfold set. simpl.
  rewrite map_get_set_other by exact Hne.
  destruct (Z.geb_spec (JsMap.size (cache c)) (maxSize c)) as [Hge|Hlt];
    [|reflexivity].
  destruct Hcase as [Hlt|Hfirst]; [lia|].
  unfold JsMap.delete_first.
  destruct (JsMap.first_key (cache c)) as [k0|]; [|reflexivity].
  apply map_get_delete_other. congruence.
Qed.

Lemma set_keeps_other_entries_witness :
  "b" <> "c" /\
  (JsMap.size (cache Fixtures.two_of_two) < maxSize Fixtures.two_of_two \/
   JsMap.first_key (cache Fixtures.two_of_two) <> Some "b") /\
  JsMap.get "b"
    (cache (@set Fixtures.sample_digest Fixtures.two_of_two
              "c" (JStr "x") None 30 31))
  = JsMap.get "b" (cache Fixtures.two_of_two).
Proof.
  assert (Hne : "b" <> "c") by discriminate.
  assert (Hcase : JsMap.size (cache Fixtures.two_of_two)
                  < maxSize Fixtures.two_of_two \/
                  JsMap.first_key (cache Fixtures.two_of_two) <> Some "b")
    by (right; vm_compute; discriminate).
  split; [exact Hne|]. split; [exact Hcase|].
  exact (@set_keeps_other_entries Fixtures.sample_digest Fixtures.two_of_two
           "c" (JStr "x") None 30 31 "b" Hne Hcase).
Defined.

(** ** What holds of the cache of a running server *)

(** A property of the new cache that [set], [get] and [clear] keep holds in
    every state of a running server's cache. *)
Lemma reachable_invariant `{Digest} `{Express} (Inv : InMemoryCache -> Prop) :
  (forall options_ttl options_maxSize,
     Inv (new_InMemoryCache options_ttl options_maxSize)) ->
  (forall c key d customTtl t1 t2, Inv c -> Inv (set c key d customTtl t1 t2)) ->
  (forall c key now, Inv c -> Inv (snd (get c key now))) ->
  (forall c, Inv c -> Inv (clear c)) ->
  forall c, reachable c -> Inv c.
Proof.
  intros Hnew Hset Hget Hclear c Hreach.
  induction Hreach as [ottl omax|c req res now _ IH
                      |c c0 req res0 now0 key ttl res1 res d t1 t2 _ IH Hmw
                      |c _ IH|c db clock arrival _ IH Hperm].
  - apply Hnew.
  - destruct (middleware_state c req res now) as [->| ->];
      [exact IH|now apply Hget].
  - unfold intercepted_json. destruct (statusCode res =? 200); simpl;
      [now apply Hset|exact IH].
  - now apply Hclear.
  - unfold warm.
    pose proof (triple_warmCache db clock arrival Hperm Inv
                  (fun c0 key d customTtl t1 t2 _ Hc =>
                     Hset c0 key d customTtl t1 t2 Hc)
                  {| service := new_CacheWarmingService; store := c;
                     readings := 0 |} IH) as Ht.
    destruct (warmCache db clock arrival _) as [[[]|e] w'];
      [exact Ht|destruct Ht].
Qed.

Lemma one_cached_reachable :
  @reachable Fixtures.sample_digest Fixtures.sample_express Fixtures.one_cached.
Proof.
  unfold Fixtures.one_cached.
  eapply (@reach_intercepted_json Fixtures.sample_digest Fixtures.sample_express _
            (new_InMemoryCache None None) Fixtures.req_scenarios
            fresh_response 100 _ _ fresh_response).
  - apply reach_middleware. apply reach_new.
  - reflexivity.
Qed.

Lemma map_size_set_le {V : Type} (m : JsMap.t V) k v :
  JsMap.size (JsMap.set k v m) <= JsMap.size m + 1.
Proof.
  destruct (in_dec string_dec k (JsMap.keys m)) as [Hin|Hn].
  - rewrite map_size_set_present by exact Hin. lia.
  - rewrite map_size_set_absent by exact Hn. lia.
Qed.

Lemma map_size_delete_le {V : Type} (m : JsMap.t V) k :
  JsMap.size (JsMap.delete k m) <= JsMap.size m.
Proof.
  destruct (in_dec string_dec k (JsMap.keys m)) as [Hin|Hn].
  - rewrite map_size_delete_present by exact Hin. lia.
  - rewrite map_delete_absent by exact Hn. lia.
Qed.

Lemma set_size_bounded `{Digest} c key d customTtl t1 t2 :
  1 <= maxSize c ->
  JsMap.size (cache c) <= maxSize c ->
  JsMap.size (cache (set c key d customTtl t1 t2)) <= maxSize c.
Proof.
  intros Hmax Hsize. unfold set. simpl.
  destruct (Z.geb_spec (JsMap.size (cache c)) (maxSize c)) as [Hge|Hlt].
  - destruct (cache c) as [|[k0 v0] rest] eqn:Hc.
    + unfold JsMap.size in Hge. simpl in Hge. lia.
    + rewrite map_delete_first_cons.
      pose proof (map_size_set_le rest key
                    {| data := d; etag := generateETag d;
                       expiresAt := t1 + num_or customTtl (ttl c);
                       createdAt := t2 |}) as Hle.
      unfold JsMap.size in *. simpl List.length in Hsize. lia.
  - pose proof (map_size_set_le (cache c) key
                  {| data := d; etag := generateETag d;
                     expiresAt := t1 + num_or customTtl (ttl c);
                     createdAt := t2 |}) as Hle.
    lia.
Qed.

(** X5. In every state of a running server's cache the keys are unique and,
    when the configured maximum size is at least 1, the number of entries
    does not exceed it. *)
Theorem reachable_cache_is_bounded `{Digest} `{Express} c :
  reachable c ->
  JsMap.wf (cache c) /\
  (1 <= maxSize c -> JsMap.size (cache c) <= maxSize c).
Proof.
  apply (reachable_invariant
           (fun c => JsMap.wf (cache c) /\
                     (1 <= maxSize c -> JsMap.size (cache c) <= maxSize c))).
  - intros ottl omax. split; [constructor|].
    intros Hmax. change (0 <= maxSize (new_InMemoryCache ottl omax)). lia.
  - intros c0 key d customTtl t1 t2 [Hwf Hb]. split; [now apply set_wf|].
    destruct (set_fields c0 key d customTtl t1 t2) as (_ & -> & _).
    intros Hmax. apply set_size_bounded; [exact Hmax|now apply Hb].
  - intros c0 key now [Hwf Hb]. unfold get.
    destruct (JsMap.get key (cache c0)) as [item|]; [|now split].
    destruct (now >? expiresAt item); [|now split].
    simpl. split; [now apply map_wf_delete|].
    intros Hmax. specialize (Hb Hmax).
    pose proof (map_size_delete_le (cache c0) key). lia.
  - intros c0 _. split; [constructor|].
    intros Hmax. change (1 <= maxSize c0) in Hmax.
    change (0 <= maxSize c0). lia.
Qed.

Lemma reachable_cache_is_bounded_witness :
  @reachable Fixtures.sample_digest Fixtures.sample_express Fixtures.one_cached /\
  JsMap.wf (cache Fixtures.one_cached) /\
  (1 <= maxSize Fixtures.one_cached ->
   JsMap.size (cache Fixtures.one_cached) <= maxSize Fixtures.one_cached).
Proof.
  split; [exact one_cached_reachable|].
  exact (@reachable_cache_is_bounded Fixtures.sample_digest Fixtures.sample_express Fixtures.one_cached
           one_cached_reachable).
Defined.

Lemma map_get_In {V : Type} (m : JsMap.t V) k v :
  JsMap.get k m = Some v -> In (k, v) m.
Proof.
  induction m as [|[k0 v0] rest IH]; simpl; [discriminate|].
  destruct (String.eqb_spec k k0) as [->|Hne]; intros Hg.
  - injection Hg as ->. now left.
  - right. now apply IH.
Qed.

Lemma Forall_map_set {V : Type} (P : string * V -> Prop) (m : JsMap.t V) k v :
  (forall k', P (k', v)) -> Forall P m -> Forall P (JsMap.set k v m).
Proof.
  intros Hv. induction 1 as [|[k0 v0] rest Hx Hrest IH]; simpl.
  - constructor; [apply Hv|constructor].
  - destruct (String.eqb k k0); constructor; auto.
Qed.

Lemma Forall_map_delete {V : Type} (P : string * V -> Prop) (m : JsMap.t V) k :
  Forall P m -> Forall P (JsMap.delete k m).
Proof.
  induction 1 as [|[k0 v0] rest Hx Hrest IH]; simpl; [constructor|].
  destruct (String.eqb k k0); [exact Hrest|constructor; assumption].
Qed.

(** Every stored item carries the digest of its own payload. *)
Lemma reachable_etags_are_digests `{Digest} `{Express} c :
  reachable c ->
  Forall (fun kv => etag (snd kv) = generateETag (data (snd kv))) (cache c).
Proof.
  apply (reachable_invariant
           (fun c => Forall (fun kv => etag (snd kv) = generateETag (data (snd kv)))
                       (cache c))).
  - intros ottl omax. constructor.
  - intros c0 key d customTtl t1 t2 Hc. unfold set. simpl.
    apply Forall_map_set; [reflexivity|].
    destruct (JsMap.size (cache c0) >=? maxSize c0); [|exact Hc].
    unfold JsMap.delete_first.
    destruct (JsMap.first_key (cache c0)); [|exact Hc].
    now apply Forall_map_delete.
  - intros c0 key now Hc. unfold get.
    destruct (JsMap.get key (cache c0)) as [item|]; [|exact Hc].
    destruct (now >? expiresAt item); [|exact Hc].
    simpl. now apply Forall_map_delete.
  - intros c0 _. constructor.
Qed.

(** The tier table of a running server's cache is the constructor's. *)
Lemma reachable_ttlSettings `{Digest} `{Express} c :
  reachable c -> ttlSettings c = ttlSettings singleton.
Proof.
  apply (reachable_invariant (fun c => ttlSettings c = ttlSettings singleton)).
  - intros ottl omax. reflexivity.
  - intros c0 key d customTtl t1 t2 Hc. exact Hc.
  - intros c0 key now Hc. unfold get.
    destruct (JsMap.get key (cache c0)) as [item|]; [|exact Hc].
    destruct (now >? expiresAt item); exact Hc.
  - intros c0 Hc. exact Hc.
Qed.

Lemma reachable_etag_nonempty `{Digest} `{Express} c key item :
  reachable c ->
  JsMap.get key (cache c) = Some item ->
  etag item = generateETag (data item) /\ etag item <> "".
Proof.
  intros Hreach Hget.
  pose proof (reachable_etags_are_digests c Hreach) as Hall.
  rewrite Forall_forall in Hall.
  apply map_get_In in Hget. specialize (Hall _ Hget). simpl in Hall.
  split; [exact Hall|]. rewrite Hall. apply md5_hex_nonempty.
Qed.

(** What a hit that is not answered by the middleware's own 304 sends: the
    answer of [res.json] on the response that carries the hit headers. *)
Lemma middleware_hit_json `{Express} c req res now item :
  method req = "GET" ->
  includes (originalUrl req) "/cache/" = false ->
  JsMap.get (generateKey req) (cache c) = Some item ->
  now <= expiresAt item ->
  etag item <> "" ->
  if_none_match req <> Some (etag item) ->
  middleware c req res now
  = (Sent
       {| statusCode :=
            if fresh_status (statusCode res)
               && fresh (headers req) (Some (etag item))
                    (JsMap.get "Last-Modified" (resHeaders res))
            then 304 else statusCode res;
          resHeaders :=
            JsMap.set "Cache-Control"
              (getCacheControlHeader (determineTTL c (originalUrl req)))
              (JsMap.set "ETag" (etag item)
                 (JsMap.set "X-Cache-Key" (generateKey req)
                    (JsMap.set "X-Cache" "HIT" (resHeaders res))));
          body :=
            if fresh_status (statusCode res)
               && fresh (headers req) (Some (etag item))
                    (JsMap.get "Last-Modified" (resHeaders res))
               || no_body (statusCode res)
            then None else Some (data item);
          ended := true |},
     with_counters c (hits c + 1) (misses c)).
Proof.
  intros Hm Hu Hget Hle Hne Hc.
  rewrite (middleware_hit c req res now item Hm Hu Hget Hle).
  destruct (strict_eq (if_none_match req) (etag item)) eqn:Hs.
  { apply strict_eq_true_iff in Hs. contradiction. }
  rewrite (originalJson_with_etag req (data item) _ (etag item) Hm);
    [|cbn [resHeaders setHeader];
      rewrite map_get_set_other by discriminate; apply map_get_set_same
     |exact Hne].
  rewrite (req_fresh_get req _ Hm).
  cbn [statusCode resHeaders setHeader].
  rewrite (map_get_set_other _ "ETag" "Cache-Control") by discriminate.
  rewrite map_get_set_same.
  rewrite !(map_get_set_other _ "Last-Modified") by discriminate.
  reflexivity.
Qed.

(** C7 as stated does not hold: a request whose [If-None-Match] is [*]
    differs from the stored fingerprint, and yet it is answered, from an
    unexpired entry, with status 304 and without the stored payload: the
    middleware sets the hit headers and hands the payload to [res.json],
    which finds the request fresh against the [ETag] just set. *)
Lemma hit_with_wildcard_validator_is_answered_without_payload :
  method Fixtures.req_scenarios_any = "GET" /\
  JsMap.get (generateKey Fixtures.req_scenarios_any) (cache Fixtures.one_cached)
  = Some (Fixtures.item_of Fixtures.scenarios_payload 3600150 150) /\
  200 <= expiresAt (Fixtures.item_of Fixtures.scenarios_payload 3600150 150) /\
  if_none_match Fixtures.req_scenarios_any
  <> Some (etag (Fixtures.item_of Fixtures.scenarios_payload 3600150 150)) /\
  @middleware Fixtures.sample_express Fixtures.one_cached
    Fixtures.req_scenarios_any fresh_response 200
  = (Sent {| statusCode := 304;
             resHeaders :=
               [ ("X-Cache", "HIT");
                 ("X-Cache-Key", "GET:/api/climate-data/scenarios");
                 ("ETag", @generateETag Fixtures.sample_digest
                            Fixtures.scenarios_payload);
                 ("Cache-Control", "public, max-age=3600") ];
             body := None;
             ended := true |},
     with_counters Fixtures.one_cached 1 1).
Proof.
  split; [reflexivity|]. split; [reflexivity|]. split; [simpl; lia|].
  split; [discriminate|]. vm_compute. reflexivity.
Qed.

(** C7, amended. For every GET request whose key has an unexpired entry in
    the cache of a running server, the [Cache-Control] of the tier is
    [public, max-age=<floor(ttl / 1000)>], where the TTL is the one that
    the constructor's tier table gives the URL of the request, and:
    - when the request's [If-None-Match] header equals the stored
      fingerprint, the middleware sends status 304 with no body, after
      setting [X-Cache: HIT-304], the [ETag] and the [Cache-Control];
    - when the header is absent or differs, the middleware sets
      [X-Cache: HIT], [X-Cache-Key], the [ETag] and the same [Cache-Control]
      and hands the stored payload, as it is, to [res.json]; the payload is
      then the body, and the status is unchanged, unless [res.json] finds
      the request fresh against that [ETag], in which case the status is 304
      and there is no body (nor is there a body when the response already
      had a status without one);
    - the request is not fresh when it carries neither [If-None-Match] nor
      [If-Modified-Since], and when its [If-None-Match] lists tags none of
      which is the fingerprint, in its strong or its weak form;
    - the request is fresh when its [If-None-Match] is [*] or lists the
      fingerprint in either form, its [Cache-Control], if any, does not
      carry [no-cache], and it has no [If-Modified-Since].
    The lookup is counted as a hit in every case. *)
Theorem cached_get_is_answered_from_cache `{Digest} `{Express}
  c req res now item :
  reachable c ->
  method req = "GET" ->
  JsMap.get (generateKey req) (cache c) = Some item ->
  now <= expiresAt item ->
  getCacheControlHeader (determineTTL c (originalUrl req))
  = "public, max-age=" ++ Z_to_string (determineTTL c (originalUrl req) / 1000) /\
  determineTTL c (originalUrl req) = determineTTL singleton (originalUrl req) /\
  (if_none_match req = Some (etag item) ->
   middleware c req res now
   = (Sent {| statusCode := 304;
              resHeaders :=
                JsMap.set "Cache-Control"
                  (getCacheControlHeader (determineTTL c (originalUrl req)))
                  (JsMap.set "ETag" (etag item)
                     (JsMap.set "X-Cache" "HIT-304" (resHeaders res)));
              body := None;
              ended := true |},
      with_counters c (hits c + 1) (misses c))) /\
  (if_none_match req <> Some (etag item) ->
   middleware c req res now
   = (Sent {| statusCode :=
                if fresh_status (statusCode res)
                   && fresh (headers req) (Some (etag item))
                        (JsMap.get "Last-Modified" (resHeaders res))
                then 304 else statusCode res;
              resHeaders :=
                JsMap.set "Cache-Control"
                  (getCacheControlHeader (determineTTL c (originalUrl req)))
                  (JsMap.set "ETag" (etag item)
                     (JsMap.set "X-Cache-Key" (generateKey req)
                        (JsMap.set "X-Cache" "HIT" (resHeaders res))));
              body :=
                if fresh_status (statusCode res)
                   && fresh (headers req) (Some (etag item))
                        (JsMap.get "Last-Modified" (resHeaders res))
                   || no_body (statusCode res)
                then None else Some (data item);
              ended := true |},
      with_counters c (hits c + 1) (misses c))) /\
  (forall lastModified,
     if_none_match req = None ->
     JsMap.get "if-modified-since" (headers req) = None ->
     fresh (headers req) (Some (etag item)) lastModified = false) /\
  (forall lastModified tags,
     if_none_match req = Some tags ->
     tags <> "" ->
     tags <> "*" ->
     existsb (etag_matches (etag item)) (parseTokenList tags) = false ->
     fresh (headers req) (Some (etag item)) lastModified = false) /\
  (forall lastModified tags,
     if_none_match req = Some tags ->
     tags = "*" \/
     (tags <> "" /\
      existsb (etag_matches (etag item)) (parseTokenList tags) = true) ->
     (forall cacheControl,
        JsMap.get "cache-control" (headers req) = Some cacheControl ->
        no_cache cacheControl = false) ->
     JsMap.get "if-modified-since" (headers req) = None ->
     fresh (headers req) (Some (etag item)) lastModified = true).
Proof.
  intros Hreach Hm Hget Hle.
  assert (Hu : includes (originalUrl req) "/cache/" = false).
  { apply (reachable_keys_cacheable c Hreach (generateKey req)).
    - eapply map_get_in_keys. exact Hget.
    - unfold generateKey. now rewrite Hm. }
  destruct (reachable_etag_nonempty c _ item Hreach Hget) as [_ Hne].
  split; [reflexivity|].
  split; [unfold determineTTL; now rewrite (reachable_ttlSettings c Hreach)|].
  split; [|split; [|split; [|split]]].
  - intros Hc.
    rewrite (middleware_hit c req res now item Hm Hu Hget Hle).
    apply strict_eq_true_iff in Hc. now rewrite Hc.
  - intros Hc. exact (middleware_hit_json c req res now item Hm Hu Hget Hle Hne Hc).
  - intros lastModified Hn Hms. now apply fresh_unconditional.
  - intros lastModified tags Hn Htags Hstar Hnone.
    now apply (fresh_no_tag_matches _ _ _ tags).
  - intros lastModified tags Hn Hcase Hcc Hms.
    apply (fresh_tag_matches _ _ _ tags Hn); [|exact Hcc|exact Hms].
    destruct Hcase as [->|[Htags Hsome]]; [now left|right; tauto].
Qed.

Lemma cached_get_is_answered_from_cache_witness :
  @reachable Fixtures.sample_digest Fixtures.sample_express Fixtures.one_cached /\
  method Fixtures.req_scenarios = "GET" /\
  JsMap.get (generateKey Fixtures.req_scenarios) (cache Fixtures.one_cached)
  = Some (Fixtures.item_of Fixtures.scenarios_payload 3600150 150) /\
  200 <= expiresAt (Fixtures.item_of Fixtures.scenarios_payload 3600150 150) /\
  if_none_match Fixtures.req_scenarios
  <> Some (etag (Fixtures.item_of Fixtures.scenarios_payload 3600150 150)) /\
  @middleware Fixtures.sample_express Fixtures.one_cached Fixtures.req_scenarios
    fresh_response 200
  = (Sent {| statusCode := 200;
             resHeaders :=
               [ ("X-Cache", "HIT");
                 ("X-Cache-Key", "GET:/api/climate-data/scenarios");
                 ("ETag", @generateETag Fixtures.sample_digest
                            Fixtures.scenarios_payload);
                 ("Cache-Control", "public, max-age=3600") ];
             body := Some Fixtures.scenarios_payload;
             ended := true |},
     with_counters Fixtures.one_cached 1 1).
Proof.
  assert (Hm : method Fixtures.req_scenarios = "GET") by reflexivity.
  assert (Hget : JsMap.get (generateKey Fixtures.req_scenarios)
                   (cache Fixtures.one_cached)
                 = Some (Fixtures.item_of Fixtures.scenarios_payload 3600150 150))
    by reflexivity.
  assert (Hle : 200 <= expiresAt
                         (Fixtures.item_of Fixtures.scenarios_payload 3600150 150))
    by (simpl; lia).
  assert (Hc : if_none_match Fixtures.req_scenarios
               <> Some (etag (Fixtures.item_of Fixtures.scenarios_payload
                                3600150 150)))
    by discriminate.
  split; [exact one_cached_reachable|]. split; [exact Hm|]. split; [exact Hget|].
  split; [exact Hle|]. split; [exact Hc|].
  exact (proj1 (proj2 (proj2 (proj2
           (@cached_get_is_answered_from_cache Fixtures.sample_digest
              Fixtures.sample_express Fixtures.one_cached Fixtures.req_scenarios
              fresh_response 200 _ one_cached_reachable Hm Hget Hle)))) Hc).
Defined.

(** X6. Whenever the middleware of a running server answers a request from
    the cache with a body, the [ETag] header it sets is the digest of that
    body. *)
Theorem hit_etag_is_digest_of_body `{Digest} `{Express} c req res now r c' d :
  reachable c ->
  middleware c req res now = (Sent r, c') ->
  body r = Some d ->
  JsMap.get "ETag" (resHeaders r) = Some (generateETag d).
Proof.
  intros Hreach Hmw Hbody.
  unfold middleware in Hmw.
  destruct (String.eqb_spec (method req) "GET") as [Hm|]; [|discriminate].
  cbn [negb] in Hmw.
  destruct (includes (originalUrl req) "/cache/"); [discriminate|].
  unfold get in Hmw.
  destruct (JsMap.get (generateKey req) (cache c)) as [item|] eqn:Hget;
    [|discriminate].
  destruct (now >? expiresAt item); [discriminate|].
  destruct (reachable_etag_nonempty c _ item Hreach Hget) as [Hd Hne].
  destruct (strict_eq (if_none_match req) (etag item));
    injection Hmw as <- _; [discriminate|].
  match type of Hbody with
  | body (originalJson _ _ ?hit) = _ =>
      assert (Hjson := originalJson_with_etag req (data item) hit (etag item) Hm)
  end.
  rewrite Hjson in Hbody |- *;
    try exact Hne;
    try (cbn [resHeaders setHeader];
         rewrite map_get_set_other by discriminate; apply map_get_set_same).
  cbn [body resHeaders setHeader] in Hbody |- *.
  destruct (_ || _); [discriminate|]. injection Hbody as <-.
  rewrite map_get_set_other by discriminate.
  rewrite map_get_set_same. now rewrite Hd.
Qed.

Lemma hit_etag_is_digest_of_body_witness :
  @reachable Fixtures.sample_digest Fixtures.sample_express Fixtures.one_cached /\
  body (@originalJson Fixtures.sample_express Fixtures.req_scenarios
          Fixtures.scenarios_payload
          (setHeader "Cache-Control" "public, max-age=3600"
             (setHeader "ETag"
                (@generateETag Fixtures.sample_digest Fixtures.scenarios_payload)
                (setHeader "X-Cache-Key" "GET:/api/climate-data/scenarios"
                   (setHeader "X-Cache" "HIT" fresh_response)))))
  = Some Fixtures.scenarios_payload /\
  JsMap.get "ETag"
    (resHeaders
       (@originalJson Fixtures.sample_express Fixtures.req_scenarios
          Fixtures.scenarios_payload
          (setHeader "Cache-Control" "public, max-age=3600"
             (setHeader "ETag"
                (@generateETag Fixtures.sample_digest Fixtures.scenarios_payload)
                (setHeader "X-Cache-Key" "GET:/api/climate-data/scenarios"
                   (setHeader "X-Cache" "HIT" fresh_response))))))
  = Some (@generateETag Fixtures.sample_digest Fixtures.scenarios_payload).
Proof.
  assert (Hmw : @middleware Fixtures.sample_express Fixtures.one_cached Fixtures.req_scenarios
                  fresh_response 200
                = (Sent
                     (@originalJson Fixtures.sample_express Fixtures.req_scenarios
          Fixtures.scenarios_payload
                        (setHeader "Cache-Control" "public, max-age=3600"
                           (setHeader "ETag"
                              (@generateETag Fixtures.sample_digest
                                 Fixtures.scenarios_payload)
                              (setHeader "X-Cache-Key"
                                 "GET:/api/climate-data/scenarios"
                                 (setHeader "X-Cache" "HIT" fresh_response))))),
                   with_counters Fixtures.one_cached 1 1))
    by (vm_compute; reflexivity).
  split; [exact one_cached_reachable|]. split; [reflexivity|].
  exact (@hit_etag_is_digest_of_body Fixtures.sample_digest Fixtures.sample_express _ _ _ _ _ _ _
           one_cached_reachable Hmw eq_refl).
Defined.

Lemma reachable_counters_nonnegative `{Digest} `{Express} c :
  reachable c -> 0 <= hits c /\ 0 <= misses c.
Proof.
  apply (reachable_invariant (fun c => 0 <= hits c /\ 0 <= misses c)).
  - intros ottl omax. simpl. lia.
  - intros c0 key d customTtl t1 t2 Hc.
    destruct (set_fields c0 key d customTtl t1 t2) as (_ & _ & -> & -> & _).
    exact Hc.
  - intros c0 key now [Hh Hm]. unfold get.
    destruct (JsMap.get key (cache c0)) as [item|]; [|simpl; lia].
    destruct (now >? expiresAt item); simpl; lia.
  - intros c0 _. simpl. lia.
Qed.

(** X7. The hit rate that [getStats] computes for the cache of a running
    server lies between 0 and 100, and is 0 as long as no lookup was made. *)
Theorem reachable_hit_rate_is_a_percentage `{Digest} `{Express} c :
  reachable c ->
  (0 <= stats_hitRate (getStats c))%Q /\
  (stats_hitRate (getStats c) <= 100 # 1)%Q /\
  (hits c + misses c = 0 -> stats_hitRate (getStats c) = 0%Q).
Proof.
  intros Hreach.
  destruct (reachable_counters_nonnegative c Hreach) as [Hh Hm].
  unfold getStats. simpl.
  destruct (Z.gtb_spec (hits c + misses c) 0) as [Hpos|Hzero].
  - repeat split.
    + unfold Qle. simpl. lia.
    + unfold Qle, Qmult. cbn [Qnum Qden].
      rewrite Pos.mul_1_r, Z2Pos.id by exact Hpos. lia.
    + lia.
  - repeat split; unfold Qle; simpl; lia.
Qed.

Lemma reachable_hit_rate_is_a_percentage_witness :
  @reachable Fixtures.sample_digest Fixtures.sample_express Fixtures.one_cached /\
  (0 <= stats_hitRate (getStats Fixtures.one_cached))%Q /\
  (stats_hitRate (getStats Fixtures.one_cached) <= 100 # 1)%Q.
Proof.
  split; [exact one_cached_reachable|].
  destruct (@reachable_hit_rate_is_a_percentage Fixtures.sample_digest Fixtures.sample_express
              Fixtures.one_cached one_cached_reachable) as (H1 & H2 & _).
  split; [exact H1|exact H2].
Defined.

(** ** The middleware: misses, repeats and what is let through *)

Lemma get_ttlSettings c key now :
  ttlSettings (snd (get c key now)) = ttlSettings c /\
  ttl (snd (get c key now)) = ttl c.
Proof.
  unfold get. destruct (JsMap.get key (cache c)) as [item|]; [|now split].
  destruct (now >? expiresAt item); now split.
Qed.

(** What a request that was let through with an overridden [res.json] tells
    about the request and the lookup. *)
Lemma middleware_intercepted_inv `{Express} c req res now key ttl res1 c1 :
  middleware c req res now = (NextIntercepted key ttl res1, c1) ->
  method req = "GET" /\
  includes (originalUrl req) "/cache/" = false /\
  key = generateKey req /\
  ttl = determineTTL c (originalUrl req) /\
  res1 = res /\
  fst (get c key now) = None /\
  c1 = snd (get c key now).
Proof.
  unfold middleware.
  destruct (String.eqb_spec (method req) "GET") as [Hm|]; simpl negb; cbv iota;
    [|discriminate].
  destruct (includes (originalUrl req) "/cache/") eqn:Hu; [discriminate|].
  destruct (get c (generateKey req) now) as [[item|] c0] eqn:Hget.
  - destruct (strict_eq (if_none_match req) (etag item)); discriminate.
  - intros Heq. injection Heq as <- <- <- <-.
    rewrite Hget. repeat split; try assumption.
    unfold determineTTL.
    pose proof (get_ttlSettings c (generateKey req) now) as [Hts _].
    rewrite Hget in Hts. simpl in Hts. now rewrite Hts.
Qed.

Lemma get_null_counts_miss c key now :
  fst (get c key now) = None ->
  hits (snd (get c key now)) = hits c /\
  misses (snd (get c key now)) = misses c + 1.
Proof.
  unfold get. destruct (JsMap.get key (cache c)) as [item|]; [|now split].
  destruct (now >? expiresAt item); [now split|discriminate].
Qed.

(** X8. After [clear()] every request that the middleware looks up is a
    miss: the cache is empty, the counters restart, and the request is let
    through to its handler with [res.json] overridden. *)
Theorem after_clear_every_lookup_misses `{Express} c req res now :
  method req = "GET" ->
  includes (originalUrl req) "/cache/" = false ->
  JsMap.size (cache (clear c)) = 0 /\
  stats_hitRate (getStats (clear c)) = 0%Q /\
  maxSize (clear c) = maxSize c /\
  middleware (clear c) req res now
  = (NextIntercepted (generateKey req) (determineTTL c (originalUrl req)) res,
     with_counters (clear c) 0 1).
Proof.
  intros Hm Hu. repeat split.
  unfold middleware. rewrite Hm, Hu. reflexivity.
Qed.

Lemma after_clear_every_lookup_misses_witness :
  method Fixtures.req_scenarios = "GET" /\
  includes (originalUrl Fixtures.req_scenarios) "/cache/" = false /\
  @middleware Fixtures.sample_express (clear Fixtures.one_cached) Fixtures.req_scenarios
    fresh_response 200
  = (NextIntercepted "GET:/api/climate-data/scenarios" 3600000 fresh_response,
     with_counters (clear Fixtures.one_cached) 0 1).
Proof.
  assert (Hm : method Fixtures.req_scenarios = "GET") by reflexivity.
  assert (Hu : includes (originalUrl Fixtures.req_scenarios) "/cache/" = false)
    by (vm_compute; reflexivity).
  split; [exact Hm|]. split; [exact Hu|].
  exact (proj2 (proj2 (proj2
           (after_clear_every_lookup_misses Fixtures.one_cached
              Fixtures.req_scenarios fresh_response 200 Hm Hu)))).
Defined.

(** X9. A request whose method is not GET, or whose URL contains [/cache/],
    is let through untouched even when an entry is stored under its key:
    the response, the entries and both counters stay as they are. *)
Theorem other_methods_and_cache_urls_bypass_the_cache `{Express} c req res now :
  method req <> "GET" \/ includes (originalUrl req) "/cache/" = true ->
  middleware c req res now = (Next res, c).
Proof.
  intros Hcase. unfold middleware.
  destruct (String.eqb_spec (method req) "GET") as [Hm|Hm]; simpl negb;
    cbv iota; [|reflexivity].
  destruct Hcase as [Hne|Hu]; [contradiction|]. now rewrite Hu.
Qed.

Lemma other_methods_and_cache_urls_bypass_the_cache_witness :
  (method {| method := "POST"; originalUrl := "/api/climate-data/scenarios";
             headers := [] |} <> "GET" \/
   includes (originalUrl {| method := "POST";
                            originalUrl := "/api/climate-data/scenarios";
                            headers := [] |}) "/cache/" = true) /\
  @middleware Fixtures.sample_express Fixtures.one_cached
    {| method := "POST"; originalUrl := "/api/climate-data/scenarios";
       headers := [] |} fresh_response 200
  = (Next fresh_response, Fixtures.one_cached).
Proof.
  assert (Hcase : method {| method := "POST";
                            originalUrl := "/api/climate-data/scenarios";
                            headers := [] |} <> "GET" \/
                  includes (originalUrl {| method := "POST";
                                           originalUrl := "/api/climate-data/scenarios";
                                           headers := [] |}) "/cache/" = true)
    by (left; discriminate).
  split; [exact Hcase|].
  exact (other_methods_and_cache_urls_bypass_the_cache Fixtures.one_cached
           _ fresh_response 200 Hcase).
Defined.

(** The repeat of a request that was let through and answered with status
    200 finds the stored payload: the middleware answers it with its own
    304, or calls [res.json] with the payload on the response that carries
    the hit headers. *)
Lemma miss_then_repeat_hits `{Digest} `{Express}
  c req res now key ttl res1 c1 res2 d t1 t2 req' res' now' :
  middleware c req res now = (NextIntercepted key ttl res1, c1) ->
  statusCode res2 = 200 ->
  method req' = method req ->
  originalUrl req' = originalUrl req ->
  now' <= t1 + num_or (Some ttl) (Cache.ttl c) ->
  method req' = "GET" /\
  middleware (snd (intercepted_json c1 key ttl req res2 d t1 t2)) req' res' now'
  = (Sent
       (if strict_eq (if_none_match req') (generateETag d) then
          status_end 304
            (setHeader "Cache-Control" (getCacheControlHeader ttl)
               (setHeader "ETag" (generateETag d)
                  (setHeader "X-Cache" "HIT-304" res')))
        else
          originalJson req' d
            (setHeader "Cache-Control" (getCacheControlHeader ttl)
               (setHeader "ETag" (generateETag d)
                  (setHeader "X-Cache-Key" key
                     (setHeader "X-Cache" "HIT" res'))))),
     with_counters (snd (intercepted_json c1 key ttl req res2 d t1 t2))
       (hits c + 1) (misses c + 1)).
Proof.
  intros Hmw Hs Hm' Hu' Hle.
  destruct (middleware_intercepted_inv _ _ _ _ _ _ _ _ Hmw)
    as (Hm & Hu & Hkey & Httl & _ & Hnone & Hc1).
  split; [now rewrite Hm'|].
  destruct (get_ttlSettings c key now) as [Hts Hdef].
  rewrite <- Hc1 in Hts, Hdef.
  assert (Hcounters : hits c1 = hits c /\ misses c1 = misses c + 1).
  { subst c1. exact (get_null_counts_miss c key now Hnone). }
  unfold intercepted_json. rewrite Hs. cbn [Z.eqb Pos.eqb snd].
  assert (Hkey' : generateKey req' = key).
  { unfold generateKey. now rewrite Hm', Hu', Hkey. }
  rewrite (middleware_hit (set c1 key d (Some ttl) t1 t2) req' res' now'
             (stored_item c1 d (Some ttl) t1 t2)).
  - cbn [etag data stored_item]. rewrite Hkey'.
    assert (Hd : determineTTL (set c1 key d (Some ttl) t1 t2) (originalUrl req')
                 = ttl).
    { unfold determineTTL.
      destruct (set_fields c1 key d (Some ttl) t1 t2) as (_ & _ & _ & _ & ->).
      rewrite Hts, Hu', Httl. reflexivity. }
    rewrite Hd.
    destruct (set_fields c1 key d (Some ttl) t1 t2) as (_ & _ & -> & -> & _).
    destruct Hcounters as [-> ->]. reflexivity.
  - now rewrite Hm'.
  - now rewrite Hu'.
  - rewrite Hkey'. apply set_get_same.
  - cbn [expiresAt stored_item]. rewrite Hdef. exact Hle.
Qed.

(** X10. Miss, then hit. When a request was let through as a miss and its
    handler answered with status 200 and the payload [d], a later request
    for the same method and URL, made no later than the expiry, is answered
    from the cache, and the lookup counts as a hit:
    - when it carries the digest of [d] as [If-None-Match], with the
      middleware's 304 and no body;
    - otherwise with [X-Cache: HIT], the digest of [d] as [ETag], and
      whatever [res.json] makes of [d] on that response: [d] as the body
      with the status unchanged, unless [res.json] finds the request fresh
      against the digest (then status 304 and no body) or the status is one
      without a body;
    - in particular a repeat that carries neither [If-None-Match] nor
      [If-Modified-Since], on a response of status 200, gets status 200 and
      the body [d]. *)
Theorem miss_then_repeat_is_served_from_cache `{Digest} `{Express}
  c req res now key ttl res1 c1 res2 d t1 t2 req' res' now' :
  middleware c req res now = (NextIntercepted key ttl res1, c1) ->
  statusCode res2 = 200 ->
  method req' = method req ->
  originalUrl req' = originalUrl req ->
  now' <= t1 + num_or (Some ttl) (Cache.ttl c) ->
  (if_none_match req' = Some (generateETag d) ->
   middleware (snd (intercepted_json c1 key ttl req res2 d t1 t2)) req' res' now'
   = (Sent {| statusCode := 304;
              resHeaders :=
                JsMap.set "Cache-Control" (getCacheControlHeader ttl)
                  (JsMap.set "ETag" (generateETag d)
                     (JsMap.set "X-Cache" "HIT-304" (resHeaders res')));
              body := None;
              ended := true |},
      with_counters (snd (intercepted_json c1 key ttl req res2 d t1 t2))
        (hits c + 1) (misses c + 1))) /\
  (if_none_match req' <> Some (generateETag d) ->
   middleware (snd (intercepted_json c1 key ttl req res2 d t1 t2)) req' res' now'
   = (Sent {| statusCode :=
                if fresh_status (statusCode res')
                   && fresh (headers req') (Some (generateETag d))
                        (JsMap.get "Last-Modified" (resHeaders res'))
                then 304 else statusCode res';
              resHeaders :=
                JsMap.set "Cache-Control" (getCacheControlHeader ttl)
                  (JsMap.set "ETag" (generateETag d)
                     (JsMap.set "X-Cache-Key" key
                        (JsMap.set "X-Cache" "HIT" (resHeaders res'))));
              body :=
                if fresh_status (statusCode res')
                   && fresh (headers req') (Some (generateETag d))
                        (JsMap.get "Last-Modified" (resHeaders res'))
                   || no_body (statusCode res')
                then None else Some d;
              ended := true |},
      with_counters (snd (intercepted_json c1 key ttl req res2 d t1 t2))
        (hits c + 1) (misses c + 1))) /\
  (if_none_match req' = None ->
   JsMap.get "if-modified-since" (headers req') = None ->
   statusCode res' = 200 ->
   middleware (snd (intercepted_json c1 key ttl req res2 d t1 t2)) req' res' now'
   = (Sent {| statusCode := 200;
              resHeaders :=
                JsMap.set "Cache-Control" (getCacheControlHeader ttl)
                  (JsMap.set "ETag" (generateETag d)
                     (JsMap.set "X-Cache-Key" key
                        (JsMap.set "X-Cache" "HIT" (resHeaders res'))));
              body := Some d;
              ended := true |},
      with_counters (snd (intercepted_json c1 key ttl req res2 d t1 t2))
        (hits c + 1) (misses c + 1))).
Proof.
  intros Hmw Hs Hm' Hu' Hle.
  destruct (miss_then_repeat_hits c req res now key ttl res1 c1 res2 d t1 t2
              req' res' now' Hmw Hs Hm' Hu' Hle) as [Hget' Hrepeat].
  assert (Hjson :
            strict_eq (if_none_match req') (generateETag d) = false ->
            middleware (snd (intercepted_json c1 key ttl req res2 d t1 t2))
              req' res' now'
            = (Sent {| statusCode :=
                         if fresh_status (statusCode res')
                            && fresh (headers req') (Some (generateETag d))
                                 (JsMap.get "Last-Modified" (resHeaders res'))
                         then 304 else statusCode res';
                       resHeaders :=
                         JsMap.set "Cache-Control" (getCacheControlHeader ttl)
                           (JsMap.set "ETag" (generateETag d)
                              (JsMap.set "X-Cache-Key" key
                                 (JsMap.set "X-Cache" "HIT" (resHeaders res'))));
                       body :=
                         if fresh_status (statusCode res')
                            && fresh (headers req') (Some (generateETag d))
                                 (JsMap.get "Last-Modified" (resHeaders res'))
                            || no_body (statusCode res')
                         then None else Some d;
                       ended := true |},
               with_counters (snd (intercepted_json c1 key ttl req res2 d t1 t2))
                 (hits c + 1) (misses c + 1))).
  { intros Hne. rewrite Hrepeat, Hne.
    rewrite (originalJson_with_etag req' d _ (generateETag d) Hget');
      [|cbn [resHeaders setHeader];
        rewrite map_get_set_other by discriminate; apply map_get_set_same
       |apply md5_hex_nonempty].
    rewrite (req_fresh_get req' _ Hget').
    cbn [statusCode resHeaders setHeader].
    rewrite (map_get_set_other _ "ETag" "Cache-Control") by discriminate.
    rewrite map_get_set_same.
    rewrite !(map_get_set_other _ "Last-Modified") by discriminate.
    reflexivity. }
  split; [|split].
  - intros Hc. rewrite Hrepeat.
    apply strict_eq_true_iff in Hc. now rewrite Hc.
  - intros Hc. apply Hjson.
    destruct (strict_eq (if_none_match req') (generateETag d)) eqn:Hseq;
      [|reflexivity].
    apply strict_eq_true_iff in Hseq. contradiction.
  - intros Hn Hms Hs'. rewrite Hjson.
    + unfold if_none_match in Hn.
      rewrite (fresh_unconditional _ _ _ Hn Hms), Hs'. reflexivity.
    + now rewrite Hn.
Qed.

Lemma miss_then_repeat_is_served_from_cache_witness :
  @middleware Fixtures.sample_express (new_InMemoryCache None None)
    Fixtures.req_scenarios fresh_response 100
  = (NextIntercepted "GET:/api/climate-data/scenarios" 3600000 fresh_response,
     with_counters (new_InMemoryCache None None) 0 1) /\
  statusCode fresh_response = 200 /\
  200 <= 150 + num_or (Some 3600000) (ttl (new_InMemoryCache None None)) /\
  if_none_match Fixtures.req_scenarios = None /\
  JsMap.get "if-modified-since" (headers Fixtures.req_scenarios) = None /\
  fst (@middleware Fixtures.sample_express Fixtures.one_cached
         Fixtures.req_scenarios fresh_response 200)
  = Sent {| statusCode := 200;
            resHeaders :=
              [ ("X-Cache", "HIT");
                ("X-Cache-Key", "GET:/api/climate-data/scenarios");
                ("ETag", @generateETag Fixtures.sample_digest
                           Fixtures.scenarios_payload);
                ("Cache-Control", "public, max-age=3600") ];
            body := Some Fixtures.scenarios_payload;
            ended := true |}.
Proof.
  assert (Hmw : @middleware Fixtures.sample_express (new_InMemoryCache None None)
                  Fixtures.req_scenarios fresh_response 100
                = (NextIntercepted "GET:/api/climate-data/scenarios" 3600000
                     fresh_response,
                   with_counters (new_InMemoryCache None None) 0 1))
    by reflexivity.
  assert (Hs : statusCode fresh_response = 200) by reflexivity.
  assert (Hle : 200 <= 150 + num_or (Some 3600000)
                               (ttl (new_InMemoryCache None None)))
    by (vm_compute; discriminate).
  assert (Hn : if_none_match Fixtures.req_scenarios = None) by reflexivity.
  assert (Hms : JsMap.get "if-modified-since" (headers Fixtures.req_scenarios)
                = None) by reflexivity.
  split; [exact Hmw|]. split; [exact Hs|]. split; [exact Hle|].
  split; [exact Hn|]. split; [exact Hms|].
  exact (f_equal fst
           (proj2 (proj2
              (@miss_then_repeat_is_served_from_cache Fixtures.sample_digest
                 Fixtures.sample_express
                 _ _ _ _ _ _ _ _ _ Fixtures.scenarios_payload 150 150
                 Fixtures.req_scenarios fresh_response 200
                 Hmw Hs eq_refl eq_refl Hle))
              Hn Hms Hs)).
Defined.

(** X11. A response whose status is not 200 is not cached: the overriding
    [res.json] leaves the cache as it is and sets no [ETag], and still marks
    the response as a miss with the tier's [Cache-Control] before it calls
    the original [res.json]. So, on a cache with unique keys, the same
    request made again is a miss again and reaches the handler again. When
    the status is neither 2xx nor 304, as the 400, 404 and 500 of the
    handlers, the data is sent as the body with that status and with
    [X-Cache: MISS]. *)
Theorem failed_response_is_not_cached `{Digest} `{Express}
  c req res now key ttl res1 c1 res2 d t1 t2 res' now' :
  JsMap.wf (cache c) ->
  middleware c req res now = (NextIntercepted key ttl res1, c1) ->
  statusCode res2 <> 200 ->
  intercepted_json c1 key ttl req res2 d t1 t2
  = (originalJson req d
       (setHeader "Cache-Control" (getCacheControlHeader ttl)
          (setHeader "X-Cache-Key" key
             (setHeader "X-Cache" "MISS" res2))),
     c1) /\
  middleware (snd (intercepted_json c1 key ttl req res2 d t1 t2)) req res' now'
  = (NextIntercepted key ttl res', with_counters c1 (hits c) (misses c + 2)) /\
  (fresh_status (statusCode res2) = false ->
   statusCode (fst (intercepted_json c1 key ttl req res2 d t1 t2))
   = statusCode res2 /\
   body (fst (intercepted_json c1 key ttl req res2 d t1 t2)) = Some d /\
   JsMap.get "X-Cache"
     (resHeaders (fst (intercepted_json c1 key ttl req res2 d t1 t2)))
   = Some "MISS").
Proof.
  intros Hwf Hmw Hs.
  destruct (middleware_intercepted_inv _ _ _ _ _ _ _ _ Hmw)
    as (Hm & Hu & Hkey & Httl & _ & Hnone & Hc1).
  assert (Hij : intercepted_json c1 key ttl req res2 d t1 t2
                = (originalJson req d
                     (setHeader "Cache-Control" (getCacheControlHeader ttl)
                        (setHeader "X-Cache-Key" key
                           (setHeader "X-Cache" "MISS" res2))),
                   c1)).
  { unfold intercepted_json.
    destruct (Z.eqb_spec (statusCode res2) 200); [contradiction|reflexivity]. }
  split; [exact Hij|]. rewrite Hij. cbn [snd fst].
  split;
    [|intros Hother;
      destruct (originalJson_other_status req d
                  (setHeader "Cache-Control" (getCacheControlHeader ttl)
                     (setHeader "X-Cache-Key" key
                        (setHeader "X-Cache" "MISS" res2))) Hm Hother)
        as (Hstatus & Hbody & Hheaders);
      split; [exact Hstatus|]; split; [exact Hbody|];
      rewrite Hheaders by discriminate; cbn [resHeaders setHeader];
      rewrite !map_get_set_other by discriminate; apply map_get_set_same].
  assert (Habsent : JsMap.get key (cache c1) = None).
  { subst c1. unfold get in *.
    destruct (JsMap.get key (cache c)) as [item|] eqn:Hget.
    - destruct (now >? expiresAt item); [|discriminate].
      simpl. now apply map_get_delete_same.
    - simpl. exact Hget. }
  destruct (get_null_counts_miss c key now Hnone) as [Hh Hmiss].
  rewrite <- Hc1 in Hh, Hmiss.
  destruct (get_ttlSettings c key now) as [Hts _]. rewrite <- Hc1 in Hts.
  unfold middleware. rewrite Hm, Hu. simpl negb. cbv iota.
  rewrite <- Hkey. unfold get. rewrite Habsent.
  unfold determineTTL. cbn [ttlSettings with_counters].
  rewrite Hts. fold (determineTTL c (originalUrl req)). rewrite <- Httl.
  rewrite Hh, Hmiss. replace (misses c + 1 + 1) with (misses c + 2) by lia.
  reflexivity.
Qed.

Lemma failed_response_is_not_cached_witness :
  JsMap.wf (cache (new_InMemoryCache None None)) /\
  @middleware Fixtures.sample_express (new_InMemoryCache None None) Fixtures.req_scenarios
    fresh_response 100
  = (NextIntercepted "GET:/api/climate-data/scenarios" 3600000 fresh_response,
     with_counters (new_InMemoryCache None None) 0 1) /\
  statusCode Fixtures.response_404 <> 200 /\
  snd (@intercepted_json Fixtures.sample_digest Fixtures.sample_express
         (with_counters (new_InMemoryCache None None) 0 1)
         "GET:/api/climate-data/scenarios" 3600000 Fixtures.req_scenarios
         Fixtures.response_404 JNull 150 150)
  = with_counters (new_InMemoryCache None None) 0 1.
Proof.
  assert (Hwf : JsMap.wf (cache (new_InMemoryCache None None)))
    by constructor.
  assert (Hmw : @middleware Fixtures.sample_express (new_InMemoryCache None None) Fixtures.req_scenarios
                  fresh_response 100
                = (NextIntercepted "GET:/api/climate-data/scenarios" 3600000
                     fresh_response,
                   with_counters (new_InMemoryCache None None) 0 1))
    by reflexivity.
  assert (Hs : statusCode Fixtures.response_404 <> 200)
    by discriminate.
  split; [exact Hwf|]. split; [exact Hmw|]. split; [exact Hs|].
  exact (f_equal snd
           (proj1
              (@failed_response_is_not_cached Fixtures.sample_digest Fixtures.sample_express
                 _ _ _ _ _ _ _ _ Fixtures.response_404 JNull 150 150
                 fresh_response 200 Hwf Hmw Hs))).
Defined.

(* ------------------------------------------------------------------ *)
(** ** The simple cache of the same file *)

Lemma forget_get m key :
  JsMap.get key
    (List.map (fun kv => (fst kv, SimpleCache.forget_item (snd kv))) m)
  = option_map SimpleCache.forget_item (JsMap.get key m).
Proof.
  induction m as [|[k v] rest IH]; simpl; [reflexivity|].
  destruct (String.eqb key k); [reflexivity|exact IH].
Qed.

Lemma forget_delete m key :
  JsMap.delete key
    (List.map (fun kv => (fst kv, SimpleCache.forget_item (snd kv))) m)
  = List.map (fun kv => (fst kv, SimpleCache.forget_item (snd kv)))
      (JsMap.delete key m).
Proof.
  induction m as [|[k v] rest IH]; simpl; [reflexivity|].
  destruct (String.eqb key k); [reflexivity|]. simpl. now rewrite IH.
Qed.

Lemma forget_set m key item :
  JsMap.set key (SimpleCache.forget_item item)
    (List.map (fun kv => (fst kv, SimpleCache.forget_item (snd kv))) m)
  = List.map (fun kv => (fst kv, SimpleCache.forget_item (snd kv)))
      (JsMap.set key item m).
Proof.
  induction m as [|[k v] rest IH]; simpl; [reflexivity|].
  destruct (String.eqb key k); [reflexivity|]. simpl. now rewrite IH.
Qed.

Lemma forget_delete_first (m : JsMap.t CacheItem) :
  JsMap.delete_first
    (List.map (fun kv => (fst kv, SimpleCache.forget_item (snd kv))) m)
  = List.map (fun kv => (fst kv, SimpleCache.forget_item (snd kv)))
      (JsMap.delete_first m).
Proof.
  destruct m as [|[k v] rest]; [reflexivity|].
  rewrite map_delete_first_cons. cbn [List.map fst snd].
  apply map_delete_first_cons.
Qed.

(** X12. The two cache classes of the file agree. Seen without its
    fingerprints and tiers, the tiered cache after [set], [get] or [clear]
    is the simple cache after the same call, and the simple [get] returns
    the data of the item the tiered [get] returns ([null] when there is
    none): same entries in the same order, same evictions, same expiry,
    same counters. *)
Theorem simple_cache_agrees_with_tiered_cache `{Digest}
  c key d customTtl t1 t2 now :
  SimpleCache.set (SimpleCache.forget c) key d customTtl t1 t2
  = SimpleCache.forget (set c key d customTtl t1 t2) /\
  SimpleCache.get (SimpleCache.forget c) key now
  = (match fst (get c key now) with
     | Some item => data item
     | None => JNull
     end,
     SimpleCache.forget (snd (get c key now))) /\
  SimpleCache.clear (SimpleCache.forget c) = SimpleCache.forget (clear c).
Proof.
  split; [|split].
  - unfold SimpleCache.set, set, SimpleCache.forget, SimpleCache.with_cache.
    cbn [SimpleCache.cache SimpleCache.ttl SimpleCache.maxSize SimpleCache.hits
           SimpleCache.misses cache ttl maxSize hits misses with_cache].
    f_equal.
    replace (JsMap.size
               (List.map (fun kv => (fst kv, SimpleCache.forget_item (snd kv)))
                  (cache c)))
      with (JsMap.size (cache c))
      by (unfold JsMap.size; now rewrite length_map).
    rewrite <- forget_set. cbn [SimpleCache.forget_item data expiresAt createdAt].
    destruct (JsMap.size (cache c) >=? maxSize c);
      [now rewrite forget_delete_first|reflexivity].
  - unfold SimpleCache.get, get, SimpleCache.forget.
    cbn [SimpleCache.cache SimpleCache.hits SimpleCache.misses].
    rewrite forget_get.
    destruct (JsMap.get key (cache c)) as [item|]; cbn [option_map];
      [|reflexivity].
    cbn [SimpleCache.forget_item SimpleCache.expiresAt SimpleCache.data].
    destruct (now >? expiresAt item); cbn [fst snd]; [|reflexivity].
    unfold SimpleCache.with_counters, SimpleCache.with_cache.
    cbn [SimpleCache.cache SimpleCache.ttl SimpleCache.maxSize cache ttl
           maxSize hits misses with_cache with_counters].
    now rewrite forget_delete.
  - reflexivity.
Qed.

(** X13. The simple middleware tests the cached data itself for truthiness.
    When the unexpired entry of a GET request holds a falsy payload
    ([null], [false], [0] or the empty string), the lookup is counted as a
    hit, yet nothing is sent: the request goes on to its handler with
    [res.json] overridden, as on a miss. *)
Theorem simple_middleware_never_serves_falsy_payload `{Express} c req res now item :
  method req = "GET" ->
  JsMap.get (SimpleCache.generateKey req) (SimpleCache.cache c) = Some item ->
  now <= SimpleCache.expiresAt item ->
  truthy (SimpleCache.data item) = false ->
  SimpleCache.middleware c req res now
  = (SimpleCache.NextIntercepted (SimpleCache.generateKey req) res,
     SimpleCache.with_counters c (SimpleCache.hits c + 1) (SimpleCache.misses c)).
Proof.
  intros Hm Hget Hle Hfalsy. unfold SimpleCache.middleware, SimpleCache.get.
  rewrite Hm, Hget. simpl negb. cbv iota.
  destruct (Z.gtb_spec now (SimpleCache.expiresAt item)); [lia|].
  now rewrite Hfalsy.
Qed.

Lemma simple_middleware_never_serves_falsy_payload_witness :
  method Fixtures.req_scenarios = "GET" /\
  JsMap.get (SimpleCache.generateKey Fixtures.req_scenarios)
    (SimpleCache.cache Fixtures.simple_with_zero)
  = Some {| SimpleCache.data := JNum 0; SimpleCache.expiresAt := 3600150;
            SimpleCache.createdAt := 150 |} /\
  200 <= 3600150 /\
  truthy (JNum 0) = false /\
  @SimpleCache.middleware Fixtures.sample_express Fixtures.simple_with_zero Fixtures.req_scenarios
    fresh_response 200
  = (SimpleCache.NextIntercepted "GET:/api/climate-data/scenarios"
       fresh_response,
     SimpleCache.with_counters Fixtures.simple_with_zero 1 0).
Proof.
  assert (Hm : method Fixtures.req_scenarios = "GET") by reflexivity.
  assert (Hget : JsMap.get (SimpleCache.generateKey Fixtures.req_scenarios)
                   (SimpleCache.cache Fixtures.simple_with_zero)
                 = Some {| SimpleCache.data := JNum 0;
                           SimpleCache.expiresAt := 3600150;
                           SimpleCache.createdAt := 150 |}) by reflexivity.
  assert (Hle : 200 <= 3600150) by lia.
  assert (Hf : truthy (JNum 0) = false) by reflexivity.
  split; [exact Hm|]. split; [exact Hget|]. split; [exact Hle|].
  split; [exact Hf|].
  exact (simple_middleware_never_serves_falsy_payload
           Fixtures.simple_with_zero Fixtures.req_scenarios fresh_response 200
           _ Hm Hget Hle Hf).
Defined.

(** X14. Miss, then hit, on the simple cache: after a GET request was let
    through and its handler answered with status 200 and a truthy payload, the
    same request made no later than the default TTL after the store is
    answered from the cache, whatever its URL, and counted as a hit: the
    middleware sets [X-Cache: HIT] and [X-Cache-Key] and hands that payload
    to [res.json]. When the request carries neither [If-None-Match] nor
    [If-Modified-Since] and the response has status 200, the payload is the
    body, with status 200 and those two headers. *)
Theorem simple_miss_then_repeat_is_served_from_cache `{Express}
  c req res now key res1 c1 res2 d t1 t2 res' now' :
  SimpleCache.middleware c req res now
  = (SimpleCache.NextIntercepted key res1, c1) ->
  statusCode res2 = 200 ->
  truthy d = true ->
  now' <= t1 + SimpleCache.ttl c ->
  SimpleCache.middleware
    (snd (SimpleCache.intercepted_json c1 key req res2 d t1 t2)) req res' now'
  = (SimpleCache.Sent
       (originalJson req d
          (setHeader "X-Cache-Key" key (setHeader "X-Cache" "HIT" res'))),
     SimpleCache.with_counters
       (snd (SimpleCache.intercepted_json c1 key req res2 d t1 t2))
       (SimpleCache.hits c1 + 1) (SimpleCache.misses c1)) /\
  (if_none_match req = None ->
   JsMap.get "if-modified-since" (headers req) = None ->
   statusCode res' = 200 ->
   statusCode
     (originalJson req d
        (setHeader "X-Cache-Key" key (setHeader "X-Cache" "HIT" res'))) = 200 /\
   body
     (originalJson req d
        (setHeader "X-Cache-Key" key (setHeader "X-Cache" "HIT" res'))) = Some d /\
   JsMap.get "X-Cache"
     (resHeaders
        (originalJson req d
           (setHeader "X-Cache-Key" key (setHeader "X-Cache" "HIT" res'))))
   = Some "HIT" /\
   JsMap.get "X-Cache-Key"
     (resHeaders
        (originalJson req d
           (setHeader "X-Cache-Key" key (setHeader "X-Cache" "HIT" res'))))
   = Some key).
Proof.
  intros Hmw Hs Ht Hle.
  assert (Hinv : method req = "GET" /\ key = SimpleCache.generateKey req /\
                 SimpleCache.ttl c1 = SimpleCache.ttl c).
  { unfold SimpleCache.middleware in Hmw.
    destruct (String.eqb_spec (method req) "GET") as [Hm|]; simpl negb in Hmw;
      cbv iota in Hmw; [|discriminate].
    unfold SimpleCache.get in Hmw.
    destruct (JsMap.get (SimpleCache.generateKey req) (SimpleCache.cache c))
      as [item|].
    - destruct (now >? SimpleCache.expiresAt item).
      + simpl in Hmw. injection Hmw as <- _ <-. now repeat split.
      + destruct (truthy (SimpleCache.data item)); [discriminate|].
        injection Hmw as <- _ <-. now repeat split.
    - simpl in Hmw. injection Hmw as <- _ <-. now repeat split. }
  destruct Hinv as (Hm & Hkey & Httl).
  split.
  - unfold SimpleCache.intercepted_json. rewrite Hs. cbn [Z.eqb Pos.eqb snd].
    unfold SimpleCache.middleware. rewrite Hm. simpl negb. cbv iota.
    rewrite <- Hkey. unfold SimpleCache.get at 1.
    unfold SimpleCache.set at 1. cbn [SimpleCache.cache SimpleCache.with_cache].
    rewrite map_get_set_same. cbn [SimpleCache.expiresAt SimpleCache.data num_or].
    rewrite Httl.
    destruct (Z.gtb_spec now' (t1 + SimpleCache.ttl c)); [lia|].
    rewrite Ht. reflexivity.
  - intros Hn Hms Hs'.
    destruct (originalJson_unconditional req d
                (setHeader "X-Cache-Key" key (setHeader "X-Cache" "HIT" res'))
                Hm Hn Hms Hs') as (Hstatus & Hbody & Hheaders).
    split; [exact Hstatus|]. split; [exact Hbody|].
    rewrite !Hheaders by discriminate. cbn [resHeaders setHeader].
    split.
    + rewrite map_get_set_other by discriminate. apply map_get_set_same.
    + apply map_get_set_same.
Qed.

Lemma simple_miss_then_repeat_is_served_from_cache_witness :
  @SimpleCache.middleware Fixtures.sample_express (SimpleCache.new_InMemoryCache None None)
    Fixtures.req_scenarios fresh_response 100
  = (SimpleCache.NextIntercepted "GET:/api/climate-data/scenarios"
       fresh_response,
     SimpleCache.with_counters (SimpleCache.new_InMemoryCache None None) 0 1) /\
  statusCode fresh_response = 200 /\
  truthy Fixtures.scenarios_payload = true /\
  200 <= 150 + SimpleCache.ttl (SimpleCache.new_InMemoryCache None None) /\
  fst (@SimpleCache.middleware Fixtures.sample_express
         (snd (@SimpleCache.intercepted_json Fixtures.sample_express
                 (SimpleCache.with_counters
                    (SimpleCache.new_InMemoryCache None None) 0 1)
                 "GET:/api/climate-data/scenarios" Fixtures.req_scenarios
                 fresh_response Fixtures.scenarios_payload 150 150))
         Fixtures.req_scenarios fresh_response 200)
  = SimpleCache.Sent
      (@originalJson Fixtures.sample_express Fixtures.req_scenarios
          Fixtures.scenarios_payload
         (setHeader "X-Cache-Key" "GET:/api/climate-data/scenarios"
            (setHeader "X-Cache" "HIT" fresh_response))).
Proof.
  assert (Hmw : @SimpleCache.middleware Fixtures.sample_express (SimpleCache.new_InMemoryCache None None)
                  Fixtures.req_scenarios fresh_response 100
                = (SimpleCache.NextIntercepted "GET:/api/climate-data/scenarios"
                     fresh_response,
                   SimpleCache.with_counters
                     (SimpleCache.new_InMemoryCache None None) 0 1))
    by reflexivity.
  assert (Hs : statusCode fresh_response = 200) by reflexivity.
  assert (Ht : truthy Fixtures.scenarios_payload = true) by reflexivity.
  assert (Hle : 200 <= 150 + SimpleCache.ttl
                               (SimpleCache.new_InMemoryCache None None))
    by (vm_compute; discriminate).
  split; [exact Hmw|]. split; [exact Hs|]. split; [exact Ht|].
  split; [exact Hle|].
  exact (f_equal fst
           (proj1
              (@simple_miss_then_repeat_is_served_from_cache
                 Fixtures.sample_express
                 _ _ _ _ _ _ _ _ Fixtures.scenarios_payload 150 150
                 fresh_response 200 Hmw Hs Ht Hle))).
Defined.

(* ------------------------------------------------------------------ *)
(** ** The GeoJSON route handler *)

Lemma array_includes_In l x :
  Routes.array_includes l x = true <-> In x l.
Proof.
  unfold Routes.array_includes. rewrite existsb_exists. split.
  - intros (y & Hy & Heq). apply String.eqb_eq in Heq. now subst.
  - intros Hx. exists x. split; [exact Hx|apply String.eqb_refl].
Qed.

(** X15. The GeoJSON handler answers with status 200 exactly when the index
    is on its allow-list and the first row of the query result carries a
    truthy [geojson]; the payload is then that [geojson] itself. *)
Theorem geojson_handler_succeeds_iff db scenario period index g :
  Routes.geojson_handler db scenario period index = Routes.ResJson 200 g <->
  In index Routes.validIndices /\
  exists row rest,
    db (SelectGeoJSON_route index) [scenario; period] = Normal (row :: rest) /\
    field row "geojson" = Some g /\
    truthy g = true.
Proof.
  unfold Routes.geojson_handler. split.
  - destruct (Routes.array_includes Routes.validIndices index) eqn:Hinc;
      simpl negb; cbv iota; [|discriminate].
    apply array_includes_In in Hinc.
    destruct (db (SelectGeoJSON_route index) [scenario; period])
      as [[|row rest]|e]; [discriminate| |discriminate].
    destruct (is_null row); [discriminate|].
    destruct (field row "geojson") as [g'|] eqn:Hf; [|discriminate].
    destruct (truthy g') eqn:Ht; simpl negb; cbv iota; [|discriminate].
    intros Heq. injection Heq as <-.
    split; [exact Hinc|]. exists row, rest. now repeat split.
  - intros (Hin & row & rest & Hq & Hf & Ht).
    apply array_includes_In in Hin.
    now rewrite Hin, Hq, (field_some_not_null _ _ _ Hf), Hf, Ht.
Qed.

(** A [null] first row: the handler passes the [TypeError] on, where the
    warmer, which reads the row with [?.], counts a failed entry. *)
Example null_first_row_is_an_error :
  Routes.geojson_handler Fixtures.db_null_row "ssp245" "near-term_2021-2040" "cdd"
  = Routes.NextError "Cannot read properties of null (reading 'geojson')" /\
  fst (@warmEntry Fixtures.sample_digest Fixtures.db_null_row Fixtures.clock_ms
         "ssp245" "near-term_2021-2040" "cdd"
         {| service := new_CacheWarmingService; store := singleton;
            readings := 0 |})
  = Normal false.
Proof. vm_compute. split; reflexivity. Qed.

(** X16. The error cases of the GeoJSON handler. For an index that is not on
    the allow-list it answers 400 whatever the database would answer. For
    an index on the list: an error of the query goes to [next] unchanged; a
    result without rows, and a result whose first row is [null], raise a
    [TypeError] that goes to [next], they are not a 404; a first row other
    than [null] whose [geojson] is missing or falsy is answered 404 with the
    handler's error object. No other status than 200, 400 and 404 is ever
    sent. *)
Theorem geojson_handler_error_cases db scenario period index :
  (~ In index Routes.validIndices ->
     (exists payload,
        Routes.geojson_handler db scenario period index
        = Routes.ResJson 400 payload) /\
     forall db',
       Routes.geojson_handler db' scenario period index
       = Routes.geojson_handler db scenario period index) /\
  (In index Routes.validIndices ->
     (forall e,
        db (SelectGeoJSON_route index) [scenario; period] = Thrown e ->
        Routes.geojson_handler db scenario period index = Routes.NextError e) /\
     (db (SelectGeoJSON_route index) [scenario; period] = Normal [] ->
      Routes.geojson_handler db scenario period index
      = Routes.NextError Routes.type_error_undefined) /\
     (forall rest,
        db (SelectGeoJSON_route index) [scenario; period] = Normal (JNull :: rest) ->
        Routes.geojson_handler db scenario period index
        = Routes.NextError Routes.type_error_null) /\
     (forall row rest,
        db (SelectGeoJSON_route index) [scenario; period] = Normal (row :: rest) ->
        row <> JNull ->
        field row "geojson" = None \/
        (exists g, field row "geojson" = Some g /\ truthy g = false) ->
        Routes.geojson_handler db scenario period index
        = Routes.ResJson 404
            (JObj [ ("success", JBool false);
                    ("error", JStr "No data found for specified parameters") ]))) /\
  (forall status payload,
     Routes.geojson_handler db scenario period index
     = Routes.ResJson status payload ->
     status = 200 \/ status = 400 \/ status = 404).
Proof.
  split; [|split].
  - intros Hn.
    assert (Hinc : Routes.array_includes Routes.validIndices index = false).
    { destruct (Routes.array_includes Routes.validIndices index) eqn:Hinc;
        [|reflexivity].
      apply array_includes_In in Hinc. contradiction. }
    unfold Routes.geojson_handler. rewrite Hinc. simpl negb. cbv iota.
    split; [eexists; reflexivity|reflexivity].
  - intros Hin. apply array_includes_In in Hin.
    unfold Routes.geojson_handler. rewrite Hin. simpl negb. cbv iota.
    split; [|split; [|split]].
    + intros e ->. reflexivity.
    + intros ->. reflexivity.
    + intros rest ->. reflexivity.
    + intros row rest -> Hrow Hcase. apply is_null_false_iff in Hrow.
      rewrite Hrow. destruct Hcase as [Hnone|(g & Hsome & Hf)].
      * rewrite Hnone. reflexivity.
      * rewrite Hsome, Hf. reflexivity.
  - intros status payload. unfold Routes.geojson_handler.
    destruct (Routes.array_includes Routes.validIndices index); simpl negb;
      cbv iota.
    + destruct (db (SelectGeoJSON_route index) [scenario; period])
        as [[|row rest]|e]; [discriminate| |discriminate].
      destruct (is_null row); [discriminate|].
      destruct (field row "geojson") as [g|].
      * destruct (truthy g); simpl negb; cbv iota; intros Heq;
          injection Heq as <- _; tauto.
      * intros Heq. injection Heq as <- _. tauto.
    + intros Heq. injection Heq as <- _. tauto.
Qed.

(* ------------------------------------------------------------------ *)
(** ** The router of the climate-data routes *)

Lemma lower_nonempty s :
  ClimateDataRouter.lower s <> "" -> s <> "".
Proof. intros Hl ->. now apply Hl. Qed.

Lemma dispatch_single_segment decodeURIComponent s :
  s <> "" ->
  ClimateDataRouter.dispatch decodeURIComponent [s]
  = if ClimateDataRouter.decodes decodeURIComponent s
    then ClimateDataRouter.Handler ClimateDataRouter.MunicipalityAll
    else ClimateDataRouter.BadRequest.
Proof.
  intros Hs. unfold ClimateDataRouter.dispatch, ClimateDataRouter.routes.
  cbn [ClimateDataRouter.dispatch_from ClimateDataRouter.pattern
         ClimateDataRouter.matches ClimateDataRouter.segment_matches
         ClimateDataRouter.captures forallb].
  destruct (String.eqb_spec s ""); [contradiction|].
  cbn [negb andb]. now rewrite andb_true_r.
Qed.

Lemma matches_literal_route l path :
  ClimateDataRouter.lower l <> "" ->
  ClimateDataRouter.matches [ClimateDataRouter.Literal l] path = true ->
  exists s, path = [s] /\ s <> "".
Proof.
  intros Hl Hmatch. destruct path as [|s [|s2 rest]]; simpl in Hmatch.
  - discriminate.
  - exists s. split; [reflexivity|].
    rewrite andb_true_r in Hmatch. apply String.eqb_eq in Hmatch.
    apply lower_nonempty. now rewrite <- Hmatch.
  - rewrite andb_false_r in Hmatch. discriminate.
Qed.

(** The handler that runs is the handler of a route that matches. *)
Lemma dispatch_from_handler decodeURIComponent rs path r :
  ClimateDataRouter.dispatch_from decodeURIComponent rs path
  = ClimateDataRouter.Handler r ->
  ClimateDataRouter.matches (ClimateDataRouter.pattern r) path = true.
Proof.
  induction rs as [|r0 rs IH]; cbn [ClimateDataRouter.dispatch_from];
    [discriminate|].
  destruct (ClimateDataRouter.matches (ClimateDataRouter.pattern r0) path)
    eqn:Hm; [|exact IH].
  destruct (forallb _ _); [|discriminate].
  intros Heq. injection Heq as <-. exact Hm.
Qed.

Lemma dispatch_not_literal_route decodeURIComponent path r l :
  ClimateDataRouter.pattern r = [ClimateDataRouter.Literal l] ->
  ClimateDataRouter.lower l <> "" ->
  ClimateDataRouter.dispatch decodeURIComponent path
  <> ClimateDataRouter.Handler r.
Proof.
  intros Hp Hl Hd. pose proof Hd as Hmatch.
  apply dispatch_from_handler in Hmatch. rewrite Hp in Hmatch.
  apply matches_literal_route in Hmatch; [|exact Hl].
  destruct Hmatch as (s & -> & Hs).
  rewrite (dispatch_single_segment decodeURIComponent s Hs) in Hd.
  destruct (ClimateDataRouter.decodes decodeURIComponent s);
    [|discriminate].
  injection Hd as <-. discriminate.
Qed.

(** The paths [/scenarios] and [/%zz]. *)
Example dispatch_scenarios_and_malformed_escape :
  ClimateDataRouter.dispatch Fixtures.decode_sample [ "scenarios" ]
  = ClimateDataRouter.Handler ClimateDataRouter.MunicipalityAll /\
  ClimateDataRouter.dispatch Fixtures.decode_sample [ "%zz" ]
  = ClimateDataRouter.BadRequest /\
  ClimateDataRouter.dispatch Fixtures.decode_sample
    [ "geojson"; "ssp245"; "near-term_2021-2040"; "cdd" ]
  = ClimateDataRouter.Handler ClimateDataRouter.GeoJSON.
Proof. vm_compute. repeat split. Qed.

(** X17. The order of registration makes two routes dead. A path of one
    non-empty segment is matched by [/:municipalityId], which is registered
    first: when the segment decodes, the handler of that route runs; when it
    does not (as for [%zz]), the request is answered with the decoding error
    and no handler runs. So, however the segments decode, for no path at all
    does the router run the handler of [/scenarios] or of [/periods]. *)
Theorem scenarios_and_periods_routes_are_never_dispatched
  decodeURIComponent path :
  ClimateDataRouter.dispatch decodeURIComponent path
  <> ClimateDataRouter.Handler ClimateDataRouter.Scenarios /\
  ClimateDataRouter.dispatch decodeURIComponent path
  <> ClimateDataRouter.Handler ClimateDataRouter.Periods /\
  (forall s, s <> "" ->
     ClimateDataRouter.dispatch decodeURIComponent [s]
     = if ClimateDataRouter.decodes decodeURIComponent s
       then ClimateDataRouter.Handler ClimateDataRouter.MunicipalityAll
       else ClimateDataRouter.BadRequest).
Proof.
  split; [|split].
  - now apply (dispatch_not_literal_route _ _ _ "scenarios").
  - now apply (dispatch_not_literal_route _ _ _ "periods").
  - exact (dispatch_single_segment decodeURIComponent).
Qed.

(* ------------------------------------------------------------------ *)
(** ** The warmer: what each entry and each run is counted as *)

(** X18. [warmEntry] returns [true] exactly when the database answers its
    query with a first row that carries a truthy [geojson]; it then counts
    one more warmed entry. In every other case (the query throws, there is
    no row, the [geojson] is missing or falsy) it returns [false] without
    throwing, counts one more failed entry, and leaves the cache and the
    clock untouched. *)
Theorem warmEntry_outcome `{Digest} db clock scenario period index w :
  (good_answer db scenario period index ->
   fst (warmEntry db clock scenario period index w) = Normal true /\
   warmedCount (service (snd (warmEntry db clock scenario period index w)))
   = warmedCount (service w) + 1 /\
   failedCount (service (snd (warmEntry db clock scenario period index w)))
   = failedCount (service w)) /\
  (~ good_answer db scenario period index ->
   warmEntry db clock scenario period index w
   = (Normal false,
      {| service := {| warmedCount := warmedCount (service w);
                       failedCount := failedCount (service w) + 1;
                       startTime := startTime (service w) |};
         store := store w;
         readings := readings w |})).
Proof.
  split.
  - intros (row & rest & g & Hq & Hf & Ht).
    cbv [warmEntry try_catch bind buildGeoJSON query ret cache_set Date_now
           add_warmed modify_service].
    rewrite Hq, Hf, Ht, Ht. repeat split.
  - intros Hbad.
    cbv [warmEntry try_catch bind buildGeoJSON query ret cache_set Date_now
           add_warmed add_failed modify_service].
    destruct (db (SelectGeoJSON_warmer index) [scenario; period])
      as [[|row rest]|e] eqn:Hq; [reflexivity| |reflexivity].
    destruct (field row "geojson") as [g|] eqn:Hf; [|reflexivity].
    destruct (truthy g) eqn:Ht; [|reflexivity].
    exfalso. apply Hbad. exists row, rest, g. now repeat split.
Qed.

(** Whatever the database answers, [warmEntry] returns and counts the entry
    once, as warmed or as failed. *)
Lemma warmEntry_counts `{Digest} db clock scenario period index w :
  exists b w',
    warmEntry db clock scenario period index w = (Normal b, w') /\
    warmedCount (service w) <= warmedCount (service w') /\
    failedCount (service w) <= failedCount (service w') /\
    warmedCount (service w') + failedCount (service w')
    = warmedCount (service w) + failedCount (service w) + 1 /\
    (good_answer db scenario period index ->
     failedCount (service w') = failedCount (service w)).
Proof.
  cbv [warmEntry try_catch bind buildGeoJSON query ret cache_set Date_now
         add_warmed add_failed modify_service].
  destruct (db (SelectGeoJSON_warmer index) [scenario; period])
    as [[|row rest]|e] eqn:Hq.
  - do 2 eexists. split; [reflexivity|]. cbn [service warmedCount failedCount].
    repeat split; try lia.
    intros (row & rest & g & Hq' & _). rewrite Hq in Hq'. discriminate.
  - destruct (field row "geojson") as [g|] eqn:Hf.
    + destruct (truthy g) eqn:Ht.
      * rewrite Ht. do 2 eexists. split; [reflexivity|].
        cbn [service warmedCount failedCount]. repeat split; lia.
      * do 2 eexists. split; [reflexivity|].
        cbn [service warmedCount failedCount]. repeat split; try lia.
        intros (row' & rest' & g' & Hq' & Hf' & Ht').
        rewrite Hq in Hq'. injection Hq' as <- <-.
        rewrite Hf in Hf'. injection Hf' as <-. congruence.
    + do 2 eexists. split; [reflexivity|].
      cbn [service warmedCount failedCount]. repeat split; try lia.
      intros (row' & rest' & g' & Hq' & Hf' & _).
      rewrite Hq in Hq'. injection Hq' as <- <-. congruence.
  - do 2 eexists. split; [reflexivity|]. cbn [service warmedCount failedCount].
    repeat split; try lia.
    intros (row & rest & g & Hq' & _). rewrite Hq in Hq'. discriminate.
Qed.

Lemma settle_all_counts `{Digest} db clock scenario period (l : list string) :
  forall w,
  exists bs w',
    settle_all l (warmEntry db clock scenario period) w = (Normal bs, w') /\
    warmedCount (service w) <= warmedCount (service w') /\
    failedCount (service w) <= failedCount (service w') /\
    warmedCount (service w') + failedCount (service w')
    = warmedCount (service w) + failedCount (service w)
      + Z.of_nat (List.length l) /\
    ((forall i, In i l -> good_answer db scenario period i) ->
     failedCount (service w') = failedCount (service w)).
Proof.
  induction l as [|i l IH]; intros w.
  - exists [], w. split; [reflexivity|]. simpl. repeat split; lia.
  - destruct (warmEntry_counts db clock scenario period i w)
      as (b & w1 & He & Hw1 & Hf1 & Ht1 & Hg1).
    destruct (IH w1) as (bs & w2 & Hs & Hw2 & Hf2 & Ht2 & Hg2).
    exists (b :: bs), w2. split.
    + simpl. unfold bind at 1. rewrite He. unfold bind at 1. rewrite Hs.
      reflexivity.
    + simpl List.length. rewrite Nat2Z.inj_succ.
      repeat split; try lia.
      intros Hgood. rewrite Hg2, Hg1; [reflexivity| |].
      * apply Hgood. now left.
      * intros j Hj. apply Hgood. now right.
Qed.

Lemma for_each_batches_counts `{Digest} db clock arrival scenario period
  (bs : list (list string)) :
  forall w,
  exists w',
    for_each bs (warm_batch db clock arrival scenario period) w
    = (Normal tt, w') /\
    warmedCount (service w) <= warmedCount (service w') /\
    failedCount (service w) <= failedCount (service w') /\
    warmedCount (service w') + failedCount (service w')
    = warmedCount (service w) + failedCount (service w)
      + Z.of_nat (List.length (flat_map arrival bs)) /\
    ((forall i, In i (flat_map arrival bs) ->
        good_answer db scenario period i) ->
     failedCount (service w') = failedCount (service w)).
Proof.
  induction bs as [|b bs IH]; intros w.
  - exists w. split; [reflexivity|]. simpl. repeat split; lia.
  - destruct (settle_all_counts db clock scenario period (arrival b) w)
      as (results & w1 & Hs & Hw1 & Hf1 & Ht1 & Hg1).
    destruct (IH w1) as (w2 & Hfe & Hw2 & Hf2 & Ht2 & Hg2).
    exists w2. split.
    + simpl. unfold bind at 1. unfold warm_batch. unfold bind at 1.
      rewrite Hs. unfold ret at 1. exact Hfe.
    + simpl flat_map. rewrite length_app, Nat2Z.inj_add.
      repeat split; try lia.
      intros Hgood. rewrite Hg2, Hg1; [reflexivity| |].
      * intros i Hi. apply Hgood. apply in_or_app. now left.
      * intros i Hi. apply Hgood. apply in_or_app. now right.
Qed.

Lemma warmTier1_counts `{Digest} db clock arrival w :
  (forall batch, Permutation batch (arrival batch)) ->
  exists w',
    warmTier1 db clock arrival w = (Normal tt, w') /\
    warmedCount (service w) <= warmedCount (service w') /\
    failedCount (service w) <= failedCount (service w') /\
    warmedCount (service w') + failedCount (service w')
    = warmedCount (service w) + failedCount (service w) + 27 /\
    ((forall i, In i CLIMATE_INDICES ->
        good_answer db "ssp245" "near-term_2021-2040" i) ->
     failedCount (service w') = failedCount (service w)).
Proof.
  intros Hperm.
  destruct (for_each_batches_counts db clock arrival "ssp245"
              "near-term_2021-2040" (batches PRIORITY_INDICES) w)
    as (w1 & Hf1 & Hw1 & Hfa1 & Ht1 & Hg1).
  destruct (for_each_batches_counts db clock arrival "ssp245"
              "near-term_2021-2040"
              (batches
                 (filter
                    (fun idx => negb (Routes.array_includes PRIORITY_INDICES idx))
                    CLIMATE_INDICES)) w1)
    as (w2 & Hf2 & Hw2 & Hfa2 & Ht2 & Hg2).
  rewrite (Permutation_length (flat_map_arrival_perm arrival Hperm _)) in Ht1.
  rewrite (Permutation_length (flat_map_arrival_perm arrival Hperm _)) in Ht2.
  change (Z.of_nat (List.length (List.concat (batches PRIORITY_INDICES))))
    with 8 in Ht1.
  change (Z.of_nat
            (List.length
               (List.concat
                  (batches
                     (filter
                        (fun idx =>
                           negb (Routes.array_includes PRIORITY_INDICES idx))
                        CLIMATE_INDICES)))))
    with 19 in Ht2.
  exists w2. split.
  - unfold warmTier1. unfold bind at 1. rewrite Hf1.
    match goal with
    | |- context [if ?b then _ else _] =>
        replace b with true by (vm_compute; reflexivity)
    end.
    exact Hf2.
  - repeat split; try lia.
    intros Hgood.
    assert (Hall : forall i,
               In i (flat_map arrival (batches PRIORITY_INDICES)
                     ++ flat_map arrival
                          (batches
                             (filter
                                (fun idx =>
                                   negb (Routes.array_includes PRIORITY_INDICES idx))
                                CLIMATE_INDICES))) ->
               good_answer db "ssp245" "near-term_2021-2040" i).
    { intros i Hi. apply Hgood.
      eapply Permutation_in; [apply (tier1_order_perm arrival Hperm)|exact Hi]. }
    rewrite Hg2, Hg1; [reflexivity| |].
    + intros i Hi. apply Hall. apply in_or_app. now left.
    + intros i Hi. apply Hall. apply in_or_app. now right.
Qed.

Lemma warmMetadata_counts `{Digest} db clock w :
  exists w',
    warmMetadata db clock w = (Normal tt, w') /\
    warmedCount (service w) <= warmedCount (service w') /\
    failedCount (service w) <= failedCount (service w') /\
    warmedCount (service w') + failedCount (service w')
    = warmedCount (service w) + failedCount (service w) + 2 /\
    (forall rows_i rows_m,
       db SelectActiveIndices [] = Normal rows_i ->
       db SelectMunicipalities [] = Normal rows_m ->
       failedCount (service w') = failedCount (service w)).
Proof.
  cbv [warmMetadata try_catch bind query ret cache_set Date_now add_warmed
         add_failed modify_service].
  destruct (db SelectActiveIndices []) as [rows_i|e] eqn:Hi.
  - cbn [service store readings].
    destruct (db SelectMunicipalities []) as [rows_m|e] eqn:Hm.
    + eexists. split; [reflexivity|]. cbn [service warmedCount failedCount].
      repeat split; lia.
    + eexists. split; [reflexivity|]. cbn [service warmedCount failedCount].
      repeat split; try lia. intros ? ? _ Hm'. discriminate.
  - eexists. split; [reflexivity|]. cbn [service warmedCount failedCount].
    repeat split; try lia. intros ? ? Hi'. discriminate.
Qed.

(** X19. Every warm run returns normally and accounts for exactly 29
    entries: whatever the database answers or throws, and in whatever order
    the entries of a batch complete, the numbers of warmed and of failed
    entries are not negative and add up to 29. *)
Theorem warm_run_accounts_for_29_entries `{Digest} db clock arrival c :
  (forall batch, Permutation batch (arrival batch)) ->
  fst (warm db clock arrival c) = Normal tt /\
  0 <= warmedCount (service (snd (warm db clock arrival c))) /\
  0 <= failedCount (service (snd (warm db clock arrival c))) /\
  warmedCount (service (snd (warm db clock arrival c)))
  + failedCount (service (snd (warm db clock arrival c))) = 29.
Proof.
  intros Hperm.
  destruct (warmMetadata_counts db clock
              {| service := {| warmedCount := 0; failedCount := 0;
                               startTime := Some (clock 0%nat) |};
                 store := c; readings := 1 |})
    as (w1 & Hmeta & Hw1 & Hf1 & Ht1 & _).
  destruct (warmTier1_counts db clock arrival w1 Hperm)
    as (w2 & Htier & Hw2 & Hf2 & Ht2 & _).
  rewrite (warm_after_metadata db clock arrival c w1 Hperm Hmeta).
  rewrite Htier. cbn [fst snd Date_now service warmedCount failedCount] in *.
  repeat split; lia.
Qed.

Lemma warm_run_accounts_for_29_entries_witness :
  (forall batch, Permutation batch (Fixtures.reversed batch)) /\
  warmedCount
    (service
       (snd (@warm Fixtures.sample_digest Fixtures.db_municipalities_down
               Fixtures.clock_ms Fixtures.reversed Fixtures.two_of_two)))
  + failedCount
      (service
         (snd (@warm Fixtures.sample_digest Fixtures.db_municipalities_down
                 Fixtures.clock_ms Fixtures.reversed Fixtures.two_of_two)))
  = 29.
Proof.
  assert (Hperm : forall batch, Permutation batch (Fixtures.reversed batch))
    by (intros batch; apply Permutation_rev).
  split; [exact Hperm|].
  exact (proj2 (proj2 (proj2
           (@warm_run_accounts_for_29_entries Fixtures.sample_digest
              Fixtures.db_municipalities_down Fixtures.clock_ms
              Fixtures.reversed Fixtures.two_of_two Hperm)))).
Defined.

(** X20. A metadata phase that fails half way is reported as wholly failed
    although half of it was warmed: when the indices query answers and the
    municipalities query throws, the indices entry is in the cache with its
    envelope, while the run counts two failed entries and no warmed one. *)
Theorem half_failed_metadata_leaves_indices_entry `{Digest}
  db clock w rows e :
  db SelectActiveIndices [] = Normal rows ->
  db SelectMunicipalities [] = Thrown e ->
  fst (warmMetadata db clock w) = Normal tt /\
  (exists item,
     JsMap.get "GET:/api/indices"
       (cache (store (snd (warmMetadata db clock w)))) = Some item /\
     data item = success_count_data rows) /\
  warmedCount (service (snd (warmMetadata db clock w)))
  = warmedCount (service w) /\
  failedCount (service (snd (warmMetadata db clock w)))
  = failedCount (service w) + 2.
Proof.
  intros Hi He.
  cbv [warmMetadata try_catch bind query ret cache_set Date_now add_warmed
         add_failed modify_service].
  rewrite Hi. cbn [service store readings]. rewrite He.
  cbn [fst snd service store warmedCount failedCount].
  split; [reflexivity|]. split; [|split; reflexivity].
  eexists. split; [apply set_get_same|reflexivity].
Qed.

Lemma half_failed_metadata_leaves_indices_entry_witness :
  Fixtures.db_municipalities_down SelectActiveIndices [] = Normal [] /\
  Fixtures.db_municipalities_down SelectMunicipalities []
  = Thrown "connect ECONNREFUSED" /\
  (exists item,
     JsMap.get "GET:/api/indices"
       (cache
          (store
             (snd (@warmMetadata Fixtures.sample_digest
                     Fixtures.db_municipalities_down Fixtures.clock_ms
                     {| service := new_CacheWarmingService; store := singleton;
                        readings := 0 |})))) = Some item /\
     data item = success_count_data []) /\
  failedCount
    (service
       (snd (@warmMetadata Fixtures.sample_digest
               Fixtures.db_municipalities_down Fixtures.clock_ms
               {| service := new_CacheWarmingService; store := singleton;
                  readings := 0 |}))) = 0 + 2.
Proof.
  assert (Hi : Fixtures.db_municipalities_down SelectActiveIndices []
               = Normal []) by reflexivity.
  assert (He : Fixtures.db_municipalities_down SelectMunicipalities []
               = Thrown "connect ECONNREFUSED") by reflexivity.
  split; [exact Hi|]. split; [exact He|].
  destruct (@half_failed_metadata_leaves_indices_entry Fixtures.sample_digest
              Fixtures.db_municipalities_down Fixtures.clock_ms
              {| service := new_CacheWarmingService; store := singleton;
                 readings := 0 |} [] _ Hi He) as (_ & Hitem & _ & Hfailed).
  split; [exact Hitem|exact Hfailed].
Defined.

(** A warm run keeps the number of entries within a maximum size of at
    least 1. *)
Lemma warm_size_bounded `{Digest} db clock arrival c :
  (forall batch, Permutation batch (arrival batch)) ->
  1 <= maxSize c ->
  JsMap.size (cache c) <= maxSize c ->
  JsMap.size (cache (store (snd (warm db clock arrival c)))) <= maxSize c.
Proof.
  intros Hperm Hmax Hsize. unfold warm.
  assert (Hset : forall c0 key d customTtl t1 t2,
             In key warm_keys ->
             maxSize c0 = maxSize c /\ JsMap.size (cache c0) <= maxSize c ->
             maxSize (set c0 key d customTtl t1 t2) = maxSize c /\
             JsMap.size (cache (set c0 key d customTtl t1 t2)) <= maxSize c).
  { intros c0 key d customTtl t1 t2 _ [Hm Hs].
    destruct (set_fields c0 key d customTtl t1 t2) as (_ & Hms & _).
    split; [congruence|]. rewrite <- Hm.
    apply set_size_bounded; rewrite Hm; assumption. }
  pose proof (triple_warmCache db clock arrival Hperm _ Hset
                {| service := new_CacheWarmingService; store := c;
                   readings := 0 |} (conj eq_refl Hsize)) as Ht.
  destruct (warmCache db clock arrival _) as [[[]|e] w'];
    [exact (proj2 Ht)|destruct Ht].
Qed.

(** X21. The warmed count is a count of writes, not of entries kept. On an
    empty cache whose maximum size is below 29, a run in which every query
    answers still reports 29 warmed and 0 failed, while the cache holds no
    more entries than its maximum size. *)
Theorem warm_run_reports_more_than_the_cache_keeps `{Digest}
  db clock arrival c rows_i rows_m :
  (forall batch, Permutation batch (arrival batch)) ->
  cache c = [] ->
  1 <= maxSize c < 29 ->
  db SelectActiveIndices [] = Normal rows_i ->
  db SelectMunicipalities [] = Normal rows_m ->
  (forall index, In index CLIMATE_INDICES ->
     good_answer db "ssp245" "near-term_2021-2040" index) ->
  warmedCount (service (snd (warm db clock arrival c))) = 29 /\
  failedCount (service (snd (warm db clock arrival c))) = 0 /\
  JsMap.size (cache (store (snd (warm db clock arrival c)))) <= maxSize c /\
  JsMap.size (cache (store (snd (warm db clock arrival c)))) < 29.
Proof.
  intros Hperm Hempty Hmax Hi Hmu Hgood.
  assert (Hsize : JsMap.size (cache (store (snd (warm db clock arrival c))))
                  <= maxSize c).
  { apply warm_size_bounded; [exact Hperm|lia|].
    rewrite Hempty. unfold JsMap.size. simpl. lia. }
  destruct (warmMetadata_counts db clock
              {| service := {| warmedCount := 0; failedCount := 0;
                               startTime := Some (clock 0%nat) |};
                 store := c; readings := 1 |})
    as (w1 & Hmeta & Hw1 & Hf1 & Ht1 & Hg1).
  destruct (warmTier1_counts db clock arrival w1 Hperm)
    as (w2 & Htier & Hw2 & Hf2 & Ht2 & Hg2).
  specialize (Hg1 rows_i rows_m Hi Hmu). specialize (Hg2 Hgood).
  rewrite (warm_after_metadata db clock arrival c w1 Hperm Hmeta) in *.
  rewrite Htier in *.
  cbn [fst snd Date_now service store warmedCount failedCount] in *.
  repeat split; lia.
Qed.

Lemma warm_run_reports_more_than_the_cache_keeps_witness :
  (forall batch, Permutation batch (Fixtures.in_order batch)) /\
  cache Fixtures.empty_of_two = [] /\
  1 <= maxSize Fixtures.empty_of_two < 29 /\
  Fixtures.db_all_ok SelectActiveIndices [] = Normal [] /\
  Fixtures.db_all_ok SelectMunicipalities [] = Normal [] /\
  (forall index, In index CLIMATE_INDICES ->
     good_answer Fixtures.db_all_ok "ssp245" "near-term_2021-2040" index) /\
  warmedCount
    (service
       (snd (@warm Fixtures.sample_digest Fixtures.db_all_ok Fixtures.clock_ms
               Fixtures.in_order Fixtures.empty_of_two))) = 29 /\
  JsMap.size
    (cache
       (store
          (snd (@warm Fixtures.sample_digest Fixtures.db_all_ok
                  Fixtures.clock_ms Fixtures.in_order Fixtures.empty_of_two))))
  <= maxSize Fixtures.empty_of_two.
Proof.
  assert (Hperm : forall batch, Permutation batch (Fixtures.in_order batch))
    by (intros batch; apply Permutation_refl).
  assert (Hempty : cache Fixtures.empty_of_two = []) by reflexivity.
  assert (Hmax : 1 <= maxSize Fixtures.empty_of_two < 29)
    by (vm_compute; split; discriminate || reflexivity).
  assert (Hi : Fixtures.db_all_ok SelectActiveIndices [] = Normal [])
    by reflexivity.
  assert (Hmu : Fixtures.db_all_ok SelectMunicipalities [] = Normal [])
    by reflexivity.
  assert (Hgood : forall index, In index CLIMATE_INDICES ->
            good_answer Fixtures.db_all_ok "ssp245" "near-term_2021-2040" index).
  { intros index _.
    exists (JObj [ ("geojson", Fixtures.empty_collection) ]), [],
      Fixtures.empty_collection.
    repeat split. }
  split; [exact Hperm|]. split; [exact Hempty|]. split; [exact Hmax|].
  split; [exact Hi|]. split; [exact Hmu|]. split; [exact Hgood|].
  destruct (@warm_run_reports_more_than_the_cache_keeps Fixtures.sample_digest
              Fixtures.db_all_ok Fixtures.clock_ms Fixtures.in_order
              Fixtures.empty_of_two [] [] Hperm Hempty Hmax Hi Hmu Hgood)
    as (Hw & _ & Hs & _).
  split; [exact Hw|exact Hs].
Defined.

(* ------------------------------------------------------------------ *)
(** ** The warmer: batches and order *)

Lemma batches_of_nil fuel : batches_of fuel [] = [].
Proof. destruct fuel; reflexivity. Qed.

Lemma batches_of_concat fuel : forall l,
  (List.length l <= fuel)%nat -> List.concat (batches_of fuel l) = l.
Proof.
  induction fuel as [|fuel IH]; intros l Hlen.
  - destruct l; [reflexivity|simpl in Hlen; lia].
  - destruct l as [|x l]; [reflexivity|].
    change (batches_of (S fuel) (x :: l))
      with (firstn 5 (x :: l) :: batches_of fuel (skipn 5 (x :: l))).
    cbn [List.concat]. rewrite IH; [apply firstn_skipn|].
    rewrite length_skipn. simpl List.length in *. lia.
Qed.

Lemma batches_of_sizes fuel : forall l,
  Forall (fun b => 1 <= List.length b <= 5)%nat (batches_of fuel l).
Proof.
  induction fuel as [|fuel IH]; intros l; [constructor|].
  destruct l as [|x l]; [constructor|].
  change (batches_of (S fuel) (x :: l))
    with (firstn 5 (x :: l) :: batches_of fuel (skipn 5 (x :: l))).
  constructor; [|apply IH].
  rewrite length_firstn. simpl List.length. lia.
Qed.

Lemma batches_of_full fuel : forall l,
  Forall (fun b => List.length b = 5%nat) (removelast (batches_of fuel l)).
Proof.
  induction fuel as [|fuel IH]; intros l; [constructor|].
  destruct l as [|x l]; [constructor|].
  change (batches_of (S fuel) (x :: l))
    with (firstn 5 (x :: l) :: batches_of fuel (skipn 5 (x :: l))).
  destruct (batches_of fuel (skipn 5 (x :: l))) as [|b rest] eqn:Hrest;
    [constructor|].
  change (removelast (firstn 5 (x :: l) :: b :: rest))
    with (firstn 5 (x :: l) :: removelast (b :: rest)).
  constructor.
  - rewrite length_firstn.
    destruct (Nat.le_gt_cases (List.length (x :: l)) 5) as [Hle|Hgt]; [|lia].
    rewrite (skipn_all2 _ Hle), batches_of_nil in Hrest. discriminate.
  - rewrite <- Hrest. apply IH.
Qed.

Lemma batches_partition_aux (l : list string) :
  List.concat (batches l) = l /\
  Forall (fun b => 1 <= List.length b <= 5)%nat (batches l).
Proof.
  unfold batches. split; [apply batches_of_concat; lia|apply batches_of_sizes].
Qed.

(** X22. The batches of any list of indices partition it: put end to end
    they give the list back in its order; no batch is empty or longer than
    5; and every batch but the last has exactly 5 entries. *)
Theorem batches_partition_the_list (l : list string) :
  List.concat (batches l) = l /\
  Forall (fun b => 1 <= List.length b <= 5)%nat (batches l) /\
  Forall (fun b => List.length b = 5%nat) (removelast (batches l)).
Proof.
  unfold batches. split; [|split].
  - apply batches_of_concat. lia.
  - apply batches_of_sizes.
  - apply batches_of_full.
Qed.

(** The keys of the cache after a run on an empty cache with room for 29
    entries in which every query answers. *)
Lemma warm_good_run_keys `{Digest} db clock arrival c rows_i rows_m :
  (forall batch, Permutation batch (arrival batch)) ->
  cache c = [] ->
  29 <= maxSize c ->
  db SelectActiveIndices [] = Normal rows_i ->
  db SelectMunicipalities [] = Normal rows_m ->
  (forall index, In index CLIMATE_INDICES ->
     good_answer db "ssp245" "near-term_2021-2040" index) ->
  JsMap.keys (cache (store (snd (warm db clock arrival c))))
  = "GET:/api/indices" :: "GET:/api/municipalities"
    :: List.map (warm_key "ssp245" "near-term_2021-2040")
         (flat_map arrival (batches PRIORITY_INDICES)
          ++ flat_map arrival
               (batches
                  (filter
                     (fun idx => negb (Routes.array_includes PRIORITY_INDICES idx))
                     CLIMATE_INDICES))).
Proof.
  intros Hperm Hempty Hmax Hi Hmu Hgood.
  set (order :=
         (flat_map arrival (batches PRIORITY_INDICES)
          ++ flat_map arrival
               (batches
                  (filter
                     (fun idx => negb (Routes.array_includes PRIORITY_INDICES idx))
                     CLIMATE_INDICES)))%list).
  assert (Horder : Permutation order CLIMATE_INDICES)
    by (apply tier1_order_perm; exact Hperm).
  assert (Hlen : List.length order = 27%nat)
    by (rewrite (Permutation_length Horder); reflexivity).
  set (w0 := {| service := {| warmedCount := 0; failedCount := 0;
                              startTime := Some (clock 0%nat) |};
                store := c; readings := 1 |}).
  assert (Hroom : room_for
                    (["GET:/api/indices"; "GET:/api/municipalities"]
                       ++ List.map (warm_key "ssp245" "near-term_2021-2040") order)
                    w0).
  { unfold room_for. cbn [w0 store]. rewrite Hempty. repeat split.
    - constructor.
    - eapply Permutation_NoDup; [|exact NoDup_warm_keys].
      unfold warm_keys. cbn [app]. do 2 apply perm_skip.
      apply Permutation_map. symmetry. exact Horder.
    - intros k _ [].
    - rewrite length_app, length_map, Hlen. unfold JsMap.size. simpl. lia. }
  destruct (warmMetadata_good db clock w0 rows_i rows_m Hi Hmu
              (room_for_prefix _ _ _ Hroom))
    as (w1 & Hmeta & Hk1 & Hw1 & Hf1 & Hm1 & Hwf1).
  assert (Hmore1 : warmed_more ["GET:/api/indices"; "GET:/api/municipalities"]
                     w0 w1).
  { unfold warmed_more. repeat split; assumption. }
  destruct (warmTier1_good db clock arrival Hperm w1 Hgood
              (room_for_rest _ _ _ _ Hroom Hmore1))
    as (w2 & Htier & Hk2 & _).
  fold order in Hk2.
  rewrite (warm_after_metadata db clock arrival c w1 Hperm Hmeta).
  rewrite Htier. cbn [fst snd Date_now store service].
  rewrite Hk2, Hk1. cbn [w0 store]. rewrite Hempty. reflexivity.
Qed.

(** X23. Priority first. In a run on an empty cache with room for 29
    entries in which every query answers, the keys of the cache are, in its
    eviction order: the two metadata keys, then the keys of the 8 priority
    indices in some order, then the keys of the 19 other indices in some
    order. *)
Theorem priority_indices_are_warmed_first `{Digest}
  db clock arrival c rows_i rows_m :
  (forall batch, Permutation batch (arrival batch)) ->
  cache c = [] ->
  29 <= maxSize c ->
  db SelectActiveIndices [] = Normal rows_i ->
  db SelectMunicipalities [] = Normal rows_m ->
  (forall index, In index CLIMATE_INDICES ->
     good_answer db "ssp245" "near-term_2021-2040" index) ->
  exists first later,
    Permutation first PRIORITY_INDICES /\
    Permutation later
      (filter (fun idx => negb (Routes.array_includes PRIORITY_INDICES idx))
         CLIMATE_INDICES) /\
    List.length first = 8%nat /\
    List.length later = 19%nat /\
    JsMap.keys (cache (store (snd (warm db clock arrival c))))
    = ("GET:/api/indices" :: "GET:/api/municipalities"
       :: List.map (warm_key "ssp245" "near-term_2021-2040") first
          ++ List.map (warm_key "ssp245" "near-term_2021-2040") later)%list.
Proof.
  intros Hperm Hempty Hmax Hi Hmu Hgood.
  exists (flat_map arrival (batches PRIORITY_INDICES)),
    (flat_map arrival
       (batches
          (filter (fun idx => negb (Routes.array_includes PRIORITY_INDICES idx))
             CLIMATE_INDICES))).
  assert (Hfirst : Permutation (flat_map arrival (batches PRIORITY_INDICES))
                     PRIORITY_INDICES).
  { eapply Permutation_trans; [apply flat_map_arrival_perm; exact Hperm|].
    rewrite (proj1 (batches_partition_aux PRIORITY_INDICES)).
    apply Permutation_refl. }
  assert (Hlater : Permutation
                     (flat_map arrival
                        (batches
                           (filter
                              (fun idx =>
                                 negb (Routes.array_includes PRIORITY_INDICES idx))
                              CLIMATE_INDICES)))
                     (filter
                        (fun idx =>
                           negb (Routes.array_includes PRIORITY_INDICES idx))
                        CLIMATE_INDICES)).
  { eapply Permutation_trans; [apply flat_map_arrival_perm; exact Hperm|].
    rewrite (proj1 (batches_partition_aux _)). apply Permutation_refl. }
  split; [exact Hfirst|]. split; [exact Hlater|].
  split; [rewrite (Permutation_length Hfirst); reflexivity|].
  split; [rewrite (Permutation_length Hlater); reflexivity|].
  rewrite (warm_good_run_keys db clock arrival c rows_i rows_m
             Hperm Hempty Hmax Hi Hmu Hgood).
  now rewrite map_app.
Qed.

Lemma priority_indices_are_warmed_first_witness :
  (forall batch, Permutation batch (Fixtures.reversed batch)) /\
  cache (new_InMemoryCache None (Some 29)) = [] /\
  29 <= maxSize (new_InMemoryCache None (Some 29)) /\
  Fixtures.db_all_ok SelectActiveIndices [] = Normal [] /\
  Fixtures.db_all_ok SelectMunicipalities [] = Normal [] /\
  (forall index, In index CLIMATE_INDICES ->
     good_answer Fixtures.db_all_ok "ssp245" "near-term_2021-2040" index) /\
  exists first later,
    Permutation first PRIORITY_INDICES /\
    JsMap.keys
      (cache
         (store
            (snd (@warm Fixtures.sample_digest Fixtures.db_all_ok
                    Fixtures.clock_ms Fixtures.reversed
                    (new_InMemoryCache None (Some 29))))))
    = ("GET:/api/indices" :: "GET:/api/municipalities"
       :: List.map (warm_key "ssp245" "near-term_2021-2040") first
          ++ List.map (warm_key "ssp245" "near-term_2021-2040") later)%list.
Proof.
  assert (Hperm : forall batch, Permutation batch (Fixtures.reversed batch))
    by (intros batch; apply Permutation_rev).
  assert (Hempty : cache (new_InMemoryCache None (Some 29)) = []) by reflexivity.
  assert (Hmax : 29 <= maxSize (new_InMemoryCache None (Some 29)))
    by (vm_compute; discriminate).
  assert (Hi : Fixtures.db_all_ok SelectActiveIndices [] = Normal [])
    by reflexivity.
  assert (Hmu : Fixtures.db_all_ok SelectMunicipalities [] = Normal [])
    by reflexivity.
  assert (Hgood : forall index, In index CLIMATE_INDICES ->
            good_answer Fixtures.db_all_ok "ssp245" "near-term_2021-2040" index).
  { intros index _.
    exists (JObj [ ("geojson", Fixtures.empty_collection) ]), [],
      Fixtures.empty_collection.
    repeat split. }
  split; [exact Hperm|]. split; [exact Hempty|]. split; [exact Hmax|].
  split; [exact Hi|]. split; [exact Hmu|]. split; [exact Hgood|].
  destruct (@priority_indices_are_warmed_first Fixtures.sample_digest
              Fixtures.db_all_ok Fixtures.clock_ms Fixtures.reversed
              (new_InMemoryCache None (Some 29)) [] []
              Hperm Hempty Hmax Hi Hmu Hgood)
    as (first & later & Hf & _ & _ & _ & Hkeys).
  exists first, later. split; [exact Hf|exact Hkeys].
Defined.

(* ------------------------------------------------------------------ *)
(** ** The warmer's metadata against the live list routes *)

(** X24. What the warmer installs for the two metadata routes is what the
    live routes would have cached. When both queries answer and the cache
    has room for two more entries, the list handlers of the indices and of
    the municipalities send, with status 200, payloads that are the data of
    the entries that [warmMetadata] leaves under the keys of [GET
    /api/indices] and [GET /api/municipalities], with the digests of those
    payloads as fingerprints. *)
Theorem warmed_metadata_is_the_live_payload `{Digest}
  db clock w rows_i rows_m :
  db SelectActiveIndices [] = Normal rows_i ->
  db SelectMunicipalities [] = Normal rows_m ->
  JsMap.size (cache (store w)) + 2 <= maxSize (store w) ->
  exists payload_i payload_m,
    MetadataRoutes.indices_handler db = Routes.ResJson 200 payload_i /\
    MetadataRoutes.municipalities_handler db = Routes.ResJson 200 payload_m /\
    (exists item,
       JsMap.get
         (generateKey {| method := "GET"; originalUrl := "/api/indices";
                         headers := [] |})
         (cache (store (snd (warmMetadata db clock w)))) = Some item /\
       data item = payload_i /\
       etag item = generateETag payload_i) /\
    (exists item,
       JsMap.get
         (generateKey {| method := "GET"; originalUrl := "/api/municipalities";
                         headers := [] |})
         (cache (store (snd (warmMetadata db clock w)))) = Some item /\
       data item = payload_m /\
       etag item = generateETag payload_m).
Proof.
  intros Hi Hmu Hroom.
  exists (success_count_data rows_i), (success_count_data rows_m).
  unfold MetadataRoutes.indices_handler, MetadataRoutes.municipalities_handler.
  rewrite Hi, Hmu. split; [reflexivity|]. split; [reflexivity|].
  cbv [warmMetadata try_catch bind query ret cache_set Date_now add_warmed
         modify_service].
  rewrite Hi. cbn [service store readings]. rewrite Hmu.
  cbn [snd service store readings].
  change (generateKey {| method := "GET"; originalUrl := "/api/indices";
                         headers := [] |}) with "GET:/api/indices".
  change (generateKey {| method := "GET"; originalUrl := "/api/municipalities";
                         headers := [] |}) with "GET:/api/municipalities".
  split.
  - eexists. split.
    { rewrite set_get_other.
      - apply set_get_same.
      - discriminate.
      - left.
        destruct (set_fields (store w) "GET:/api/indices"
                    (success_count_data rows_i) (Some metadata_ttl)
                    (clock (readings w)) (clock (S (readings w))))
          as (_ & -> & _).
        rewrite set_below_capacity by lia.
        pose proof (map_size_set_le (cache (store w)) "GET:/api/indices"
                      (stored_item (store w) (success_count_data rows_i)
                         (Some metadata_ttl) (clock (readings w))
                         (clock (S (readings w))))).
        lia. }
    split; reflexivity.
  - eexists. split; [apply set_get_same|split; reflexivity].
Qed.

Lemma warmed_metadata_is_the_live_payload_witness :
  Fixtures.db_all_ok SelectActiveIndices [] = Normal [] /\
  Fixtures.db_all_ok SelectMunicipalities [] = Normal [] /\
  JsMap.size (cache singleton) + 2 <= maxSize singleton /\
  exists payload_i payload_m,
    MetadataRoutes.indices_handler Fixtures.db_all_ok
    = Routes.ResJson 200 payload_i /\
    MetadataRoutes.municipalities_handler Fixtures.db_all_ok
    = Routes.ResJson 200 payload_m /\
    (exists item,
       JsMap.get "GET:/api/indices"
         (cache
            (store
               (snd (@warmMetadata Fixtures.sample_digest Fixtures.db_all_ok
                       Fixtures.clock_ms
                       {| service := new_CacheWarmingService;
                          store := singleton; readings := 0 |}))))
       = Some item /\
       data item = payload_i /\
       etag item = @generateETag Fixtures.sample_digest payload_i) /\
    (exists item,
       JsMap.get "GET:/api/municipalities"
         (cache
            (store
               (snd (@warmMetadata Fixtures.sample_digest Fixtures.db_all_ok
                       Fixtures.clock_ms
                       {| service := new_CacheWarmingService;
                          store := singleton; readings := 0 |}))))
       = Some item /\
       data item = payload_m /\
       etag item = @generateETag Fixtures.sample_digest payload_m).
Proof.
  assert (Hi : Fixtures.db_all_ok SelectActiveIndices [] = Normal [])
    by reflexivity.
  assert (Hmu : Fixtures.db_all_ok SelectMunicipalities [] = Normal [])
    by reflexivity.
  assert (Hroom : JsMap.size (cache singleton) + 2 <= maxSize singleton)
    by (vm_compute; discriminate).
  split; [exact Hi|]. split; [exact Hmu|]. split; [exact Hroom|].
  exact (@warmed_metadata_is_the_live_payload Fixtures.sample_digest
           Fixtures.db_all_ok Fixtures.clock_ms
           {| service := new_CacheWarmingService; store := singleton;
              readings := 0 |} [] [] Hi Hmu Hroom).
Defined.

Lemma prefix_app m : forall a s,
  String.prefix m a = true -> String.prefix m (a ++ s) = true.
Proof.
  induction m as [|c m IH]; intros a s Hp.
  - destruct (a ++ s); reflexivity.
  - destruct a as [|c' a]; simpl in *; [discriminate|].
    destruct (ascii_dec c c'); [now apply IH|discriminate].
Qed.

Lemma includes_cons c a m :
  includes (String c a) m
  = if String.prefix m (String c a) then true else includes a m.
Proof. reflexivity. Qed.

(** A marker that occurs in a string occurs in every extension of it. *)
Lemma includes_app a s m :
  includes a m = true -> includes (a ++ s) m = true.
Proof.
  induction a as [|c a IH].
  - destruct m as [|c m]; [|discriminate]. intros _.
    destruct s; reflexivity.
  - change (String c a ++ s) with (String c (a ++ s)).
    rewrite !includes_cons.
    destruct (String.prefix m (String c a)) eqn:Hp.
    + intros _. change (String c (a ++ s)) with (String c a ++ s).
      now rewrite (prefix_app m (String c a) s Hp).
    + intros Hi.
      destruct (String.prefix m (String c (a ++ s))); [reflexivity|].
      now apply IH.
Qed.

(** X25. The warmer's TTLs are the middleware's tiers. On a cache made by
    the constructor, the TTL of [determineTTL] for the URL of a metadata
    route is the 7 days the warmer uses for it, and for the URL of a GeoJSON
    route that does not carry the indices marker, which is so for each of
    the 27 URLs of a warm run, it is the 30 days the warmer uses. *)
Theorem warmer_ttls_are_the_tiers_of_the_urls options_ttl options_maxSize :
  determineTTL (new_InMemoryCache options_ttl options_maxSize) "/api/indices"
  = metadata_ttl /\
  determineTTL (new_InMemoryCache options_ttl options_maxSize)
    "/api/municipalities" = metadata_ttl /\
  (forall scenario period index,
     includes (Routes.geojson_url scenario period index) "/indices" = false ->
     determineTTL (new_InMemoryCache options_ttl options_maxSize)
       (Routes.geojson_url scenario period index) = geojson_ttl) /\
  (forall index, In index CLIMATE_INDICES ->
     includes (Routes.geojson_url "ssp245" "near-term_2021-2040" index)
       "/indices" = false).
Proof.
  split; [reflexivity|]. split; [reflexivity|]. split.
  - intros scenario period index Hno.
    assert (Hg : includes (Routes.geojson_url scenario period index)
                   "/climate-data/geojson/" = true)
      by (unfold Routes.geojson_url; apply includes_app; reflexivity).
    unfold determineTTL. rewrite Hno, Hg. reflexivity.
  - intros index Hin.
    assert (Hall : forallb
                     (fun i =>
                        negb (includes
                                (Routes.geojson_url "ssp245"
                                   "near-term_2021-2040" i) "/indices"))
                     CLIMATE_INDICES = true) by (vm_compute; reflexivity).
    rewrite forallb_forall in Hall. specialize (Hall index Hin).
    now destruct (includes _ "/indices").
Qed.

(* ------------------------------------------------------------------ *)
(** ** Keys *)

(** X26. Two GET requests share a cache key only when their URLs, path and
    query string together, are the same string. *)
Theorem get_requests_share_a_key_only_for_the_same_url req1 req2 :
  method req1 = "GET" ->
  method req2 = "GET" ->
  generateKey req1 = generateKey req2 ->
  originalUrl req1 = originalUrl req2.
Proof.
  unfold generateKey. intros -> -> Heq.
  repeat (apply append_cancel_l in Heq). exact Heq.
Qed.

Lemma get_requests_share_a_key_only_for_the_same_url_witness :
  method Fixtures.req_scenarios = "GET" /\
  method Fixtures.req_scenarios_conditional = "GET" /\
  generateKey Fixtures.req_scenarios
  = generateKey Fixtures.req_scenarios_conditional /\
  originalUrl Fixtures.req_scenarios
  = originalUrl Fixtures.req_scenarios_conditional.
Proof.
  split; [reflexivity|]. split; [reflexivity|]. split; [reflexivity|].
  exact (get_requests_share_a_key_only_for_the_same_url
           Fixtures.req_scenarios Fixtures.req_scenarios_conditional
           eq_refl eq_refl eq_refl).
Defined.

(** X27. A warm run writes under none but its own 29 keys: whatever the
    database answers, every key of the cache after the run was a key of the
    cache before it or is one of the two metadata keys and the 27 GeoJSON
    keys. *)
Theorem warm_run_writes_only_its_own_keys `{Digest} db clock arrival c k :
  (forall batch, Permutation batch (arrival batch)) ->
  In k (JsMap.keys (cache (store (snd (warm db clock arrival c))))) ->
  In k (JsMap.keys (cache c)) \/ In k warm_keys.
Proof.
  intros Hperm. unfold warm.
  assert (Hset : forall c0 key d customTtl t1 t2,
             In key warm_keys ->
             (forall k', In k' (JsMap.keys (cache c0)) ->
                In k' (JsMap.keys (cache c)) \/ In k' warm_keys) ->
             forall k', In k' (JsMap.keys (cache (set c0 key d customTtl t1 t2))) ->
                In k' (JsMap.keys (cache c)) \/ In k' warm_keys).
  { intros c0 key d customTtl t1 t2 Hkey Hc0 k' Hk'.
    apply set_keys_incl in Hk'. destruct Hk' as [->|Hk'];
      [now right|now apply Hc0]. }
  pose proof (triple_warmCache db clock arrival Hperm
                (fun c' => forall k', In k' (JsMap.keys (cache c')) ->
                   In k' (JsMap.keys (cache c)) \/ In k' warm_keys)
                Hset
                {| service := new_CacheWarmingService; store := c;
                   readings := 0 |} (fun k' Hk' => or_introl Hk')) as Ht.
  destruct (warmCache db clock arrival _) as [[[]|e] w'];
    [exact (Ht k)|destruct Ht].
Qed.

Lemma warm_run_writes_only_its_own_keys_witness :
  (forall batch, Permutation batch (Fixtures.in_order batch)) /\
  In "GET:/api/climate-data/geojson/ssp245/near-term_2021-2040/txd_tnd"
    (JsMap.keys
       (cache
          (store
             (snd (@warm Fixtures.sample_digest Fixtures.db_indices_down
                     Fixtures.clock_ms Fixtures.in_order
                     Fixtures.two_of_two))))) /\
  (In "GET:/api/climate-data/geojson/ssp245/near-term_2021-2040/txd_tnd"
     (JsMap.keys (cache Fixtures.two_of_two)) \/
   In "GET:/api/climate-data/geojson/ssp245/near-term_2021-2040/txd_tnd"
     warm_keys).
Proof.
  assert (Hperm : forall batch, Permutation batch (Fixtures.in_order batch))
    by (intros batch; apply Permutation_refl).
  assert (Hin : In "GET:/api/climate-data/geojson/ssp245/near-term_2021-2040/txd_tnd"
                  (JsMap.keys
                     (cache
                        (store
                           (snd (@warm Fixtures.sample_digest
                                   Fixtures.db_indices_down Fixtures.clock_ms
                                   Fixtures.in_order Fixtures.two_of_two))))))
    by (vm_compute; tauto).
  split; [exact Hperm|]. split; [exact Hin|].
  exact (@warm_run_writes_only_its_own_keys Fixtures.sample_digest
           Fixtures.db_indices_down Fixtures.clock_ms Fixtures.in_order
           Fixtures.two_of_two _ Hperm Hin).
Defined.

(* ------------------------------------------------------------------ *)
(** ** From the warm run to the first request *)

Lemma map_In_set {V : Type} (m : JsMap.t V) k0 v0 k v :
  In (k, v) (JsMap.set k0 v0 m) -> (k = k0 /\ v = v0) \/ In (k, v) m.
Proof.
  induction m as [|[k1 v1] rest IH]; simpl.
  - intros [Heq|[]]. injection Heq as <- <-. now left.
  - destruct (String.eqb_spec k0 k1) as [->|Hne]; simpl.
    + intros [Heq|Hin]; [injection Heq as <- <-; now left|right; now right].
    + intros [Heq|Hin]; [right; now left|].
      destruct (IH Hin) as [Hnew|Hold]; [now left|right; now right].
Qed.

Lemma map_In_delete {V : Type} (m : JsMap.t V) k0 k v :
  In (k, v) (JsMap.delete k0 m) -> In (k, v) m.
Proof.
  induction m as [|[k1 v1] rest IH]; simpl; [tauto|].
  destruct (String.eqb k0 k1); simpl.
  - intros Hin. now right.
  - intros [Heq|Hin]; [now left|right; now apply IH].
Qed.

Lemma set_entries_incl `{Digest} c key d customTtl t1 t2 k item :
  In (k, item) (cache (set c key d customTtl t1 t2)) ->
  (k = key /\ item = stored_item c d customTtl t1 t2) \/ In (k, item) (cache c).
Proof.
  unfold set. simpl. intros Hin. apply map_In_set in Hin.
  destruct Hin as [Hnew|Hold]; [now left|right].
  destruct (JsMap.size (cache c) >=? maxSize c); [|exact Hold].
  unfold JsMap.delete_first in Hold.
  destruct (JsMap.first_key (cache c)); [|exact Hold].
  now apply map_In_delete in Hold.
Qed.

Lemma warmEntry_entries `{Digest} db clock scenario period index w k item :
  In (k, item)
    (cache (store (snd (warmEntry db clock scenario period index w)))) ->
  In (k, item) (cache (store w)) \/
  (k = warm_key scenario period index /\
   warmed_item db clock scenario period index item).
Proof.
  cbv [warmEntry try_catch bind buildGeoJSON query ret cache_set Date_now
         add_warmed add_failed modify_service].
  destruct (db (SelectGeoJSON_warmer index) [scenario; period])
    as [[|row rest]|e] eqn:Hq; [now left| |now left].
  destruct (field row "geojson") as [g|] eqn:Hf; [|now left].
  destruct (truthy g) eqn:Ht; [|now left].
  rewrite Ht. cbn [snd store]. intros Hin.
  apply set_entries_incl in Hin. destruct Hin as [[-> ->]|Hold]; [|now left].
  right. split; [reflexivity|].
  exists row, rest, g, (readings w). repeat split; assumption.
Qed.

Lemma settle_all_entries `{Digest} db clock scenario period (l : list string) :
  forall w k item,
  In (k, item)
    (cache (store (snd (settle_all l (warmEntry db clock scenario period) w)))) ->
  In (k, item) (cache (store w)) \/
  exists i, In i l /\ k = warm_key scenario period i /\
            warmed_item db clock scenario period i item.
Proof.
  induction l as [|i l IH]; intros w k item Hin; [now left|].
  destruct (warmEntry_counts db clock scenario period i w)
    as (b & w1 & He & _).
  destruct (settle_all_counts db clock scenario period l w1)
    as (bs & w2 & Hs & _).
  simpl in Hin. unfold bind at 1 in Hin. rewrite He in Hin.
  unfold bind at 1 in Hin. rewrite Hs in Hin. cbn [snd ret] in Hin.
  assert (Hin2 : In (k, item)
                   (cache (store (snd (settle_all l
                                         (warmEntry db clock scenario period)
                                         w1)))))
    by (rewrite Hs; exact Hin).
  destruct (IH w1 k item Hin2) as [Hold|(j & Hj & Hk & Hitem)].
  - assert (Hin1 : In (k, item)
                     (cache (store (snd (warmEntry db clock scenario period
                                           i w)))))
      by (rewrite He; exact Hold).
    destruct (warmEntry_entries db clock scenario period i w k item Hin1)
      as [Hold0|[Hk Hitem]]; [now left|].
    right. exists i. split; [now left|now split].
  - right. exists j. split; [now right|now split].
Qed.

Lemma for_each_batches_entries `{Digest} db clock arrival scenario period
  (bs : list (list string)) :
  forall w k item,
  In (k, item)
    (cache (store (snd (for_each bs
                          (warm_batch db clock arrival scenario period) w)))) ->
  In (k, item) (cache (store w)) \/
  exists i, In i (flat_map arrival bs) /\ k = warm_key scenario period i /\
            warmed_item db clock scenario period i item.
Proof.
  induction bs as [|b bs IH]; intros w k item Hin; [now left|].
  destruct (settle_all_counts db clock scenario period (arrival b) w)
    as (results & w1 & Hs & _).
  destruct (for_each_batches_counts db clock arrival scenario period bs w1)
    as (w2 & Hfe & _).
  simpl in Hin. unfold bind at 1 in Hin. unfold warm_batch in Hin.
  unfold bind at 1 in Hin. rewrite Hs in Hin. unfold ret at 1 in Hin.
  assert (Hin2 : In (k, item)
                   (cache (store (snd (for_each bs
                                         (warm_batch db clock arrival scenario
                                            period) w1)))))
    by exact Hin.
  destruct (IH w1 k item Hin2) as [Hold|(j & Hj & Hk & Hitem)].
  - assert (Hin1 : In (k, item)
                     (cache (store (snd (settle_all (arrival b)
                                           (warmEntry db clock scenario period)
                                           w)))))
      by (rewrite Hs; exact Hold).
    destruct (settle_all_entries db clock scenario period (arrival b) w k item
                Hin1) as [Hold0|(j & Hj & Hk & Hitem)]; [now left|].
    right. exists j. split; [|now split].
    simpl. apply in_or_app. now left.
  - right. exists j. split; [|now split].
    simpl. apply in_or_app. now right.
Qed.

Lemma warmTier1_entries `{Digest} db clock arrival w k item :
  (forall batch, Permutation batch (arrival batch)) ->
  In (k, item) (cache (store (snd (warmTier1 db clock arrival w)))) ->
  In (k, item) (cache (store w)) \/
  exists i, In i CLIMATE_INDICES /\
            k = warm_key "ssp245" "near-term_2021-2040" i /\
            warmed_item db clock "ssp245" "near-term_2021-2040" i item.
Proof.
  intros Hperm Hin.
  destruct (for_each_batches_counts db clock arrival "ssp245"
              "near-term_2021-2040" (batches PRIORITY_INDICES) w)
    as (w1 & Hf1 & _).
  unfold warmTier1 in Hin. unfold bind at 1 in Hin. rewrite Hf1 in Hin.
  match type of Hin with
  | context [if ?b then _ else _] =>
      replace b with true in Hin by (vm_compute; reflexivity)
  end.
  assert (Hclimate : forall i,
             In i (flat_map arrival (batches PRIORITY_INDICES)
                   ++ flat_map arrival
                        (batches
                           (filter
                              (fun idx =>
                                 negb (Routes.array_includes PRIORITY_INDICES idx))
                              CLIMATE_INDICES))) ->
             In i CLIMATE_INDICES).
  { intros i Hi.
    eapply Permutation_in; [apply (tier1_order_perm arrival Hperm)|exact Hi]. }
  destruct (for_each_batches_entries _ _ _ _ _ _ w1 k item Hin)
    as [Hold|(j & Hj & Hk & Hitem)].
  - assert (Hin1 : In (k, item)
                     (cache (store (snd (for_each (batches PRIORITY_INDICES)
                                           (warm_batch db clock arrival "ssp245"
                                              "near-term_2021-2040") w)))))
      by (rewrite Hf1; exact Hold).
    destruct (for_each_batches_entries _ _ _ _ _ _ w k item Hin1)
      as [Hold0|(j & Hj & Hk & Hitem)]; [now left|].
    right. exists j. split; [|now split].
    apply Hclimate. apply in_or_app. now left.
  - right. exists j. split; [|now split].
    apply Hclimate. apply in_or_app. now right.
Qed.

Lemma warm_key_is_not_a_metadata_key index :
  warm_key "ssp245" "near-term_2021-2040" index <> "GET:/api/indices" /\
  warm_key "ssp245" "near-term_2021-2040" index <> "GET:/api/municipalities".
Proof. unfold warm_key. split; simpl; discriminate. Qed.

(** Every entry of the cache after a run on an empty cache in which both
    metadata queries answer is the indices entry or the municipalities
    entry that [warmMetadata] wrote, or an entry that [warmEntry] wrote. *)
Lemma warm_good_run_entries `{Digest} db clock arrival c rows_i rows_m k item :
  (forall batch, Permutation batch (arrival batch)) ->
  cache c = [] ->
  db SelectActiveIndices [] = Normal rows_i ->
  db SelectMunicipalities [] = Normal rows_m ->
  In (k, item) (cache (store (snd (warm db clock arrival c)))) ->
  (k = "GET:/api/indices" /\
   data item = success_count_data rows_i /\
   etag item = generateETag (success_count_data rows_i) /\
   expiresAt item = clock 1%nat + metadata_ttl) \/
  (k = "GET:/api/municipalities" /\
   data item = success_count_data rows_m /\
   etag item = generateETag (success_count_data rows_m) /\
   expiresAt item = clock 3%nat + metadata_ttl) \/
  (exists j, In j CLIMATE_INDICES /\
             k = warm_key "ssp245" "near-term_2021-2040" j /\
             warmed_item db clock "ssp245" "near-term_2021-2040" j item).
Proof.
  intros Hperm Hempty Hi Hmu Hin.
  destruct (warmMetadata_counts db clock
              {| service := {| warmedCount := 0; failedCount := 0;
                               startTime := Some (clock 0%nat) |};
                 store := c; readings := 1 |}) as (w1 & Hmeta & _).
  rewrite (warm_after_metadata db clock arrival c w1 Hperm Hmeta) in Hin.
  cbn [snd Date_now store] in Hin.
  destruct (warmTier1_entries db clock arrival w1 _ _ Hperm Hin)
    as [Hold|Hwarmed]; [|now right; right].
  assert (Hw1 : w1 = snd (warmMetadata db clock
                            {| service := {| warmedCount := 0;
                                             failedCount := 0;
                                             startTime := Some (clock 0%nat) |};
                               store := c; readings := 1 |}))
    by (now rewrite Hmeta).
  rewrite Hw1 in Hold.
  cbv [warmMetadata try_catch bind query ret cache_set Date_now add_warmed
         modify_service] in Hold.
  rewrite Hi in Hold. cbn [service store readings] in Hold.
  rewrite Hmu in Hold. cbn [snd service store readings] in Hold.
  apply set_entries_incl in Hold. destruct Hold as [[-> ->]|Hold].
  { right. left. repeat split. }
  apply set_entries_incl in Hold. destruct Hold as [[-> ->]|Hold].
  { left. repeat split. }
  rewrite Hempty in Hold. destruct Hold.
Qed.

(** What the cache holds after a run on an empty cache with room for 29
    entries in which every query answers: under the key of the indices list
    and under the key of the municipalities list, the envelope of the rows
    the database answered, for 7 days; and under the key of each of the 27
    indices an item that [warmEntry] wrote for it. *)
Lemma warm_good_run_items `{Digest} db clock arrival c rows_i rows_m :
  (forall batch, Permutation batch (arrival batch)) ->
  cache c = [] ->
  29 <= maxSize c ->
  db SelectActiveIndices [] = Normal rows_i ->
  db SelectMunicipalities [] = Normal rows_m ->
  (forall index, In index CLIMATE_INDICES ->
     good_answer db "ssp245" "near-term_2021-2040" index) ->
  (exists item,
     JsMap.get "GET:/api/indices" (cache (store (snd (warm db clock arrival c))))
     = Some item /\
     data item = success_count_data rows_i /\
     etag item = generateETag (success_count_data rows_i) /\
     expiresAt item = clock 1%nat + metadata_ttl) /\
  (exists item,
     JsMap.get "GET:/api/municipalities"
       (cache (store (snd (warm db clock arrival c)))) = Some item /\
     data item = success_count_data rows_m /\
     etag item = generateETag (success_count_data rows_m) /\
     expiresAt item = clock 3%nat + metadata_ttl) /\
  (forall index, In index CLIMATE_INDICES ->
     exists item,
       JsMap.get (warm_key "ssp245" "near-term_2021-2040" index)
         (cache (store (snd (warm db clock arrival c)))) = Some item /\
       warmed_item db clock "ssp245" "near-term_2021-2040" index item).
Proof.
  intros Hperm Hempty Hmax Hi Hmu Hgood.
  pose proof (warm_good_run_keys db clock arrival c rows_i rows_m
                Hperm Hempty Hmax Hi Hmu Hgood) as Hkeys.
  assert (Hitem : forall k,
            In k (JsMap.keys (cache (store (snd (warm db clock arrival c))))) ->
            exists item,
              JsMap.get k (cache (store (snd (warm db clock arrival c))))
              = Some item /\
              In (k, item) (cache (store (snd (warm db clock arrival c))))).
  { intros k Hk. destruct (map_in_keys_get _ _ Hk) as (item & Hget).
    exists item. split; [exact Hget|]. now apply map_get_In. }
  split; [|split].
  - destruct (Hitem "GET:/api/indices") as (item & Hget & Hin).
    { rewrite Hkeys. now left. }
    exists item. split; [exact Hget|].
    destruct (warm_good_run_entries db clock arrival c rows_i rows_m _ _
                Hperm Hempty Hi Hmu Hin)
      as [[_ Hfacts]|[[Hk _]|(j & _ & Hk & _)]];
      [exact Hfacts|discriminate|].
    exfalso. symmetry in Hk.
    now apply (proj1 (warm_key_is_not_a_metadata_key j)).
  - destruct (Hitem "GET:/api/municipalities") as (item & Hget & Hin).
    { rewrite Hkeys. right. now left. }
    exists item. split; [exact Hget|].
    destruct (warm_good_run_entries db clock arrival c rows_i rows_m _ _
                Hperm Hempty Hi Hmu Hin)
      as [[Hk _]|[[_ Hfacts]|(j & _ & Hk & _)]];
      [discriminate|exact Hfacts|].
    exfalso. symmetry in Hk.
    now apply (proj2 (warm_key_is_not_a_metadata_key j)).
  - intros index Hindex.
    destruct (Hitem (warm_key "ssp245" "near-term_2021-2040" index))
      as (item & Hget & Hin).
    { rewrite Hkeys. right. right. apply in_map.
      eapply Permutation_in;
        [symmetry; apply (tier1_order_perm arrival Hperm)|exact Hindex]. }
    exists item. split; [exact Hget|].
    destruct (warm_key_is_not_a_metadata_key index) as [Hn1 Hn2].
    destruct (warm_good_run_entries db clock arrival c rows_i rows_m _ _
                Hperm Hempty Hi Hmu Hin)
      as [[Hk _]|[[Hk _]|(j & _ & Hk & Hj)]];
      [contradiction|contradiction|].
    apply warm_key_injective in Hk. now subst j.
Qed.

(** C8. A warm run on an empty cache of maximum size at least 29, with every
    query answered (both metadata queries return rows, and the GeoJSON query
    of each of the 27 indices returns a truthy [geojson]), and whatever the
    order in which the entries of a batch complete: the run returns
    normally; the cache holds exactly 29 entries, the two metadata keys
    followed by the keys of the 27 indices for [ssp245] and
    [near-term_2021-2040], which are pairwise distinct; and the service
    reports 29 warmed and 0 failed. The entries are the ones the claim
    names: under the key of the indices list and under the key of the
    municipalities list, the object [{ success: true, count, data }] of the
    rows the database answered, kept for 7 days; and under the key of each
    index the object [{ success: true, data }] that wraps the [geojson] the
    database answered for that index, kept for 30 days. *)
Theorem warm_run_fills_empty_cache `{Digest} db clock arrival c rows_i rows_m :
  (forall batch, Permutation batch (arrival batch)) ->
  cache c = [] ->
  29 <= maxSize c ->
  db SelectActiveIndices [] = Normal rows_i ->
  db SelectMunicipalities [] = Normal rows_m ->
  (forall index, In index CLIMATE_INDICES ->
     good_answer db "ssp245" "near-term_2021-2040" index) ->
  fst (warm db clock arrival c) = Normal tt /\
  (exists order,
     Permutation order CLIMATE_INDICES /\
     JsMap.keys (cache (store (snd (warm db clock arrival c))))
     = "GET:/api/indices" :: "GET:/api/municipalities"
       :: List.map (warm_key "ssp245" "near-term_2021-2040") order) /\
  JsMap.size (cache (store (snd (warm db clock arrival c)))) = 29 /\
  List.length CLIMATE_INDICES = 27%nat /\
  NoDup (List.map (warm_key "ssp245" "near-term_2021-2040") CLIMATE_INDICES) /\
  warmedCount (service (snd (warm db clock arrival c))) = 29 /\
  failedCount (service (snd (warm db clock arrival c))) = 0 /\
  (exists item,
     JsMap.get "GET:/api/indices" (cache (store (snd (warm db clock arrival c))))
     = Some item /\
     data item
     = JObj [ ("success", JBool true);
              ("count", JNum (Z.of_nat (List.length rows_i)));
              ("data", JArr rows_i) ] /\
     etag item = generateETag (data item) /\
     expiresAt item = clock 1%nat + 604800000) /\
  (exists item,
     JsMap.get "GET:/api/municipalities"
       (cache (store (snd (warm db clock arrival c)))) = Some item /\
     data item
     = JObj [ ("success", JBool true);
              ("count", JNum (Z.of_nat (List.length rows_m)));
              ("data", JArr rows_m) ] /\
     etag item = generateETag (data item) /\
     expiresAt item = clock 3%nat + 604800000) /\
  (forall index, In index CLIMATE_INDICES ->
     exists item row rest g reading,
       JsMap.get
         ("GET:/api/climate-data/geojson/ssp245/near-term_2021-2040/" ++ index)
         (cache (store (snd (warm db clock arrival c)))) = Some item /\
       db (SelectGeoJSON_warmer index) ["ssp245"; "near-term_2021-2040"]
       = Normal (row :: rest) /\
       field row "geojson" = Some g /\
       data item = JObj [ ("success", JBool true); ("data", g) ] /\
       expiresAt item = clock reading + 2592000000).
Proof.
  intros Hperm Hempty Hmax Hi Hmu Hgood.
  destruct (warm_good_run_counts db clock arrival c rows_i rows_m
              Hperm Hempty Hmax Hi Hmu Hgood)
    as (Hret & Horder & Hsize & Hlen & Hnodup & Hwarmed & Hfailed).
  destruct (warm_good_run_items db clock arrival c rows_i rows_m
              Hperm Hempty Hmax Hi Hmu Hgood)
    as ((item_i & Hget_i & Hdata_i & Hetag_i & Hexp_i)
        & (item_m & Hget_m & Hdata_m & Hetag_m & Hexp_m) & Hgeo).
  repeat (split; [assumption|]).
  split; [|split].
  - exists item_i. split; [exact Hget_i|]. split; [exact Hdata_i|].
    split; [now rewrite Hdata_i|exact Hexp_i].
  - exists item_m. split; [exact Hget_m|]. split; [exact Hdata_m|].
    split; [now rewrite Hdata_m|exact Hexp_m].
  - intros index Hindex.
    destruct (Hgeo index Hindex)
      as (item & Hget & row & rest & g & reading & Hq & Hf & _ & Hdata & Hexp).
    exists item, row, rest, g, reading.
    split; [exact Hget|]. split; [exact Hq|]. split; [exact Hf|].
    split; [exact Hdata|exact Hexp].
Qed.

Lemma warm_run_fills_empty_cache_witness :
  (forall batch, Permutation batch (Fixtures.reversed batch)) /\
  cache (new_InMemoryCache None (Some 29)) = [] /\
  29 <= maxSize (new_InMemoryCache None (Some 29)) /\
  Fixtures.db_with_metadata SelectActiveIndices [] = Normal Fixtures.index_rows /\
  Fixtures.db_with_metadata SelectMunicipalities []
  = Normal Fixtures.municipality_rows /\
  (forall index, In index CLIMATE_INDICES ->
     good_answer Fixtures.db_with_metadata "ssp245" "near-term_2021-2040" index) /\
  JsMap.size
    (cache
       (store
          (snd (@warm Fixtures.sample_digest Fixtures.db_with_metadata
                  Fixtures.clock_ms Fixtures.reversed
                  (new_InMemoryCache None (Some 29)))))) = 29 /\
  warmedCount
    (service
       (snd (@warm Fixtures.sample_digest Fixtures.db_with_metadata
               Fixtures.clock_ms Fixtures.reversed
               (new_InMemoryCache None (Some 29))))) = 29 /\
  failedCount
    (service
       (snd (@warm Fixtures.sample_digest Fixtures.db_with_metadata
               Fixtures.clock_ms Fixtures.reversed
               (new_InMemoryCache None (Some 29))))) = 0 /\
  (exists item,
     JsMap.get "GET:/api/municipalities"
       (cache
          (store
             (snd (@warm Fixtures.sample_digest Fixtures.db_with_metadata
                     Fixtures.clock_ms Fixtures.reversed
                     (new_InMemoryCache None (Some 29)))))) = Some item /\
     data item
     = JObj [ ("success", JBool true);
              ("count", JNum 2);
              ("data", JArr Fixtures.municipality_rows) ] /\
     etag item = @generateETag Fixtures.sample_digest (data item) /\
     expiresAt item = Fixtures.clock_ms 3%nat + 604800000) /\
  (exists item row rest g reading,
     JsMap.get "GET:/api/climate-data/geojson/ssp245/near-term_2021-2040/cdd"
       (cache
          (store
             (snd (@warm Fixtures.sample_digest Fixtures.db_with_metadata
                     Fixtures.clock_ms Fixtures.reversed
                     (new_InMemoryCache None (Some 29)))))) = Some item /\
     Fixtures.db_with_metadata (SelectGeoJSON_warmer "cdd")
       ["ssp245"; "near-term_2021-2040"] = Normal (row :: rest) /\
     field row "geojson" = Some g /\
     data item = JObj [ ("success", JBool true); ("data", g) ] /\
     expiresAt item = Fixtures.clock_ms reading + 2592000000).
Proof.
  assert (Hperm : forall batch, Permutation batch (Fixtures.reversed batch))
    by (intros batch; apply Permutation_rev).
  assert (Hempty : cache (new_InMemoryCache None (Some 29)) = []) by reflexivity.
  assert (Hmax : 29 <= maxSize (new_InMemoryCache None (Some 29)))
    by (vm_compute; discriminate).
  assert (Hi : Fixtures.db_with_metadata SelectActiveIndices []
               = Normal Fixtures.index_rows) by reflexivity.
  assert (Hmu : Fixtures.db_with_metadata SelectMunicipalities []
                = Normal Fixtures.municipality_rows) by reflexivity.
  assert (Hgood : forall index, In index CLIMATE_INDICES ->
            good_answer Fixtures.db_with_metadata "ssp245"
              "near-term_2021-2040" index).
  { intros index _.
    exists (JObj [ ("geojson", Fixtures.empty_collection) ]), [],
      Fixtures.empty_collection.
    repeat split. }
  split; [exact Hperm|]. split; [exact Hempty|]. split; [exact Hmax|].
  split; [exact Hi|]. split; [exact Hmu|]. split; [exact Hgood|].
  destruct (@warm_run_fills_empty_cache Fixtures.sample_digest
              Fixtures.db_with_metadata Fixtures.clock_ms Fixtures.reversed
              (new_InMemoryCache None (Some 29))
              Fixtures.index_rows Fixtures.municipality_rows
              Hperm Hempty Hmax Hi Hmu Hgood)
    as (_ & _ & Hsize & _ & _ & Hwarmed & Hfailed & _ & Hmunicipalities & Hgeo).
  split; [exact Hsize|]. split; [exact Hwarmed|]. split; [exact Hfailed|].
  split; [exact Hmunicipalities|].
  apply (Hgeo "cdd"). simpl. tauto.
Defined.

(** X28. From the warm run to the first request. After a run on an empty
    cache with room for 29 entries in which every query answers, each of
    the 27 GeoJSON keys holds an item that [warmEntry] wrote: the envelope
    [{ success: true, data: g }] of the [geojson] the database answered,
    expiring 30 days after a reading of the clock. A GET request for the
    URL of that key, made before the expiry, is answered by the middleware
    from the cache and counted as a hit; when it carries neither
    [If-None-Match] nor [If-Modified-Since] and the response has status
    200, the answer has status 200, [X-Cache: HIT] and that envelope as its
    body. *)
Theorem warmed_geojson_url_is_served_from_cache `{Digest} `{Express}
  db clock arrival c rows_i rows_m index :
  (forall batch, Permutation batch (arrival batch)) ->
  cache c = [] ->
  29 <= maxSize c ->
  db SelectActiveIndices [] = Normal rows_i ->
  db SelectMunicipalities [] = Normal rows_m ->
  (forall i, In i CLIMATE_INDICES ->
     good_answer db "ssp245" "near-term_2021-2040" i) ->
  In index CLIMATE_INDICES ->
  exists item,
    JsMap.get (warm_key "ssp245" "near-term_2021-2040" index)
      (cache (store (snd (warm db clock arrival c)))) = Some item /\
    warmed_item db clock "ssp245" "near-term_2021-2040" index item /\
    forall req res now,
      method req = "GET" ->
      originalUrl req
      = Routes.geojson_url "ssp245" "near-term_2021-2040" index ->
      now <= expiresAt item ->
      exists r,
        middleware (store (snd (warm db clock arrival c))) req res now
        = (Sent r,
           with_counters (store (snd (warm db clock arrival c)))
             (hits (store (snd (warm db clock arrival c))) + 1)
             (misses (store (snd (warm db clock arrival c))))) /\
        (if_none_match req = None ->
         JsMap.get "if-modified-since" (headers req) = None ->
         statusCode res = 200 ->
         statusCode r = 200 /\
         body r = Some (data item) /\
         JsMap.get "X-Cache" (resHeaders r) = Some "HIT").
Proof.
  intros Hperm Hempty Hmax Hi Hmu Hgood Hindex.
  pose proof (warm_good_run_keys db clock arrival c rows_i rows_m
                Hperm Hempty Hmax Hi Hmu Hgood) as Hkeys.
  assert (Hkey : In (warm_key "ssp245" "near-term_2021-2040" index)
                   (JsMap.keys (cache (store (snd (warm db clock arrival c)))))).
  { rewrite Hkeys. right. right. apply in_map.
    eapply Permutation_in;
      [symmetry; apply (tier1_order_perm arrival Hperm)|exact Hindex]. }
  destruct (map_in_keys_get _ _ Hkey) as (item & Hget).
  exists item. split; [exact Hget|].
  assert (Hitem : warmed_item db clock "ssp245" "near-term_2021-2040" index item).
  { pose proof (map_get_In _ _ _ Hget) as Hin.
    destruct (warmMetadata_counts db clock
                {| service := {| warmedCount := 0; failedCount := 0;
                                 startTime := Some (clock 0%nat) |};
                   store := c; readings := 1 |}) as (w1 & Hmeta & _).
    rewrite (warm_after_metadata db clock arrival c w1 Hperm Hmeta) in Hin.
    cbn [snd Date_now store] in Hin.
    destruct (warmTier1_entries db clock arrival w1 _ _ Hperm Hin)
      as [Hold|(j & Hj & Hk & Hj_item)].
    - exfalso.
      assert (Hw1 : w1 = snd (warmMetadata db clock
                                {| service := {| warmedCount := 0;
                                                 failedCount := 0;
                                                 startTime := Some (clock 0%nat) |};
                                   store := c; readings := 1 |}))
        by (now rewrite Hmeta).
      rewrite Hw1 in Hold.
      cbv [warmMetadata try_catch bind query ret cache_set Date_now add_warmed
             modify_service] in Hold.
      rewrite Hi in Hold. cbn [service store readings] in Hold.
      rewrite Hmu in Hold. cbn [snd service store readings] in Hold.
      destruct (warm_key_is_not_a_metadata_key index) as [Hn1 Hn2].
      apply set_entries_incl in Hold. destruct Hold as [[Hk _]|Hold];
        [contradiction|].
      apply set_entries_incl in Hold. destruct Hold as [[Hk _]|Hold];
        [contradiction|].
      rewrite Hempty in Hold. destruct Hold.
    - apply warm_key_injective in Hk. now subst j. }
  split; [exact Hitem|].
  intros req res now Hm Hurl Hle.
  assert (Hu : includes (originalUrl req) "/cache/" = false).
  { rewrite Hurl.
    apply (warm_keys_cacheable (warm_key "ssp245" "near-term_2021-2040" index)).
    - right. right. now apply in_map.
    - reflexivity. }
  assert (Hgk : generateKey req = warm_key "ssp245" "near-term_2021-2040" index).
  { unfold generateKey. rewrite Hm, Hurl. reflexivity. }
  rewrite <- Hgk in Hget.
  rewrite (middleware_hit _ req res now item Hm Hu Hget Hle).
  eexists. split; [reflexivity|].
  intros Hnone Hms Hs. rewrite Hnone. cbn [strict_eq].
  match goal with
  | |- statusCode (originalJson _ _ ?hit) = _ /\ _ =>
      destruct (originalJson_unconditional req (data item) hit Hm Hnone Hms Hs)
        as (Hstatus & Hbody & Hheaders)
  end.
  split; [exact Hstatus|]. split; [exact Hbody|].
  rewrite Hheaders by discriminate. cbn [resHeaders setHeader].
  rewrite !map_get_set_other by discriminate.
  apply map_get_set_same.
Qed.

Lemma warmed_geojson_url_is_served_from_cache_witness :
  (forall batch, Permutation batch (Fixtures.reversed batch)) /\
  cache (new_InMemoryCache None (Some 29)) = [] /\
  29 <= maxSize (new_InMemoryCache None (Some 29)) /\
  Fixtures.db_all_ok SelectActiveIndices [] = Normal [] /\
  Fixtures.db_all_ok SelectMunicipalities [] = Normal [] /\
  (forall i, In i CLIMATE_INDICES ->
     good_answer Fixtures.db_all_ok "ssp245" "near-term_2021-2040" i) /\
  In "cdd" CLIMATE_INDICES /\
  exists item,
    JsMap.get "GET:/api/climate-data/geojson/ssp245/near-term_2021-2040/cdd"
      (cache
         (store
            (snd (@warm Fixtures.sample_digest Fixtures.db_all_ok
                    Fixtures.clock_ms Fixtures.reversed
                    (new_InMemoryCache None (Some 29)))))) = Some item /\
    warmed_item Fixtures.db_all_ok Fixtures.clock_ms "ssp245"
      "near-term_2021-2040" "cdd" item.
Proof.
  assert (Hperm : forall batch, Permutation batch (Fixtures.reversed batch))
    by (intros batch; apply Permutation_rev).
  assert (Hempty : cache (new_InMemoryCache None (Some 29)) = []) by reflexivity.
  assert (Hmax : 29 <= maxSize (new_InMemoryCache None (Some 29)))
    by (vm_compute; discriminate).
  assert (Hi : Fixtures.db_all_ok SelectActiveIndices [] = Normal [])
    by reflexivity.
  assert (Hmu : Fixtures.db_all_ok SelectMunicipalities [] = Normal [])
    by reflexivity.
  assert (Hgood : forall i, In i CLIMATE_INDICES ->
            good_answer Fixtures.db_all_ok "ssp245" "near-term_2021-2040" i).
  { intros i _.
    exists (JObj [ ("geojson", Fixtures.empty_collection) ]), [],
      Fixtures.empty_collection.
    repeat split. }
  assert (Hin : In "cdd" CLIMATE_INDICES) by (simpl; tauto).
  split; [exact Hperm|]. split; [exact Hempty|]. split; [exact Hmax|].
  split; [exact Hi|]. split; [exact Hmu|]. split; [exact Hgood|].
  split; [exact Hin|].
  destruct (@warmed_geojson_url_is_served_from_cache Fixtures.sample_digest Fixtures.sample_express
              Fixtures.db_all_ok Fixtures.clock_ms Fixtures.reversed
              (new_InMemoryCache None (Some 29)) [] [] "cdd"
              Hperm Hempty Hmax Hi Hmu Hgood Hin)
    as (item & Hget & Hitem & _).
  exists item. split; [exact Hget|exact Hitem].
Defined.
